(** * Loan monitoring pipeline (loan_monitor.py)

    A shallow embedding of the report-assembly pipeline of
    [loan_monitor.py]: the selection query of [fetch_due_loans], the
    derived columns, the spreadsheet built by [generate_excel_report], the
    HTML body of [build_email_body], [send_email] and [main].

    Conventions of the embedding.
    - A Python [datetime.date] is the record [date] of its year, month and
      day.  [toordinal] and [fromordinal] follow CPython's [_ymd2ord] and
      [_ord2ymd]; [d + timedelta(days=n)] is [date_add_days d n] and
      [(a - b).days] is [days_between a b].  The range check of the real
      type (years 1 to 9999, [OverflowError] outside) is left out of these
      functions; [valid_date] and [_MAXORDINAL] state the range where a
      statement needs it.
    - Monetary amounts are exact and held in hundredths (an integer number
      of cents); [{x:,.2f}] is [fmt_money].
    - The columns of the database hold no NULL.  A value of the
      [due_date] column is either a calendar date or text that is none
      ([due_cell]).  The data source is there and can be opened.
    - The configuration is the options as [configparser] reads them
      ([config]); a file with a value it cannot read is outside the
      model.
    - A DataFrame is the list of its rows, each a record of its columns;
      the workbook and the HTML body are kept as the cells, rows and
      texts the program puts into them, not as bytes.
    - The process talks to its surroundings through a [world]: the
      successive readings of [date.today()], the file system, the log, the
      database behind the connection and the mail transport.  Code that
      can raise runs in the state-and-exception monad [M]. *)

From Stdlib Require Import ZArith List String Ascii Bool Lia.
From stdpp Require Import base decidable option list strings gmap sorting pretty.

Local Open Scope string_scope.
Local Open Scope list_scope.
Local Open Scope Z_scope.

(** ** Python's [datetime.date] *)

Module Calendar.

Record date := mkdate { year : Z; month : Z; day : Z }.

#[global] Instance date_eq_dec : EqDecision date.
Proof. solve_decision. Defined.

Definition _is_leap (y : Z) : bool :=
  (y mod 4 =? 0) && (negb (y mod 100 =? 0) || (y mod 400 =? 0)).

Definition _days_before_year (year : Z) : Z :=
  let y := year - 1 in
  y * 365 + y / 4 - y / 100 + y / 400.

Definition _DAYS_IN_MONTH : list Z :=
  [-1; 31; 28; 31; 30; 31; 30; 31; 31; 30; 31; 30; 31].

Definition _DAYS_BEFORE_MONTH : list Z :=
  [-1; 0; 31; 59; 90; 120; 151; 181; 212; 243; 273; 304; 334].

Definition table (t : list Z) (i : Z) : Z := nth (Z.to_nat i) t 0.

Definition _days_before_month (year month : Z) : Z :=
  table _DAYS_BEFORE_MONTH month
  + (if (2 <? month) && _is_leap year then 1 else 0).

Definition _ymd2ord (year month day : Z) : Z :=
  _days_before_year year + _days_before_month year month + day.

Definition _DI400Y : Z := _days_before_year 401.
Definition _DI100Y : Z := _days_before_year 101.
Definition _DI4Y : Z := _days_before_year 5.

Definition _ord2ymd (n : Z) : date :=
  let n := n - 1 in
  let n400 := n / _DI400Y in
  let n := n mod _DI400Y in
  let year := n400 * 400 + 1 in
  let n100 := n / _DI100Y in
  let n := n mod _DI100Y in
  let n4 := n / _DI4Y in
  let n := n mod _DI4Y in
  let n1 := n / 365 in
  let n := n mod 365 in
  let year := year + n100 * 100 + n4 * 4 + n1 in
  if (n1 =? 4) || (n100 =? 4) then mkdate (year - 1) 12 31
  else
    let leapyear := (n1 =? 3) && (negb (n4 =? 24) || (n100 =? 3)) in
    let month := Z.shiftr (n + 50) 5 in
    let preceding :=
      table _DAYS_BEFORE_MONTH month
      + (if (2 <? month) && leapyear then 1 else 0) in
    if n <? preceding then
      let month := month - 1 in
      let preceding :=
        preceding
        - (table _DAYS_IN_MONTH month
           + (if (month =? 2) && leapyear then 1 else 0)) in
      mkdate year month (n - preceding + 1)
    else mkdate year month (n - preceding + 1).

Definition toordinal (d : date) : Z := _ymd2ord (year d) (month d) (day d).
Definition fromordinal (n : Z) : date := _ord2ymd n.

(** [d + timedelta(days=n)], for a sum inside the calendar.  Python raises
    OverflowError when the ordinal of the sum falls outside 1 .. 3652059;
    the function gives the date of that ordinal by the same arithmetic
    (see [valid_date] and [_MAXORDINAL] below for the range). *)
Definition date_add_days (d : date) (n : Z) : date :=
  fromordinal (toordinal d + n).

(** [(a - b).days] *)
Definition days_between (a b : date) : Z := toordinal a - toordinal b.

(** Comparison of dates is comparison of the (year, month, day) triples. *)
Definition date_leb (a b : date) : bool :=
  (year a <? year b)
  || ((year a =? year b)
      && ((month a <? month b)
          || ((month a =? month b) && (day a <=? day b)))).

Definition date_le (a b : date) : Prop := date_leb a b = true.

(** [date.weekday()]: Monday is 0. *)
Definition weekday (d : date) : Z := (toordinal d + 6) mod 7.

(** A date the real type can hold, as far as the digits of its fields go. *)
Definition in_range (d : date) : Prop :=
  0 <= year d < 10000 /\ 0 <= month d < 100 /\ 0 <= day d < 100.

(** *** Rendering *)

Definition digit_char (n : Z) : ascii :=
  ascii_of_nat (48 + Z.to_nat (n mod 10)).

(** The [k] low decimal digits of [n], most significant first
    (the [%0kd] conversion for [0 <= n < 10^k]). *)
Fixpoint digits (k : nat) (n : Z) : string :=
  match k with
  | O => ""
  | S k' => String (digit_char (n / 10 ^ Z.of_nat k')) (digits k' n)
  end.

Definition _MONTHNAMES : list string :=
  [""; "Jan"; "Feb"; "Mar"; "Apr"; "May"; "Jun";
   "Jul"; "Aug"; "Sep"; "Oct"; "Nov"; "Dec"].

Definition month_full_names : list string :=
  [""; "January"; "February"; "March"; "April"; "May"; "June"; "July";
   "August"; "September"; "October"; "November"; "December"].

Definition day_full_names : list string :=
  ["Monday"; "Tuesday"; "Wednesday"; "Thursday"; "Friday"; "Saturday";
   "Sunday"].

Definition name_at (t : list string) (i : Z) : string :=
  nth (Z.to_nat i) t "".

(** One conversion of [strftime] (C locale); the program uses
    [%Y %m %d %A %B %b]. *)
Definition directive (c : ascii) (d : date) : string :=
  if Ascii.eqb c "Y" then digits 4 (year d)
  else if Ascii.eqb c "m" then digits 2 (month d)
  else if Ascii.eqb c "d" then digits 2 (day d)
  else if Ascii.eqb c "A" then name_at day_full_names (weekday d)
  else if Ascii.eqb c "B" then name_at month_full_names (month d)
  else if Ascii.eqb c "b" then name_at _MONTHNAMES (month d)
  else String "%" (String c "").

Fixpoint strftime (fmt : string) (d : date) : string :=
  match fmt with
  | "" => ""
  | String c rest =>
      if Ascii.eqb c "%" then
        match rest with
        | "" => "%"
        | String c' rest' => directive c' d +:+ strftime rest' d
        end
      else String c (strftime rest d)
  end.

(** [str(d)], that is [d.isoformat()]. *)
Definition isoformat (d : date) : string :=
  digits 4 (year d) +:+ "-" +:+ digits 2 (month d) +:+ "-" +:+ digits 2 (day d).

End Calendar.
Export Calendar.

(** ** Values and their rendering *)

(** What a DataFrame cell, a tuple field or a spreadsheet cell holds. *)
Inductive value :=
  | VStr (s : string)
  | VInt (z : Z)
  | VMoney (cents : Z)
  | VDate (d : date).

#[global] Instance value_eq_dec : EqDecision value.
Proof. solve_decision. Defined.

(** [v == s] for a string literal [s]: values of other types are unequal. *)
Definition py_eq_str (v : value) (s : string) : bool :=
  match v with VStr t => String.eqb t s | _ => false end.

(** [v < z] and [v <= z] for an integer literal [z].  The program applies
    them to the Days Remaining field only, which is an integer; on a value
    of another type (where Python raises) the model answers [false]. *)
Definition py_lt_int (v : value) (z : Z) : bool :=
  match v with VInt x => x <? z | _ => false end.
Definition py_le_int (v : value) (z : Z) : bool :=
  match v with VInt x => x <=? z | _ => false end.

(** Thousands grouping of a non-negative integer ([{n:,}]). *)
Fixpoint group3 (fuel : nat) (n : Z) : string :=
  match fuel with
  | O => pretty n
  | S fuel' =>
      if n <? 1000 then pretty n
      else group3 fuel' (n / 1000) +:+ "," +:+ digits 3 (n mod 1000)
  end.

(** [f"{x:,.2f}"] for an amount of [cents] hundredths. *)
Definition fmt_money (cents : Z) : string :=
  let a := Z.abs cents in
  (if cents <? 0 then "-" else "")
  +:+ group3 (Z.to_nat (Z.log2 a)) (a / 100) +:+ "." +:+ digits 2 (a mod 100).

(** [str(v)] *)
Definition py_str (v : value) : string :=
  match v with
  | VStr s => s
  | VInt z => pretty z
  | VMoney c => fmt_money c
  | VDate d => isoformat d
  end.

Definition upper_char (c : ascii) : ascii :=
  let n := nat_of_ascii c in
  if (Nat.leb 97 n && Nat.leb n 122)%nat then ascii_of_nat (n - 32) else c.
Definition lower_char (c : ascii) : ascii :=
  let n := nat_of_ascii c in
  if (Nat.leb 65 n && Nat.leb n 90)%nat then ascii_of_nat (n + 32) else c.

Fixpoint map_string (f : ascii -> ascii) (s : string) : string :=
  match s with
  | "" => ""
  | String c rest => String (f c) (map_string f rest)
  end.

(** [s.upper()] and [s.lower()], on the ASCII letters. *)
Definition upper : string -> string := map_string upper_char.
Definition lower : string -> string := map_string lower_char.

(** ** The data source *)

(** The [due_date] column as the data source holds it.  [DueOn d] is a
    calendar date (ISO text [YYYY-MM-DD] under SQLite, a native date
    elsewhere): the data source orders such values by the calendar and
    [pd.to_datetime] reads them as [d].  [BadText s] is any other text, one
    that [pd.to_datetime] cannot read as a date; the data source compares it
    as text, byte by byte, with the ISO text of a bound. *)
Inductive due_cell :=
  | DueOn (d : date)
  | BadText (raw : string).

#[global] Instance due_cell_eq_dec : EqDecision due_cell.
Proof. solve_decision. Defined.

Definition cell_text (c : due_cell) : string :=
  match c with DueOn d => isoformat d | BadText s => s end.

(** [c <= bound] in SQL, for a bound passed as [str(bound)]. *)
Definition sql_le_bound (c : due_cell) (bound : date) : bool :=
  match c with
  | DueOn d => date_leb d bound
  | BadText s => String.leb s (isoformat bound)
  end.

(** [c >= bound] in SQL. *)
Definition sql_ge_bound (c : due_cell) (bound : date) : bool :=
  match c with
  | DueOn d => date_leb bound d
  | BadText s => String.leb (isoformat bound) s
  end.

(** The order of [ORDER BY l.due_date ASC]. *)
Definition cell_leb (a b : due_cell) : bool :=
  match a, b with
  | DueOn x, DueOn y => date_leb x y
  | _, _ => String.leb (cell_text a) (cell_text b)
  end.

Record loan := {
  l_loan_id : string;
  l_customer_id : Z;
  l_branch_id : Z;
  l_amount_borrowed : Z;
  l_outstanding_balance : Z;
  l_due_date : due_cell;
  l_loan_status : string }.

Record customer := {
  c_customer_id : Z;
  c_full_name : string;
  c_phone_number : string;
  c_email : string }.

Record branch := {
  b_branch_id : Z;
  b_loan_officer : string;
  b_branch_name : string }.

Record database := {
  loans : list loan;
  customers : list customer;
  branches : list branch }.

(** A row of the query's result: the ten selected columns. *)
Record raw_row := {
  rr_customer_name : string;
  rr_loan_id : string;
  rr_amount_borrowed : Z;
  rr_outstanding_balance : Z;
  rr_due_date : due_cell;
  rr_phone_number : string;
  rr_email : string;
  rr_loan_officer : string;
  rr_branch : string;
  rr_loan_status : string }.

#[global] Instance raw_row_eq_dec : EqDecision raw_row.
Proof. solve_decision. Defined.

Definition select_columns (l : loan) (c : customer) (b : branch) : raw_row :=
  {| rr_customer_name := c_full_name c;
     rr_loan_id := l_loan_id l;
     rr_amount_borrowed := l_amount_borrowed l;
     rr_outstanding_balance := l_outstanding_balance l;
     rr_due_date := l_due_date l;
     rr_phone_number := c_phone_number c;
     rr_email := c_email c;
     rr_loan_officer := b_loan_officer b;
     rr_branch := b_branch_name b;
     rr_loan_status := l_loan_status l |}.

(** [FROM loans l JOIN customers c ON l.customer_id = c.customer_id
         JOIN branches b ON l.branch_id = b.branch_id] *)
Definition joined (db : database) : list raw_row :=
  flat_map (fun l =>
    flat_map (fun c =>
      if l_customer_id l =? c_customer_id c then
        flat_map (fun b =>
          if l_branch_id l =? b_branch_id b then [select_columns l c b]
          else [])
          (branches db)
      else [])
      (customers db))
    (loans db).

(** The two forms of [due_filter]. *)
Definition due_filter (include_overdue : bool) (today cutoff : date)
    (c : due_cell) : bool :=
  if include_overdue then sql_le_bound c cutoff
  else sql_ge_bound c today && sql_le_bound c cutoff.

(** [WHERE {due_filter} AND l.loan_status != 'Paid'] *)
Definition where_clause (include_overdue : bool) (today cutoff : date)
    (r : raw_row) : bool :=
  due_filter include_overdue today cutoff (rr_due_date r)
  && negb (String.eqb (rr_loan_status r) "Paid").

Definition by_due_date (a b : raw_row) : Prop :=
  cell_leb (rr_due_date a) (rr_due_date b) = true.

#[global] Instance by_due_date_dec : RelDecision by_due_date.
Proof. intros a b. unfold by_due_date. apply _. Defined.

(** [pd.read_sql_query(query, conn, params)] *)
Definition read_sql_query (conn : database) (include_overdue : bool)
    (today cutoff : date) : list raw_row :=
  merge_sort by_due_date
    (List.filter (where_clause include_overdue today cutoff) (joined conn)).

(** ** The report table *)

(** A row of the DataFrame [fetch_due_loans] returns; the fields are in the
    order of its columns. *)
Record report_row := {
  customer_name : string;
  loan_id : string;
  amount_borrowed : Z;
  outstanding_balance : Z;
  due_date : date;
  days_remaining : Z;
  phone_number : string;
  email : string;
  officer_branch : string;
  loan_status : string }.

#[global] Instance report_row_eq_dec : EqDecision report_row.
Proof. solve_decision. Defined.

(** [df.columns] after the reordering at the end of [fetch_due_loans]. *)
Definition report_columns : list string :=
  [ "Customer Name";
    "Loan ID";
    "Amount Borrowed";
    "Outstanding Balance";
    "Due Date";
    "Days Remaining";
    "Phone Number";
    "Email";
    "Loan Officer / Branch";
    "Loan Status" ].

(** The tuple [df.itertuples(index=False)] yields for a row. *)
Definition row_tuple (r : report_row) : list value :=
  [ VStr (customer_name r);
    VStr (loan_id r);
    VMoney (amount_borrowed r);
    VMoney (outstanding_balance r);
    VDate (due_date r);
    VInt (days_remaining r);
    VStr (phone_number r);
    VStr (email r);
    VStr (officer_branch r);
    VStr (loan_status r) ].

(** Positional access to a tuple ([row._9], [row._5]). *)
Definition field (row : list value) (i : nat) : value :=
  nth i row (VStr "").

(** ** The spreadsheet *)

Definition CLR_HEADER_BG : string := "1F3864".
Definition CLR_HEADER_FG : string := "FFFFFF".
Definition CLR_OVERDUE_BG : string := "FFE0E0".
Definition CLR_ACTIVE_BG : string := "E8F5E9".
Definition CLR_ALT_ROW : string := "F5F8FF".
Definition CLR_TITLE_BG : string := "2E75B6".
Definition CLR_SUMMARY_BG : string := "EBF3FB".

Record font := {
  f_bold : bool;
  f_color : string;
  f_size : Z;
  f_italic : bool }.

(** [_font(bold, color, size, italic)]; the defaults are
    [False, "000000", 10, False]. *)
Definition _font (bold : bool) (color : string) (size : Z) (italic : bool)
    : font :=
  {| f_bold := bold; f_color := color; f_size := size; f_italic := italic |}.

(** A cell: its value and the styles the program sets on it ([None] where
    it sets none).  Borders, row heights, column widths, merged ranges and
    frozen panes carry no data and are left out. *)
Record cell := {
  c_value : value;
  c_font : option font;
  c_fill : option string;
  c_horizontal : option string;
  c_number_format : option string }.

Record detail_sheet := {
  ws_title : string;
  ws_a1 : cell;
  ws_a2 : cell;
  ws_header : list cell;
  ws_data : list (Z * list cell) }.

Record summary_sheet := {
  ws2_title : string;
  ws2_a1 : cell;
  ws2_rows : list (Z * (cell * cell)) }.

Record workbook := {
  wb_detail : detail_sheet;
  wb_summary : summary_sheet }.

(** The body of the loop over the fields of a data row. *)
Definition data_cell (col_name : string) (value : value) (row_fill : string)
    : cell :=
  if String.eqb col_name "Amount Borrowed"
     || String.eqb col_name "Outstanding Balance" then
    {| c_value := value; c_font := None; c_fill := Some row_fill;
       c_horizontal := Some "right"; c_number_format := Some "#,##0.00" |}
  else if String.eqb col_name "Due Date" then
    {| c_value := VStr (py_str value); c_font := None;
       c_fill := Some row_fill;
       c_horizontal := Some "center"; c_number_format := None |}
  else if String.eqb col_name "Days Remaining" then
    {| c_value := value;
       c_font :=
         Some (if py_lt_int value 0 then _font true "CC0000" 10 false
               else if py_le_int value 3 then _font true "E65100" 10 false
               else _font false "000000" 10 false);
       c_fill := Some row_fill;
       c_horizontal := Some "center"; c_number_format := None |}
  else if String.eqb col_name "Loan Status" then
    {| c_value := value;
       c_font :=
         Some (if py_eq_str value "Overdue" then _font true "CC0000" 10 false
               else _font true "1B7A1B" 10 false);
       c_fill := Some row_fill;
       c_horizontal := Some "center"; c_number_format := None |}
  else
    {| c_value := value; c_font := Some (_font false "000000" 10 false);
       c_fill := Some row_fill;
       c_horizontal := None; c_number_format := None |}.

(** The fill of a data row: red tint when overdue, else alternating. *)
Definition row_fill (row_idx : Z) (row : list value) : string :=
  let status := field row 9 in
  let days_remaining := field row 5 in
  if py_eq_str status "Overdue" || py_lt_int days_remaining 0 then
    CLR_OVERDUE_BG
  else if row_idx mod 2 =? 0 then CLR_ALT_ROW
  else "FFFFFF".

(** One data row, at sheet row [row_idx]. *)
Definition data_row (columns : list string) (row_idx : Z) (row : list value)
    : Z * list cell :=
  (row_idx,
   imap (fun j value => data_cell (nth j columns "") value (row_fill row_idx row))
        row).

Definition header_cell (col_name : string) : cell :=
  {| c_value := VStr col_name;
     c_font := Some (_font true CLR_HEADER_FG 10 false);
     c_fill := Some CLR_HEADER_BG;
     c_horizontal := Some "center"; c_number_format := None |}.

(** [len(df[df[col] == s])] and the like. *)
Definition count_rows (p : report_row -> bool) (df : list report_row) : Z :=
  Z.of_nat (length (List.filter p df)).

(** [df[col].sum()] *)
Definition sum_column (f : report_row -> Z) (df : list report_row) : Z :=
  fold_right Z.add 0 (map f df).

Definition status_is (s : string) (r : report_row) : bool :=
  String.eqb (loan_status r) s.

Definition summary_data (df : list report_row) (today : date)
    : list (string * value) :=
  let overdue_df := List.filter (status_is "Overdue") df in
  let active_df := List.filter (status_is "Active") df in
  [ ("Report Date", VStr (strftime "%d %B %Y" today));
    ("Reporting Period", VStr "Next 7 Days + Overdue");
    ("", VStr "");
    ("LOAN COUNTS", VStr "");
    ("Total Loans in Report", VInt (Z.of_nat (length df)));
    ("Active Loans", VInt (Z.of_nat (length active_df)));
    ("Overdue Loans", VInt (Z.of_nat (length overdue_df)));
    ("", VStr "");
    ("FINANCIAL SUMMARY", VStr "");
    ("Total Amount Borrowed (KES)",
      VStr (fmt_money (sum_column amount_borrowed df)));
    ("Total Outstanding (KES)",
      VStr (fmt_money (sum_column outstanding_balance df)));
    ("Overdue Outstanding (KES)",
      VStr (fmt_money (sum_column outstanding_balance overdue_df)));
    ("", VStr "");
    ("DUE THIS WEEK", VStr "");
    ("Due Today",
      VInt (count_rows (fun r => days_remaining r =? 0) df));
    ("Due in 1-3 Days",
      VInt (count_rows
              (fun r => (1 <=? days_remaining r) && (days_remaining r <=? 3))
              df));
    ("Due in 4-7 Days",
      VInt (count_rows
              (fun r => (4 <=? days_remaining r) && (days_remaining r <=? 7))
              df));
    ("Already Overdue",
      VInt (count_rows (fun r => days_remaining r <? 0) df)) ].

Definition is_section_label (label : string) : bool :=
  String.eqb label "LOAN COUNTS"
  || String.eqb label "FINANCIAL SUMMARY"
  || String.eqb label "DUE THIS WEEK".

(** A row of the summary sheet: the label cell and the value cell. *)
Definition summary_row (r_idx : Z) (lv : string * value) : Z * (cell * cell) :=
  let '(label, value) := lv in
  let mk v fnt fl h :=
    {| c_value := v; c_font := fnt; c_fill := fl; c_horizontal := h;
       c_number_format := None |} in
  if is_section_label label then
    (r_idx,
     (mk (VStr label) (Some (_font true CLR_HEADER_FG 10 false))
         (Some CLR_HEADER_BG) None,
      mk value (Some (_font true CLR_HEADER_FG 10 false))
         (Some CLR_HEADER_BG) (Some "center")))
  else if String.eqb label "" then
    (r_idx,
     (mk (VStr label) None (Some "FFFFFF") None,
      mk value None (Some "FFFFFF") (Some "center")))
  else
    let bg := if r_idx mod 2 =? 0 then CLR_SUMMARY_BG else "FFFFFF" in
    (r_idx,
     (mk (VStr label) (Some (_font false "000000" 10 false)) (Some bg) None,
      mk value (Some (_font true "000000" 10 false)) (Some bg)
         (Some "center"))).

(** The path [generate_excel_report] writes to. *)
Definition report_filename (today : date) : string :=
  "reports" +:+ "/Loans_Due_Report_" +:+ strftime "%Y%m%d" today +:+ ".xlsx".

(** The workbook [generate_excel_report] builds from [df] on the day
    [today]. *)
Definition build_workbook (df : list report_row) (company_name : string)
    (today : date) : workbook :=
  let columns := report_columns in
  let title_cell :=
    {| c_value :=
         VStr ("📋  " +:+ upper company_name +:+ "  –  LOAN DUE DATE ALERT");
       c_font := Some (_font true CLR_HEADER_FG 14 false);
       c_fill := Some CLR_TITLE_BG;
       c_horizontal := Some "center"; c_number_format := None |} in
  let sub_cell :=
    {| c_value :=
         VStr ("Report Generated: " +:+ strftime "%A, %d %B %Y" today
               +:+ "  |  "
               +:+ "Loans Due: " +:+ strftime "%d %b" today +:+ " – "
               +:+ strftime "%d %b %Y" (date_add_days today 7) +:+ "  |  "
               +:+ "Total Records: " +:+ pretty (length df));
       c_font := Some (_font false "FFFFFF" 9 true);
       c_fill := Some "2E75B6";
       c_horizontal := Some "center"; c_number_format := None |} in
  let ws :=
    {| ws_title := "Loans Due This Week";
       ws_a1 := title_cell;
       ws_a2 := sub_cell;
       ws_header := map header_cell columns;
       ws_data :=
         imap (fun i r => data_row columns (5 + Z.of_nat i) (row_tuple r)) df
    |} in
  let summary_title :=
    {| c_value := VStr "LOAN REPORT SUMMARY";
       c_font := Some (_font true CLR_HEADER_FG 13 false);
       c_fill := Some CLR_TITLE_BG;
       c_horizontal := Some "center"; c_number_format := None |} in
  let ws2 :=
    {| ws2_title := "Summary";
       ws2_a1 := summary_title;
       ws2_rows :=
         imap (fun i lv => summary_row (2 + Z.of_nat i) lv)
              (summary_data df today) |} in
  {| wb_detail := ws; wb_summary := ws2 |}.

(** ** The HTML body *)

Record html_td := { td_style : string; td_html : string }.

(** A row of the detail table: [<tr style="background-color:{color};">]. *)
Record html_tr := { tr_background : string; tr_cells : list html_td }.

(** The holes of the template of [build_email_body]: the heading, the
    generation date, the rows of the summary table, the header cells of the
    detail table and its rows. *)
Record email_body := {
  eb_company : string;
  eb_generated : string;
  eb_summary : list (string * string);
  eb_columns : list string;
  eb_rows : list html_tr }.

(** The [<th>] cells of the detail table, as the template lists them. *)
Definition email_columns : list string :=
  [ "Customer Name";
    "Loan ID";
    "Amount Borrowed";
    "Outstanding Balance";
    "Due Date";
    "Days Remaining";
    "Phone";
    "Loan Officer / Branch";
    "Status" ].

(** [days_display] of a row. *)
Definition days_display (row : report_row) : string :=
  if days_remaining row <? 0 then
    "<span style='color:red;font-weight:bold;'>"
    +:+ pretty (days_remaining row) +:+ " (Overdue)</span>"
  else
    "<span style='color:"
    +:+ (if days_remaining row <=? 3 then "#e65100" else "#1b7a1b")
    +:+ ";font-weight:bold;'>" +:+ pretty (days_remaining row) +:+ "</span>".

(** The body of the loop [for _, row in df.iterrows()]; [idx] is the index
    label of the row, its position in the table. *)
Definition email_row (idx : nat) (row : report_row) : html_tr :=
  let color :=
    if String.eqb (loan_status row) "Overdue" then "#ffe0e0"
    else if Z.of_nat idx mod 2 =? 0 then "#ffffff" else "#f5f8ff" in
  let status_color :=
    if String.eqb (loan_status row) "Overdue" then "red" else "green" in
  {| tr_background := color;
     tr_cells :=
       [ {| td_style := ""; td_html := customer_name row |};
         {| td_style := ""; td_html := loan_id row |};
         {| td_style := "text-align:right;";
            td_html := "KES " +:+ fmt_money (amount_borrowed row) |};
         {| td_style := "text-align:right;";
            td_html := "KES " +:+ fmt_money (outstanding_balance row) |};
         {| td_style := "text-align:center;";
            td_html := isoformat (due_date row) |};
         {| td_style := "text-align:center;"; td_html := days_display row |};
         {| td_style := ""; td_html := phone_number row |};
         {| td_style := ""; td_html := officer_branch row |};
         {| td_style :=
              "color:" +:+ status_color
              +:+ ";font-weight:bold;text-align:center;";
            td_html := loan_status row |} ] |}.

(** The body [build_email_body] returns on the day [today]. *)
Definition render_email_body (df : list report_row) (company_name : string)
    (today : date) : email_body :=
  let overdue_count := length (List.filter (status_is "Overdue") df) in
  let active_count := length (List.filter (status_is "Active") df) in
  let total_outstanding := sum_column outstanding_balance df in
  let overdue_outstanding :=
    sum_column outstanding_balance (List.filter (status_is "Overdue") df) in
  {| eb_company := company_name;
     eb_generated := strftime "%A, %d %B %Y" today;
     eb_summary :=
       [ ("Total Loans in Report", pretty (length df));
         ("Active Loans", pretty active_count);
         ("Overdue Loans", pretty overdue_count);
         ("Total Outstanding Balance", "KES " +:+ fmt_money total_outstanding);
         ("Overdue Outstanding", "KES " +:+ fmt_money overdue_outstanding) ];
     eb_columns := email_columns;
     eb_rows := imap email_row df |}.

Record message := {
  msg_subject : string;
  msg_from : string;
  msg_to : string;
  msg_html : email_body;
  msg_attachment_name : string;
  msg_attachment : workbook }.

(** ** Configuration, the world and the monad *)

(** [config.ini] once read.  An option the file does not set is [None];
    an option it sets is the value [configparser] returns for it: the text
    after interpolation, the number [getint] reads, the flag [getboolean]
    reads.  A file with a value that [configparser] cannot read (a lone
    [%], text where [getint] or [getboolean] is used) has no counterpart
    here.  [cfg_email_section] says whether the file has an [EMAIL] section
    at all; it matters only when none of the options of that section is
    set, where an empty section and a missing one are read differently. *)
Record config := {
  cfg_email_section : bool;
  cfg_db_type : option string;
  cfg_days_lookahead : option Z;
  cfg_include_overdue : option bool;
  cfg_save_local_copy : option bool;
  cfg_company_name : option string;
  cfg_sender_email : option string;
  cfg_sender_password : option string;
  cfg_recipient_email : option string;
  cfg_recipient_name : option string;
  cfg_smtp_server : option string;
  cfg_smtp_port : option Z;
  cfg_email_subject : option string }.

(** The errors of a run.  [FileNotFoundError], [ValueError] and
    [SMTPException] carry their message; [DateParseError], the error of
    [pd.to_datetime], carries the text it could not read; the two errors of
    [configparser] carry the names they report. *)
Inductive exn :=
  | FileNotFoundError (what : string)
  | ValueError (what : string)
  | DateParseError (raw : string)
  | NoSectionError (section : string)
  | NoOptionError (option_name section : string)
  | SMTPException (what : string).

(** [repr] of a text that holds no quote, no backslash and no character
    that is not printable, as the paths of the reports are. *)
Definition py_repr (s : string) : string := "'" +:+ s +:+ "'".

(** [str(e)], the text [main] logs for an error of [send_email].  The
    wording of the parse error depends on the version of pandas; [main]
    calls [fetch_due_loans] outside its [try] and never logs it, and
    [exn_str] gives the unread text alone. *)
Definition exn_str (e : exn) : string :=
  match e with
  | FileNotFoundError s => s
  | ValueError s => s
  | DateParseError s => s
  | NoSectionError section => "No section: " +:+ py_repr section
  | NoOptionError name section =>
      "No option " +:+ py_repr name +:+ " in section: " +:+ py_repr section
  | SMTPException s => s
  end.

(** The message of the [OSError] for a path that does not exist. *)
Definition no_such_file (path : string) : string :=
  "[Errno 2] No such file or directory: " +:+ py_repr path.

Inductive level := INFO | ERROR.

(** What the process can see and change.  [today_at n] is the date the
    [n]-th call of [date.today()] returns and [reads] counts the calls so
    far; [smtp_error], when set, is the error the mail transport answers
    every session with. *)
Record world := {
  today_at : nat -> date;
  reads : nat;
  config_file : option config;
  db : database;
  files : gmap string workbook;
  log : list (level * string);
  smtp_error : option string;
  outbox : list message }.

Inductive result (A : Type) :=
  | Ok (a : A)
  | Raised (e : exn).
Arguments Ok {A} a.
Arguments Raised {A} e.

Definition M (A : Type) : Type := world -> result A * world.

#[global] Instance M_ret : MRet M := fun A a w => (Ok a, w).
#[global] Instance M_bind : MBind M := fun A B k m w =>
  match m w with
  | (Ok a, w') => k a w'
  | (Raised e, w') => (Raised e, w')
  end.

Definition raise {A} (e : exn) : M A := fun w => (Raised e, w).

(** [try: body except Exception as e: handler e] *)
Definition try_except {A} (body : M A) (handler : exn -> M A) : M A :=
  fun w =>
    match body w with
    | (Ok a, w') => (Ok a, w')
    | (Raised e, w') => handler e w'
    end.

(** The world after one more reading of the clock. *)
Definition tick (w : world) : world :=
  {| today_at := today_at w; reads := S (reads w);
     config_file := config_file w; db := db w; files := files w;
     log := log w; smtp_error := smtp_error w; outbox := outbox w |}.

(** [date.today()] *)
Definition date_today : M date := fun w => (Ok (today_at w (reads w)), tick w).

Definition add_log (lv : level) (s : string) (w : world) : world :=
  {| today_at := today_at w; reads := reads w;
     config_file := config_file w; db := db w; files := files w;
     log := log w ++ [(lv, s)];
     smtp_error := smtp_error w; outbox := outbox w |}.

Definition write_log (lv : level) (s : string) : M unit := fun w =>
  (Ok tt, add_log lv s w).

Definition log_info : string -> M unit := write_log INFO.
Definition log_error : string -> M unit := write_log ERROR.

Definition set_files (fs : gmap string workbook) (w : world) : world :=
  {| today_at := today_at w; reads := reads w;
     config_file := config_file w; db := db w; files := fs;
     log := log w; smtp_error := smtp_error w; outbox := outbox w |}.

(** [wb.save(filename)] *)
Definition save_workbook (filename : string) (wb : workbook) : M unit :=
  fun w => (Ok tt, set_files (<[filename := wb]> (files w)) w).

(** [open(path, "rb").read()] *)
Definition read_file (path : string) : M workbook := fun w =>
  match files w !! path with
  | Some wb => (Ok wb, w)
  | None => (Raised (FileNotFoundError (no_such_file path)), w)
  end.

(** [os.path.exists(path)] *)
Definition path_exists (path : string) : M bool := fun w =>
  (Ok (bool_decide (is_Some (files w !! path))), w).

(** [os.remove(path)] *)
Definition remove_file (path : string) : M unit := fun w =>
  match files w !! path with
  | Some _ => (Ok tt, set_files (delete path (files w)) w)
  | None => (Raised (FileNotFoundError (no_such_file path)), w)
  end.

Definition add_outbox (msg : message) (w : world) : world :=
  {| today_at := today_at w; reads := reads w;
     config_file := config_file w; db := db w; files := files w;
     log := log w; smtp_error := smtp_error w;
     outbox := outbox w ++ [msg] |}.

(** One SMTP session: [ehlo], [starttls], [login], [sendmail]. *)
Definition smtp_send (msg : message) : M unit := fun w =>
  match smtp_error w with
  | Some e => (Raised (SMTPException e), w)
  | None => (Ok tt, add_outbox msg w)
  end.

(** Whether the file has an [EMAIL] section: it has one when it sets one
    of its options. *)
Definition has_email_section (cfg : config) : bool :=
  cfg_email_section cfg
  || bool_decide (is_Some (cfg_sender_email cfg))
  || bool_decide (is_Some (cfg_sender_password cfg))
  || bool_decide (is_Some (cfg_recipient_email cfg))
  || bool_decide (is_Some (cfg_recipient_name cfg))
  || bool_decide (is_Some (cfg_smtp_server cfg))
  || bool_decide (is_Some (cfg_smtp_port cfg))
  || bool_decide (is_Some (cfg_email_subject cfg))
  || bool_decide (is_Some (cfg_company_name cfg)).

(** [cfg.get(section, option)] without a fallback: [NoSectionError] when
    the file has no such section, [NoOptionError] when the section does
    not set the option. *)
Definition cfg_get {A} (section : string) (present : bool) (name : string)
    (o : option A) : M A :=
  if present then
    match o with
    | Some a => mret a
    | None => raise (NoOptionError name section)
    end
  else raise (NoSectionError section).

(** ** The pipeline *)

Definition load_config (path : string) : M config := fun w =>
  match config_file w with
  | Some cfg => (Ok cfg, w)
  | None => (Raised (FileNotFoundError ("Config file not found: " +:+ path)), w)
  end.

(** The connection is the database it leads to.  The model starts where
    the data source is there and can be opened: [db] is the database the
    connection reads.  Not modelled are the seeding of a demonstration
    database from [loan_schema.sql] when the SQLite file is missing, the
    two lines logged with it, and a driver that fails to connect. *)
Definition get_db_connection (cfg : config) : M database :=
  let db_type := lower (default "sqlite" (cfg_db_type cfg)) in
  if String.eqb db_type "sqlite" || String.eqb db_type "mysql"
     || String.eqb db_type "postgresql" then
    fun w => (Ok (db w), w)
  else raise (ValueError ("Unsupported db_type: " +:+ db_type)).

(** [pd.to_datetime] on one value of the Due Date column. *)
Definition to_datetime (c : due_cell) : M date :=
  match c with
  | DueOn d => mret d
  | BadText s => raise (DateParseError s)
  end.

(** The derived columns and the final column order, for one row. *)
Definition report_row_of (today : date) (r : raw_row) (d : date) : report_row :=
  {| customer_name := rr_customer_name r;
     loan_id := rr_loan_id r;
     amount_borrowed := rr_amount_borrowed r;
     outstanding_balance := rr_outstanding_balance r;
     due_date := d;
     days_remaining := days_between d today;
     phone_number := rr_phone_number r;
     email := rr_email r;
     officer_branch := rr_loan_officer r +:+ " / " +:+ rr_branch r;
     loan_status := rr_loan_status r |}.

(** The conversion of the Due Date column: it raises at the first value
    that is no date. *)
Fixpoint convert_due_dates (rows : list raw_row) : M (list date) :=
  match rows with
  | [] => mret []
  | r :: rest =>
      d ← to_datetime (rr_due_date r);
      ds ← convert_due_dates rest;
      mret (d :: ds)
  end.

Definition fetch_due_loans (conn : database) (days_ahead : Z)
    (include_overdue : bool) : M (list report_row) :=
  today ← date_today;
  let cutoff := date_add_days today days_ahead in
  let df := read_sql_query conn include_overdue today cutoff in
  due_dates ← convert_due_dates df;
  let df := zip_with (report_row_of today) df due_dates in
  log_info ("Fetched " +:+ pretty (length df) +:+ " loans due within "
            +:+ pretty days_ahead +:+ " days.");;
  mret df.

Definition generate_excel_report (df : list report_row)
    (company_name : string) : M string :=
  today ← date_today;
  let filename := report_filename today in
  let wb := build_workbook df company_name today in
  save_workbook filename wb;;
  log_info ("Excel report saved: " +:+ filename);;
  mret filename.

Definition build_email_body (df : list report_row) (company_name : string)
    : M email_body :=
  today ← date_today;
  mret (render_email_body df company_name today).

(** [os.path.basename] *)
Fixpoint basename_go (s acc : string) : string :=
  match s with
  | "" => acc
  | String c rest =>
      if Ascii.eqb c "/" then basename_go rest ""
      else basename_go rest (acc +:+ String c "")
  end.
Definition basename (path : string) : string := basename_go path "".

Definition send_email (cfg : config) (report_path : string)
    (df : list report_row) : M unit :=
  let email := has_email_section cfg in
  sender_email ← cfg_get "EMAIL" email "sender_email" (cfg_sender_email cfg);
  sender_password ←
    cfg_get "EMAIL" email "sender_password" (cfg_sender_password cfg);
  recipient_email ←
    cfg_get "EMAIL" email "recipient_email" (cfg_recipient_email cfg);
  let recipient_name :=
    default "Credit and Loans Department" (cfg_recipient_name cfg) in
  let smtp_server := default "smtp.gmail.com" (cfg_smtp_server cfg) in
  let smtp_port := default 587 (cfg_smtp_port cfg) in
  let subject := default "Loan Due Date Alert" (cfg_email_subject cfg) in
  let company_name := default "Loan Management System" (cfg_company_name cfg) in
  today ← date_today;
  html_body ← build_email_body df company_name;
  part ← read_file report_path;
  let msg :=
    {| msg_subject := subject +:+ " – " +:+ strftime "%d %b %Y" today;
       msg_from := company_name +:+ " <" +:+ sender_email +:+ ">";
       msg_to := recipient_name +:+ " <" +:+ recipient_email +:+ ">";
       msg_html := html_body;
       msg_attachment_name := basename report_path;
       msg_attachment := part |} in
  log_info ("Connecting to " +:+ smtp_server +:+ ":" +:+ pretty smtp_port
            +:+ "...");;
  smtp_send msg;;
  log_info ("✅  Email sent successfully to " +:+ recipient_email).

Definition banner : string :=
  "=======================================================".

Definition main : M unit :=
  log_info banner;;
  log_info "  LOAN MONITORING SYSTEM — Starting Run";;
  log_info banner;;
  cfg ← load_config "config.ini";
  let days_ahead := default 7 (cfg_days_lookahead cfg) in
  let include_overdue := default true (cfg_include_overdue cfg) in
  let save_local_copy := default true (cfg_save_local_copy cfg) in
  let company_name := default "Loan Management System" (cfg_company_name cfg) in
  conn ← get_db_connection cfg;
  df ← fetch_due_loans conn days_ahead include_overdue;
  if bool_decide (df = []) then
    log_info "No loans due within the reporting window. No email sent."
  else
    report_path ← generate_excel_report df company_name;
    try_except (send_email cfg report_path df)
      (fun e =>
         log_error ("❌  Failed to send email: " +:+ exn_str e);;
         log_info ("Report saved locally at: " +:+ report_path);;
         raise e);;
    still_there ← path_exists report_path;
    (if negb save_local_copy && still_there then
       remove_file report_path;;
       log_info "Local report copy removed (save_local_copy=false)."
     else mret tt);;
    log_info banner;;
    log_info "  Run complete.";;
    log_info banner.

(** ** Vocabulary of the statements *)

(** The date the [k]-th reading of the clock from [w] on returns. *)
Definition reading (w : world) (k : nat) : date := today_at w (reads w + k).

(** The due-date window of the selection. *)
Definition in_window (include_overdue : bool) (today cutoff d : date) : Prop :=
  if include_overdue then date_le d cutoff
  else date_le today d /\ date_le d cutoff.

(** The value cell next to the label [label] on the summary sheet. *)
Definition summary_sheet_value (wb : workbook) (label : string)
    : option value :=
  c_value ∘ snd ∘ snd <$>
    List.find (fun row => bool_decide (c_value (fst (snd row)) = VStr label))
      (ws2_rows (wb_summary wb)).

(** The value next to [label] in the summary table of the e-mail body. *)
Definition email_summary_value (body : email_body) (label : string)
    : option string :=
  snd <$> List.find (fun lv => String.eqb (fst lv) label) (eb_summary body).

(** The four Due-This-Week counts of a table. *)
Definition bucket_overdue (df : list report_row) : Z :=
  count_rows (fun r => days_remaining r <? 0) df.
Definition bucket_due_today (df : list report_row) : Z :=
  count_rows (fun r => days_remaining r =? 0) df.
Definition bucket_due_1_3 (df : list report_row) : Z :=
  count_rows (fun r => (1 <=? days_remaining r) && (days_remaining r <=? 3)) df.
Definition bucket_due_4_7 (df : list report_row) : Z :=
  count_rows (fun r => (4 <=? days_remaining r) && (days_remaining r <=? 7)) df.

(** The world once [main] has logged its three opening lines. *)
Definition started (w : world) : world :=
  add_log INFO banner
    (add_log INFO "  LOAN MONITORING SYSTEM — Starting Run"
       (add_log INFO banner w)).

(** The world [main] ends in, from the world [w3] and the result [r]
    that [send_email] left for the artifact at [path]. *)
Definition after_delivery (save_local_copy : bool) (path : string)
    (r : result unit) (w3 : world) : world :=
  match r with
  | Raised e =>
      add_log INFO ("Report saved locally at: " +:+ path)
        (add_log ERROR ("❌  Failed to send email: " +:+ exn_str e) w3)
  | Ok _ =>
      let cleaned :=
        if negb save_local_copy && bool_decide (is_Some (files w3 !! path))
        then
          add_log INFO "Local report copy removed (save_local_copy=false)."
            (set_files (delete path (files w3)) w3)
        else w3 in
      add_log INFO banner
        (add_log INFO "  Run complete." (add_log INFO banner cleaned))
  end.

(** C1 as stated, for the run of [main] from [w]: the date captured at the
    start, the first reading of the clock, is the one the days remaining
    are counted from and the one the spreadsheet, the subject and the body
    of the message carry. *)
Definition single_reference_date (w : world) : Prop :=
  forall w' msg,
    main w = (Ok tt, w') -> msg ∈ outbox w' -> msg ∉ outbox w ->
    exists cfg df,
      let company :=
        default "Loan Management System" (cfg_company_name cfg) in
      let t := reading w 0 in
      config_file w = Some cfg
      /\ Forall (fun r => days_remaining r = days_between (due_date r) t) df
      /\ msg_attachment msg = build_workbook df company t
      /\ msg_subject msg =
         default "Loan Due Date Alert" (cfg_email_subject cfg)
         +:+ " – " +:+ strftime "%d %b %Y" t
      /\ msg_html msg = render_email_body df company t.

(** C5 as stated, for the run of [main] from [w]: rows whose due date
    cannot be read are left out and a report over the others goes out. *)
Definition run_survives_bad_rows (w : world) : Prop :=
  exists w' msg, main w = (Ok tt, w') /\ outbox w' = outbox w ++ [msg].

(** ** Sample data *)

Definition sample_customers : list customer :=
  [ {| c_customer_id := 1; c_full_name := "Alice Wanjiru";
       c_phone_number := "0700111222"; c_email := "alice@example.co.ke" |};
    {| c_customer_id := 2; c_full_name := "Brian Otieno";
       c_phone_number := "0711333444"; c_email := "brian@example.co.ke" |} ].

Definition sample_branches : list branch :=
  [ {| b_branch_id := 1; b_loan_officer := "Peter Kamau";
       b_branch_name := "Nairobi CBD" |} ].

Definition sample_loan (id : string) (customer amount balance : Z)
    (due : due_cell) (status : string) : loan :=
  {| l_loan_id := id; l_customer_id := customer; l_branch_id := 1;
     l_amount_borrowed := amount; l_outstanding_balance := balance;
     l_due_date := due; l_loan_status := status |}.

Definition sample_db : database :=
  {| loans :=
       [ sample_loan "LN-001" 1 5000000 1250000 (DueOn (mkdate 2026 11 5))
           "Active";
         sample_loan "LN-002" 2 10000000 9000000 (DueOn (mkdate 2026 11 1))
           "Active";
         sample_loan "LN-003" 2 2500000 0 (DueOn (mkdate 2026 11 4)) "Paid";
         sample_loan "LN-004" 1 7500000 7500000 (DueOn (mkdate 2026 10 1))
           "Overdue";
         sample_loan "LN-005" 1 1000000 400000 (DueOn (mkdate 2026 11 20))
           "Active" ];
     customers := sample_customers;
     branches := sample_branches |}.

(** A database with a due date that is no calendar date. *)
Definition dirty_db : database :=
  {| loans :=
       [ sample_loan "LN-001" 1 5000000 1250000 (DueOn (mkdate 2026 11 5))
           "Active";
         sample_loan "LN-006" 2 3000000 3000000 (BadText "2026-02-30")
           "Active" ];
     customers := sample_customers;
     branches := sample_branches |}.

Definition sample_cfg : config :=
  {| cfg_email_section := true;
     cfg_db_type := None;
     cfg_days_lookahead := None;
     cfg_include_overdue := None;
     cfg_save_local_copy := None;
     cfg_company_name := Some "Maisha Bora Sacco";
     cfg_sender_email := Some "info@maishaborasacco.com";
     cfg_sender_password := Some "app-password";
     cfg_recipient_email := Some "creditloans@company.com";
     cfg_recipient_name := None;
     cfg_smtp_server := None;
     cfg_smtp_port := None;
     cfg_email_subject := None |}.

Definition make_world (clock : nat -> date) (cfg : config) (d : database)
    (err : option string) : world :=
  {| today_at := clock; reads := 0; config_file := Some cfg; db := d;
     files := ∅; log := []; smtp_error := err; outbox := [] |}.

(** A run on 3 November 2026. *)
Definition sample_world : world :=
  make_world (fun _ => mkdate 2026 11 3) sample_cfg sample_db None.

(** The table of that run. *)
Definition sample_rows : list report_row :=
  match fst (fetch_due_loans sample_db 7 true (started sample_world)) with
  | Ok df => df
  | Raised _ => []
  end.

(** A run that starts on 3 November 2026 just before midnight: the first
    reading of the clock is the 3rd, the later ones are the 4th. *)
Definition midnight_world : world :=
  make_world
    (fun n => match n with O => mkdate 2026 11 3 | S _ => mkdate 2026 11 4 end)
    sample_cfg sample_db None.

(** A run whose mail server refuses the login. *)
Definition auth_failure_world : world :=
  make_world (fun _ => mkdate 2026 11 3) sample_cfg sample_db
    (Some "(535, b'5.7.8 Username and Password not accepted')").

Definition dirty_world : world :=
  make_world (fun _ => mkdate 2026 11 3) sample_cfg dirty_db None.

(** ** The range of the calendar *)

(** [_days_in_month(year, month)] *)
Definition _days_in_month (year month : Z) : Z :=
  if (month =? 2) && _is_leap year then 29 else table _DAYS_IN_MONTH month.

(** The bounds of [datetime]. *)
Definition MINYEAR : Z := 1.
Definition MAXYEAR : Z := 9999.
Definition _MAXORDINAL : Z := 3652059.

(** The dates [datetime.date] accepts: the checks of
    [_check_date_fields]. *)
Definition valid_date (d : date) : Prop :=
  MINYEAR <= year d <= MAXYEAR
  /\ 1 <= month d <= 12
  /\ 1 <= day d <= _days_in_month (year d) (month d).

(** Strictly earlier, field by field. *)
Definition date_lt (a b : date) : Prop :=
  year a < year b
  \/ (year a = year b
      /\ (month a < month b \/ (month a = month b /\ day a < day b))).

(** The month and the day of [_ord2ymd], from the offset [n] in the year. *)
Definition month_and_day (leapyear : bool) (n : Z) : Z * Z :=
  let month := Z.shiftr (n + 50) 5 in
  let preceding :=
    table _DAYS_BEFORE_MONTH month
    + (if (2 <? month) && leapyear then 1 else 0) in
  if n <? preceding then
    let month := month - 1 in
    let preceding :=
      preceding
      - (table _DAYS_IN_MONTH month
         + (if (month =? 2) && leapyear then 1 else 0)) in
    (month, n - preceding + 1)
  else (month, n - preceding + 1).

(** [month_and_day] gives a month and a day of that month, the day at
    offset [n] in the year. *)
Definition month_and_day_ok (leapyear : bool) (n : Z) : bool :=
  let '(m, d) := month_and_day leapyear n in
  (1 <=? m) && (m <=? 12) && (1 <=? d)
  && (d <=? (if (m =? 2) && leapyear then 29 else table _DAYS_IN_MONTH m))
  && (table _DAYS_BEFORE_MONTH m + (if (2 <? m) && leapyear then 1 else 0) + d
      =? n + 1).

(** The calendar in its own words, to state the window of the selection
    without the arithmetic of the code: leap years, the lengths of the
    months and the day after a day. *)
Definition gregorian_leap (y : Z) : Prop :=
  (y mod 4 = 0 /\ y mod 100 <> 0) \/ y mod 400 = 0.

#[global] Instance gregorian_leap_dec y : Decision (gregorian_leap y).
Proof. unfold gregorian_leap. apply _. Defined.

Definition month_length (y m : Z) : Z :=
  if decide (m = 2) then (if decide (gregorian_leap y) then 29 else 28)
  else if decide (m = 4 \/ m = 6 \/ m = 9 \/ m = 11) then 30
  else 31.

Definition tomorrow (d : date) : date :=
  if decide (day d < month_length (year d) (month d)) then
    mkdate (year d) (month d) (day d + 1)
  else if decide (month d < 12) then mkdate (year d) (month d + 1) 1
  else mkdate (year d + 1) 1 1.

(** [d] is today or one of the [days] days after it. *)
Definition within_days (today : date) (days : Z) (d : date) : Prop :=
  exists k : nat, Z.of_nat k <= days /\ d = Nat.iter k tomorrow today.

(** The window of the selection as the specification words it, for a
    window of [days >= 0]: the days from today to [days] days on, and with
    overdue loans every earlier day. *)
Definition due_window (include_overdue : bool) (today : date) (days : Z)
    (d : date) : Prop :=
  within_days today days d \/ (include_overdue = true /\ date_lt d today).

(** ** The query on a text column *)

(** The [WHERE] condition on the due date as SQLite evaluates it on a
    text column, against the texts [str(today)] and [str(cutoff)]. *)
Definition text_due_filter (include_overdue : bool) (today cutoff : string)
    (due_date : string) : bool :=
  if include_overdue then String.leb due_date cutoff
  else String.leb today due_date && String.leb due_date cutoff.

(** A due date that prints in the ten characters of the ISO form. *)
Definition cell_in_range (c : due_cell) : Prop :=
  match c with DueOn d => in_range d | BadText _ => True end.

(** A loan with its customer and its branch. *)
Definition joins (conn : database) (l : loan) (c : customer) (b : branch)
    : Prop :=
  l ∈ loans conn /\ c ∈ customers conn /\ b ∈ branches conn
  /\ l_customer_id l = c_customer_id c
  /\ l_branch_id l = b_branch_id b.

(** Every due date the data source holds as a date is a date of the
    calendar. *)
Definition valid_due_dates (conn : database) : Prop :=
  Forall (fun l => forall d, l_due_date l = DueOn d -> valid_date d)
    (loans conn).

(** The cell of the column [col] in a row of the detail sheet. *)
Definition sheet_cell (row : Z * list cell) (col : nat) : option cell :=
  snd row !! col.

(** ** Paths, options and further sample data *)

(** A text without a path separator. *)
Fixpoint no_slash (s : string) : Prop :=
  match s with
  | "" => True
  | String c rest => c <> "/"%char /\ no_slash rest
  end.

(** The [db_type] values [get_db_connection] has a branch for. *)
Definition supported_db_type (cfg : config) : bool :=
  let db_type := lower (default "sqlite" (cfg_db_type cfg)) in
  String.eqb db_type "sqlite" || String.eqb db_type "mysql"
  || String.eqb db_type "postgresql".

(** The three options [send_email] reads without a fallback. *)
Definition sender_configured (cfg : config) : Prop :=
  is_Some (cfg_sender_email cfg) /\ is_Some (cfg_sender_password cfg)
  /\ is_Some (cfg_recipient_email cfg).

(** A world without [config.ini]. *)
Definition unconfigured_world : world :=
  {| today_at := fun _ => mkdate 2026 11 3; reads := 0; config_file := None;
     db := sample_db; files := ∅; log := []; smtp_error := None;
     outbox := [] |}.

(** A configuration that names a data source the program has no branch
    for. *)
Definition oracle_cfg : config :=
  {| cfg_email_section := true;
     cfg_db_type := Some "Oracle";
     cfg_days_lookahead := None;
     cfg_include_overdue := None;
     cfg_save_local_copy := None;
     cfg_company_name := Some "Maisha Bora Sacco";
     cfg_sender_email := Some "info@maishaborasacco.com";
     cfg_sender_password := Some "app-password";
     cfg_recipient_email := Some "creditloans@company.com";
     cfg_recipient_name := None;
     cfg_smtp_server := None;
     cfg_smtp_port := None;
     cfg_email_subject := None |}.

(** A portfolio whose loans are all paid. *)
Definition settled_db : database :=
  {| loans :=
       [ sample_loan "LN-001" 1 5000000 0 (DueOn (mkdate 2026 11 5)) "Paid";
         sample_loan "LN-002" 2 10000000 0 (DueOn (mkdate 2026 11 1)) "Paid" ];
     customers := sample_customers;
     branches := sample_branches |}.

(** ** Dates and their digits *)

Lemma date_leb_spec a b :
  date_leb a b = true <->
  year a < year b
  \/ (year a = year b
      /\ (month a < month b \/ (month a = month b /\ day a <= day b))).
Proof.
  unfold date_leb.
  rewrite !orb_true_iff, !andb_true_iff, !orb_true_iff, !andb_true_iff,
    !Z.ltb_lt, !Z.eqb_eq, Z.leb_le.
  reflexivity.
Qed.

Lemma date_leb_total a b : date_leb a b = true \/ date_leb b a = true.
Proof. rewrite !date_leb_spec. lia. Qed.

Lemma date_leb_trans a b c :
  date_leb a b = true -> date_leb b c = true -> date_leb a c = true.
Proof. rewrite !date_leb_spec. lia. Qed.

Lemma string_leb_total s t : String.leb s t = true \/ String.leb t s = true.
Proof.
  destruct (total String.le s t) as [H | H]; unfold String.le in H;
    apply Is_true_eq_true in H; auto.
Qed.

Lemma cell_leb_total a b : cell_leb a b = true \/ cell_leb b a = true.
Proof.
  destruct a, b; simpl; auto using date_leb_total, string_leb_total.
Qed.

#[global] Instance by_due_date_total : Total by_due_date.
Proof. intros a b. apply cell_leb_total. Qed.

(** ** Dates and ordinals *)

Lemma days_before_next_year y :
  _days_before_year (y + 1)
  = _days_before_year y + 365 + (if _is_leap y then 1 else 0).
Proof.
  unfold _days_before_year, _is_leap. cbv zeta.
  replace (y + 1 - 1) with y by lia.
  destruct (Z.eqb_spec (y mod 4) 0), (Z.eqb_spec (y mod 100) 0),
    (Z.eqb_spec (y mod 400) 0); simpl;
    Z.div_mod_to_equations; lia.
Qed.

Lemma days_before_year_mono y1 y2 :
  y1 <= y2 -> _days_before_year y1 + 365 * (y2 - y1) <= _days_before_year y2.
Proof.
  unfold _days_before_year. cbv zeta. intros H.
  Z.div_mod_to_equations. lia.
Qed.

Lemma month_cases m : 1 <= m <= 12 ->
  m = 1 \/ m = 2 \/ m = 3 \/ m = 4 \/ m = 5 \/ m = 6 \/ m = 7 \/ m = 8
  \/ m = 9 \/ m = 10 \/ m = 11 \/ m = 12.
Proof. lia. Qed.

Ltac each_month m H :=
  destruct (month_cases m H) as
    [-> | [-> | [-> | [-> | [-> | [-> | [-> | [-> | [-> | [-> | [-> | ->]]]]]]]]]]].

(** The days of a year before the end of a month. *)
Lemma days_before_month_end y m :
  1 <= m <= 12 ->
  0 <= _days_before_month y m
  /\ _days_before_month y m + _days_in_month y m
     <= 365 + (if _is_leap y then 1 else 0).
Proof.
  intros H. unfold _days_before_month, _days_in_month.
  each_month m H; destruct (_is_leap y); vm_compute; split; congruence.
Qed.

Lemma days_before_month_mono y m1 m2 :
  1 <= m1 <= 12 -> 1 <= m2 <= 12 -> m1 < m2 ->
  _days_before_month y m1 + _days_in_month y m1 <= _days_before_month y m2.
Proof.
  intros H1 H2 Hlt. unfold _days_before_month, _days_in_month.
  each_month m1 H1; each_month m2 H2; try lia;
    destruct (_is_leap y); vm_compute; congruence.
Qed.

Lemma toordinal_lt a b :
  valid_date a -> valid_date b -> date_lt a b -> toordinal a < toordinal b.
Proof.
  intros (_ & Hma & Hda) (_ & Hmb & Hdb) Hlt.
  unfold toordinal, _ymd2ord.
  pose proof (days_before_month_end (year a) (month a) Hma) as [Ha0 Ha1].
  pose proof (days_before_month_end (year b) (month b) Hmb) as [Hb0 Hb1].
  destruct Hlt as [Hy | [Hy [Hm | [Hm Hd]]]].
  - pose proof (days_before_next_year (year a)).
    pose proof (days_before_year_mono (year a + 1) (year b) ltac:(lia)).
    lia.
  - rewrite Hy in *.
    pose proof (days_before_month_mono (year b) (month a) (month b) Hma Hmb Hm).
    lia.
  - rewrite Hy, Hm in *. lia.
Qed.

Lemma date_leb_lt a b : date_leb a b = false <-> date_lt b a.
Proof.
  unfold date_lt. rewrite <- not_true_iff_false, date_leb_spec. lia.
Qed.

(** Dates compare as their ordinals do. *)
Lemma date_leb_toordinal a b :
  valid_date a -> valid_date b ->
  date_leb a b = true <-> toordinal a <= toordinal b.
Proof.
  intros Ha Hb. split.
  - intros H. apply date_leb_spec in H.
    assert (a = b \/ date_lt a b) as [-> | Hlt].
    { unfold date_lt. destruct a as [ya ma da], b as [yb mb db].
      simpl in *.
      destruct (Z.eq_dec ya yb) as [-> |]; [| right; lia].
      destruct (Z.eq_dec ma mb) as [-> |]; [| right; lia].
      destruct (Z.eq_dec da db) as [-> |]; [by left | right; lia]. }
    + lia.
    + pose proof (toordinal_lt a b Ha Hb Hlt). lia.
  - intros H. destruct (date_leb a b) eqn:E; [done |].
    apply date_leb_lt in E. pose proof (toordinal_lt b a Hb Ha E). lia.
Qed.

Lemma month_and_day_checked leapyear n :
  0 <= n < 365 -> month_and_day_ok leapyear n = true.
Proof.
  intros H.
  assert (Hall : forallb (month_and_day_ok leapyear)
                   (map Z.of_nat (seq 0 365)) = true)
    by (destruct leapyear; vm_compute; reflexivity).
  rewrite forallb_forall in Hall. apply Hall.
  apply in_map_iff. exists (Z.to_nat n). split; [lia |].
  apply in_seq. lia.
Qed.

Lemma ord2ymd_eq n :
  let n0 := n - 1 in
  let n400 := n0 / 146097 in
  let r400 := n0 mod 146097 in
  let n100 := r400 / 36524 in
  let r100 := r400 mod 36524 in
  let n4 := r100 / 1461 in
  let r4 := r100 mod 1461 in
  let n1 := r4 / 365 in
  let r1 := r4 mod 365 in
  let y := n400 * 400 + 1 + n100 * 100 + n4 * 4 + n1 in
  _ord2ymd n =
  if (n1 =? 4) || (n100 =? 4) then mkdate (y - 1) 12 31
  else
    let md :=
      month_and_day ((n1 =? 3) && (negb (n4 =? 24) || (n100 =? 3))) r1 in
    mkdate y (fst md) (snd md).
Proof.
  intros. unfold _ord2ymd. cbv zeta.
  change _DI400Y with 146097. change _DI100Y with 36524.
  change _DI4Y with 1461.
  fold n0. fold n400 r400. fold n100 r100. fold n4 r4. fold n1 r1. fold y.
  destruct ((n1 =? 4) || (n100 =? 4)); [reflexivity |].
  unfold month_and_day. cbv zeta.
  match goal with |- context [if ?c then mkdate _ _ _ else _] => destruct c end;
    reflexivity.
Qed.

Lemma is_leap_parts n400 n100 n4 n1 :
  0 <= n100 <= 3 -> 0 <= n4 <= 24 -> 0 <= n1 <= 3 ->
  _is_leap (n400 * 400 + 1 + n100 * 100 + n4 * 4 + n1)
  = (n1 =? 3) && (negb (n4 =? 24) || (n100 =? 3)).
Proof.
  intros H100 H4 H1. unfold _is_leap.
  set (y := n400 * 400 + 1 + n100 * 100 + n4 * 4 + n1).
  destruct (Z.eqb_spec (y mod 4) 0), (Z.eqb_spec (y mod 100) 0),
    (Z.eqb_spec (y mod 400) 0), (Z.eqb_spec n1 3), (Z.eqb_spec n4 24),
    (Z.eqb_spec n100 3); simpl; try reflexivity; exfalso; subst y;
    Z.div_mod_to_equations; lia.
Qed.

Lemma days_before_year_parts n400 n100 n4 n1 :
  0 <= n100 <= 3 -> 0 <= n4 <= 24 -> 0 <= n1 <= 3 ->
  _days_before_year (n400 * 400 + 1 + n100 * 100 + n4 * 4 + n1)
  = n400 * 146097 + n100 * 36524 + n4 * 1461 + n1 * 365.
Proof.
  intros H100 H4 H1. unfold _days_before_year. cbv zeta.
  Z.div_mod_to_equations. lia.
Qed.

(** [date.fromordinal] returns the date of that ordinal. *)
Lemma fromordinal_spec n :
  1 <= n <= _MAXORDINAL ->
  valid_date (fromordinal n) /\ toordinal (fromordinal n) = n.
Proof.
  unfold _MAXORDINAL. intros Hn. unfold fromordinal. rewrite ord2ymd_eq.
  cbv zeta.
  remember (n - 1) as n0 eqn:E0.
  remember (n0 / 146097) as n400 eqn:E400.
  remember (n0 mod 146097) as r400 eqn:R400.
  remember (r400 / 36524) as n100 eqn:E100.
  remember (r400 mod 36524) as r100 eqn:R100.
  remember (r100 / 1461) as n4 eqn:E4.
  remember (r100 mod 1461) as r4 eqn:R4.
  remember (r4 / 365) as n1 eqn:E1.
  remember (r4 mod 365) as r1 eqn:R1.
  assert (B400 : 0 <= n400 <= 24 /\ n0 = n400 * 146097 + r400
                 /\ 0 <= r400 < 146097)
    by (subst n400 r400; Z.div_mod_to_equations; lia).
  assert (B100 : 0 <= n100 <= 4 /\ r400 = n100 * 36524 + r100
                 /\ 0 <= r100 < 36524)
    by (subst n100 r100; Z.div_mod_to_equations; lia).
  assert (B4 : 0 <= n4 <= 24 /\ r100 = n4 * 1461 + r4 /\ 0 <= r4 < 1461)
    by (subst n4 r4; Z.div_mod_to_equations; lia).
  assert (B1 : 0 <= n1 <= 4 /\ r4 = n1 * 365 + r1 /\ 0 <= r1 < 365)
    by (subst n1 r1; Z.div_mod_to_equations; lia).
  clear E400 R400 E100 R100 E4 R4 E1 R1.
  unfold valid_date, toordinal, _ymd2ord, MINYEAR, MAXYEAR.
  destruct (Z.eqb_spec n100 4) as [H100 | H100].
  - rewrite orb_true_r. cbn [year month day].
    assert (n4 = 0 /\ n1 = 0 /\ r400 = 146096) as (-> & -> & ->) by lia.
    subst n100.
    replace (n400 * 400 + 1 + 4 * 100 + 0 * 4 + 0 - 1)
      with (n400 * 400 + 1 + 3 * 100 + 24 * 4 + 3) by lia.
    unfold _days_before_month, _days_in_month.
    rewrite is_leap_parts, days_before_year_parts by lia.
    change (table _DAYS_BEFORE_MONTH 12) with 334.
    change (table _DAYS_IN_MONTH 12) with 31.
    change (2 <? 12) with true. change (12 =? 2) with false.
    change (3 =? 3) with true. change (24 =? 24) with true.
    cbn [andb orb negb]. lia.
  - destruct (Z.eqb_spec n1 4) as [H1 | H1].
    + cbn [orb year month day]. subst n1.
      replace (n400 * 400 + 1 + n100 * 100 + n4 * 4 + 4 - 1)
        with (n400 * 400 + 1 + n100 * 100 + n4 * 4 + 3) by lia.
      unfold _days_before_month, _days_in_month.
      rewrite is_leap_parts, days_before_year_parts by lia.
      destruct (Z.eqb_spec n4 24) as [-> |]; [lia |].
      change (table _DAYS_BEFORE_MONTH 12) with 334.
      change (table _DAYS_IN_MONTH 12) with 31.
      change (2 <? 12) with true. change (12 =? 2) with false.
      change (3 =? 3) with true.
      cbn [andb orb negb]. lia.
    + cbn [orb]. cbv zeta.
      pose proof (month_and_day_checked
                    ((n1 =? 3) && (negb (n4 =? 24) || (n100 =? 3))) r1
                    ltac:(lia)) as Hok.
      unfold month_and_day_ok in Hok.
      destruct (month_and_day _ r1) as [m d]. cbn [fst snd year month day].
      rewrite !andb_true_iff, !Z.leb_le, Z.eqb_eq in Hok.
      destruct Hok as ((((Hm1 & Hm2) & Hd1) & Hd2) & Hsum).
      unfold _days_before_month, _days_in_month.
      rewrite is_leap_parts, days_before_year_parts by lia.
      lia.
Qed.

Lemma toordinal_range d : valid_date d -> 1 <= toordinal d <= _MAXORDINAL.
Proof.
  intros (Hy & Hm & Hd). unfold MINYEAR, MAXYEAR in Hy.
  unfold toordinal, _ymd2ord, _MAXORDINAL.
  pose proof (days_before_month_end (year d) (month d) Hm) as [H0 H1].
  pose proof (days_before_year_mono 1 (year d) ltac:(lia)) as Hlo.
  pose proof (days_before_next_year (year d)) as Hnext.
  pose proof (days_before_year_mono (year d + 1) 10000 ltac:(lia)) as Hhi.
  change (_days_before_year 1) with 0 in Hlo.
  change (_days_before_year 10000) with 3652059 in Hhi.
  lia.
Qed.

Lemma toordinal_inj a b :
  valid_date a -> valid_date b -> toordinal a = toordinal b -> a = b.
Proof.
  intros Ha Hb E.
  destruct (date_leb a b) eqn:Hab.
  - destruct (date_leb b a) eqn:Hba.
    + apply date_leb_spec in Hab, Hba. destruct a, b; simpl in *.
      f_equal; lia.
    + apply date_leb_lt in Hba. pose proof (toordinal_lt a b Ha Hb Hba). lia.
  - apply date_leb_lt in Hab. pose proof (toordinal_lt b a Hb Ha Hab). lia.
Qed.

Lemma fromordinal_toordinal d : valid_date d -> fromordinal (toordinal d) = d.
Proof.
  intros Hd. pose proof (toordinal_range d Hd) as Hr.
  destruct (fromordinal_spec _ Hr) as [Hv E].
  by apply toordinal_inj.
Qed.

Lemma date_add_days_spec d n :
  valid_date d -> 1 <= toordinal d + n <= _MAXORDINAL ->
  valid_date (date_add_days d n)
  /\ toordinal (date_add_days d n) = toordinal d + n.
Proof. intros _ Hr. apply fromordinal_spec, Hr. Qed.

(** X1.  [today + timedelta(days=n)] and [(d - today).days] undo each other:
    inside the calendar, the date [n] days on is a date of the calendar,
    it is [n] days from the start, going [n] days back returns to the
    start, and it is no earlier than the start exactly when [n] is not
    negative. *)
Theorem timedelta_round_trip (d : date) (n : Z) :
  valid_date d ->
  1 <= toordinal d + n <= _MAXORDINAL ->
  valid_date (date_add_days d n)
  /\ days_between (date_add_days d n) d = n
  /\ date_add_days (date_add_days d n) (- n) = d
  /\ (date_le d (date_add_days d n) <-> 0 <= n).
Proof.
  intros Hd Hr. destruct (date_add_days_spec d n Hd Hr) as [Hv E].
  split; [exact Hv |]. split; [unfold days_between; lia |]. split.
  - unfold date_add_days at 1. rewrite E.
    replace (toordinal d + n + - n) with (toordinal d) by lia.
    by apply fromordinal_toordinal.
  - unfold date_le. rewrite (date_leb_toordinal _ _ Hd Hv), E. lia.
Qed.

Lemma timedelta_round_trip_witness :
  date_add_days (mkdate 2024 2 28) 2 = mkdate 2024 3 1
  /\ days_between (date_add_days (mkdate 2024 2 28) 2) (mkdate 2024 2 28) = 2
  /\ date_add_days (date_add_days (mkdate 2024 2 28) 2) (- 2)
     = mkdate 2024 2 28.
Proof.
  destruct (timedelta_round_trip (mkdate 2024 2 28) 2)
    as (_ & Hdays & Hback & _).
  - vm_compute. repeat split; discriminate.
  - vm_compute. split; discriminate.
  - split; [reflexivity |]. split; [exact Hdays | exact Hback].
Defined.

(** ** The selection query *)

Lemma elem_of_joined db r :
  r ∈ joined db <->
  exists l c b,
    l ∈ loans db /\ c ∈ customers db /\ b ∈ branches db
    /\ l_customer_id l = c_customer_id c
    /\ l_branch_id l = b_branch_id b
    /\ r = select_columns l c b.
Proof.
  unfold joined. rewrite list_elem_of_In, in_flat_map. split.
  - intros (l & Hl & Hr). apply in_flat_map in Hr as (c & Hc & Hr).
    destruct (Z.eqb_spec (l_customer_id l) (c_customer_id c)) as [Ec |];
      [| destruct Hr].
    apply in_flat_map in Hr as (b & Hb & Hr).
    destruct (Z.eqb_spec (l_branch_id l) (b_branch_id b)) as [Eb |];
      [| destruct Hr].
    destruct Hr as [<- | []].
    exists l, c, b. rewrite !list_elem_of_In. repeat split; assumption.
  - intros (l & c & b & Hl & Hc & Hb & Ec & Eb & ->).
    apply list_elem_of_In in Hl. apply list_elem_of_In in Hc.
    apply list_elem_of_In in Hb.
    exists l. split; [done |].
    apply in_flat_map. exists c. split; [done |].
    rewrite Ec, Z.eqb_refl.
    apply in_flat_map. exists b. split; [done |].
    rewrite Eb, Z.eqb_refl. now left.
Qed.

Lemma due_filter_window inc today cutoff d :
  due_filter inc today cutoff (DueOn d) = true <-> in_window inc today cutoff d.
Proof.
  unfold due_filter, in_window, date_le. destruct inc; simpl; [done |].
  now rewrite andb_true_iff.
Qed.

Lemma where_clause_spec inc today cutoff r :
  where_clause inc today cutoff r = true <->
  due_filter inc today cutoff (rr_due_date r) = true
  /\ rr_loan_status r <> "Paid".
Proof.
  unfold where_clause. rewrite andb_true_iff, negb_true_iff.
  now rewrite <- not_true_iff_false, String.eqb_eq.
Qed.

Lemma elem_of_read_sql_query conn inc today cutoff r :
  r ∈ read_sql_query conn inc today cutoff <->
  r ∈ joined conn /\ where_clause inc today cutoff r = true.
Proof.
  unfold read_sql_query. rewrite merge_sort_Permutation.
  now rewrite !list_elem_of_In, filter_In.
Qed.

Lemma read_sql_query_sorted conn inc today cutoff :
  Sorted by_due_date (read_sql_query conn inc today cutoff).
Proof. apply (Sorted_merge_sort by_due_date). Qed.

(** ** Running the monad *)

Lemma bind_run {A B} (m : M A) (k : A -> M B) w :
  (m ≫= k) w =
  match m w with
  | (Ok a, w') => k a w'
  | (Raised e, w') => (Raised e, w')
  end.
Proof. reflexivity. Qed.

Lemma ret_run {A} (a : A) w : mret (M := M) a w = (Ok a, w).
Proof. reflexivity. Qed.

Lemma reading_0 w : reading w 0 = today_at w (reads w).
Proof. unfold reading. now rewrite Nat.add_0_r. Qed.

Lemma reading_tick w k : reading (tick w) k = reading w (S k).
Proof. unfold reading. simpl. f_equal. lia. Qed.

Lemma reading_add_log lv s w k : reading (add_log lv s w) k = reading w k.
Proof. reflexivity. Qed.

Lemma reading_set_files fs w k : reading (set_files fs w) k = reading w k.
Proof. reflexivity. Qed.

(** ** The table [fetch_due_loans] returns *)

Lemma convert_due_dates_run rows w :
  (exists ds,
      Forall2 (fun r d => rr_due_date r = DueOn d) rows ds
      /\ convert_due_dates rows w = (Ok ds, w))
  \/ (exists s r,
        r ∈ rows /\ rr_due_date r = BadText s
        /\ convert_due_dates rows w = (Raised (DateParseError s), w)).
Proof.
  induction rows as [| r rows IH]; simpl.
  - left. exists []. split; [constructor | reflexivity].
  - rewrite bind_run. destruct (rr_due_date r) as [d | s] eqn:E; simpl.
    + rewrite bind_run.
      destruct IH as [(ds & H & ->) | (s & r' & Hin & Hb & ->)].
      * left. exists (d :: ds). split; [by constructor | reflexivity].
      * right. exists s, r'. split; [by right | done].
    + right. exists s, r. split; [by left | done].
Qed.

(** What [fetch_due_loans] does, by the date [today] the clock gives it:
    either every selected row carries a date and the table is returned, or
    the conversion raises at a row that carries none. *)
Lemma fetch_due_loans_run conn days inc w :
  let today := reading w 0 in
  let rows := read_sql_query conn inc today (date_add_days today days) in
  (exists ds,
      Forall2 (fun r d => rr_due_date r = DueOn d) rows ds
      /\ fetch_due_loans conn days inc w =
         (Ok (zip_with (report_row_of today) rows ds),
          add_log INFO
            ("Fetched "
             +:+ pretty (length (zip_with (report_row_of today) rows ds))
             +:+ " loans due within " +:+ pretty days +:+ " days.")
            (tick w)))
  \/ (exists s r,
        r ∈ rows /\ rr_due_date r = BadText s
        /\ fetch_due_loans conn days inc w
           = (Raised (DateParseError s), tick w)).
Proof.
  intros today rows. unfold fetch_due_loans.
  rewrite bind_run. unfold date_today.
  rewrite <- reading_0. fold today. fold rows.
  rewrite bind_run.
  destruct (convert_due_dates_run rows (tick w))
    as [(ds & H & ->) | (s & r & Hin & Hb & ->)].
  - left. exists ds. split; [done |]. reflexivity.
  - right. exists s, r. done.
Qed.

Lemma zip_rows_sorted today rows ds :
  Forall2 (fun r d => rr_due_date r = DueOn d) rows ds ->
  Sorted by_due_date rows ->
  Sorted (fun a b => date_le (due_date a) (due_date b))
    (zip_with (report_row_of today) rows ds).
Proof.
  intros H. induction H as [| r d rows ds Hr H IH]; intros Hs; simpl.
  - constructor.
  - apply Sorted_inv in Hs as [Hs Hhd]. constructor; [by apply IH |].
    destruct H as [| r' d' rows ds Hr' H]; simpl; constructor.
    apply HdRel_inv in Hhd. unfold by_due_date in Hhd.
    rewrite Hr, Hr' in Hhd. exact Hhd.
Qed.

Lemma elem_of_table today rows ds x :
  Forall2 (fun r d => rr_due_date r = DueOn d) rows ds ->
  x ∈ zip_with (report_row_of today) rows ds <->
  exists raw,
    raw ∈ rows /\ rr_due_date raw = DueOn (due_date x)
    /\ x = report_row_of today raw (due_date x).
Proof.
  intros H. induction H as [| r d rows ds Hr H IH]; simpl.
  - split; [intros Hx; inversion Hx | intros (raw & Hx & _); inversion Hx].
  - rewrite elem_of_cons, IH. split.
    + intros [-> | (raw & Hin & Hd & Hx)].
      * exists r. simpl. split; [by left | done].
      * exists raw. split; [by right | done].
    + intros (raw & Hin & Hd & Hx). apply elem_of_cons in Hin as [-> | Hin].
      * left. rewrite Hr in Hd. injection Hd as ->. exact Hx.
      * right. exists raw. done.
Qed.

Lemma table_status today rows ds :
  Forall (fun r => rr_loan_status r <> "Paid") rows ->
  Forall (fun x => loan_status x <> "Paid")
    (zip_with (report_row_of today) rows ds).
Proof.
  intros H. revert ds. induction H as [| r rows Hr H IH]; intros [| d ds];
    simpl; constructor; auto.
Qed.

Lemma selected_iff conn inc today cutoff r d :
  rr_due_date r = DueOn d ->
  r ∈ read_sql_query conn inc today cutoff <->
  r ∈ joined conn /\ rr_loan_status r <> "Paid"
  /\ in_window inc today cutoff d.
Proof.
  intros H. rewrite elem_of_read_sql_query, where_clause_spec, H.
  rewrite due_filter_window. tauto.
Qed.

Lemma days_in_month_bounds y m :
  1 <= m <= 12 -> 28 <= _days_in_month y m <= 31.
Proof.
  intros H. unfold _days_in_month.
  each_month m H; destruct (_is_leap y); vm_compute; split; congruence.
Qed.

(** A date of the calendar prints with four, two and two digits. *)
Lemma valid_date_in_range d : valid_date d -> in_range d.
Proof.
  intros (Hy & Hm & Hd). unfold MINYEAR, MAXYEAR in Hy.
  pose proof (days_in_month_bounds (year d) (month d) Hm).
  unfold in_range. lia.
Qed.

(** The window of the selection, in days from [today]. *)
Lemma in_window_days inc today days d :
  valid_date today -> valid_date d ->
  1 <= toordinal today + days <= _MAXORDINAL ->
  in_window inc today (date_add_days today days) d <->
  days_between d today <= days /\ (inc = false -> 0 <= days_between d today).
Proof.
  intros Ht Hd Hr.
  destruct (date_add_days_spec today days Ht Hr) as [Hc Ec].
  unfold in_window, date_le, days_between.
  destruct inc; rewrite (date_leb_toordinal d _ Hd Hc), Ec.
  - split; [intros H; split; [lia | discriminate] | intros [H _]; lia].
  - rewrite (date_leb_toordinal today d Ht Hd).
    split; [intros [H1 H2]; split; [lia | intros _; lia] |].
    intros [H1 H2]. specialize (H2 eq_refl). lia.
Qed.

Lemma joined_due_date conn r :
  r ∈ joined conn -> exists l, l ∈ loans conn /\ l_due_date l = rr_due_date r.
Proof.
  intros H. apply elem_of_joined in H as (l & c & b & Hl & _ & _ & _ & _ & ->).
  by exists l.
Qed.

(** What [fetch_due_loans] returns, row by row. *)
Lemma fetch_due_loans_rows conn days inc w df w' :
  fetch_due_loans conn days inc w = (Ok df, w') ->
  let t := reading w 0 in
  Forall (fun x =>
            days_remaining x = days_between (due_date x) t
            /\ in_window inc t (date_add_days t days) (due_date x)
            /\ exists l, l ∈ loans conn /\ l_due_date l = DueOn (due_date x))
    df
  /\ Sorted (fun a b => date_le (due_date a) (due_date b)) df.
Proof.
  intros Hrun t.
  destruct (fetch_due_loans_run conn days inc w)
    as [(ds & Hds & E) | (s & r & _ & _ & E)];
    rewrite E in Hrun; [| discriminate].
  injection Hrun as <- <-. fold t in Hds |- *. split.
  - apply Forall_forall. intros x Hx.
    apply (elem_of_table _ _ _ _ Hds) in Hx as (raw & Hin & Hd & ->).
    split; [reflexivity |]. cbn [due_date report_row_of].
    apply elem_of_read_sql_query in Hin as [Hj Hw].
    apply where_clause_spec in Hw as [Hf _]. rewrite Hd in Hf.
    split; [by apply due_filter_window in Hf |].
    destruct (joined_due_date conn raw Hj) as (l & Hl & El).
    exists l. split; [done | congruence].
  - apply zip_rows_sorted; [done | apply read_sql_query_sorted].
Qed.

(** The rows of a table [fetch_due_loans] returns, in days from the
    date the clock gave. *)
Lemma fetch_due_loans_days conn days inc w df w' :
  fetch_due_loans conn days inc w = (Ok df, w') ->
  valid_date (reading w 0) ->
  1 <= toordinal (reading w 0) + days <= _MAXORDINAL ->
  valid_due_dates conn ->
  Forall (fun x =>
            valid_date (due_date x)
            /\ days_remaining x = days_between (due_date x) (reading w 0)
            /\ days_between (due_date x) (reading w 0) <= days
            /\ (inc = false -> 0 <= days_between (due_date x) (reading w 0)))
    df
  /\ Sorted (fun a b => date_le (due_date a) (due_date b)) df.
Proof.
  intros Hrun Ht Hr Hv.
  destruct (fetch_due_loans_rows conn days inc w df w' Hrun) as [Hrows Hs].
  split; [| exact Hs].
  eapply Forall_impl; [exact Hrows |]. intros x (Hd & Hw & l & Hl & El).
  unfold valid_due_dates in Hv. rewrite Forall_forall in Hv.
  pose proof (Hv l Hl _ El) as Hx.
  apply (in_window_days inc _ days _ Ht Hx Hr) in Hw. tauto.
Qed.

Lemma is_leap_gregorian y : _is_leap y = true <-> gregorian_leap y.
Proof.
  unfold _is_leap, gregorian_leap.
  destruct (Z.eqb_spec (y mod 4) 0), (Z.eqb_spec (y mod 100) 0),
    (Z.eqb_spec (y mod 400) 0); simpl; split; try tauto; try discriminate;
    intros [[? ?] | ?]; try done; exfalso; Z.div_mod_to_equations; lia.
Qed.

Lemma month_length_eq y m :
  1 <= m <= 12 -> month_length y m = _days_in_month y m.
Proof.
  intros H. unfold month_length, _days_in_month.
  destruct (decide (gregorian_leap y)) as [L | L].
  - apply is_leap_gregorian in L. rewrite L.
    each_month m H; reflexivity.
  - assert (E : _is_leap y = false)
      by (apply not_true_is_false; by rewrite is_leap_gregorian).
    rewrite E. each_month m H; reflexivity.
Qed.

Lemma days_before_month_next y m :
  1 <= m < 12 ->
  _days_before_month y (m + 1) = _days_before_month y m + _days_in_month y m.
Proof.
  intros H. unfold _days_before_month, _days_in_month.
  assert (H' : 1 <= m <= 12) by lia.
  each_month m H'; try lia; destruct (_is_leap y); reflexivity.
Qed.

(** The day after a day of the calendar is the day of the next ordinal. *)
Lemma toordinal_tomorrow d :
  valid_date d -> toordinal d < _MAXORDINAL ->
  valid_date (tomorrow d) /\ toordinal (tomorrow d) = toordinal d + 1.
Proof.
  intros (Hy & Hm & Hd) Hmax. unfold MINYEAR, MAXYEAR in Hy.
  unfold tomorrow. rewrite (month_length_eq _ _ Hm).
  destruct (decide (day d < _days_in_month (year d) (month d))) as [Hlt | Hge].
  - split; [repeat split; cbn [year month day]; unfold MINYEAR, MAXYEAR; lia |].
    unfold toordinal, _ymd2ord. cbn [year month day]. lia.
  - assert (Elast : day d = _days_in_month (year d) (month d)) by lia.
    destruct (decide (month d < 12)) as [Hm12 | Hm12].
    + pose proof (days_in_month_bounds (year d) (month d + 1) ltac:(lia)).
      split; [repeat split; cbn [year month day]; unfold MINYEAR, MAXYEAR; lia |].
      unfold toordinal, _ymd2ord. cbn [year month day].
      rewrite days_before_month_next by lia. lia.
    + assert (E12 : month d = 12) by lia.
      assert (E31 : day d = 31).
      { rewrite Elast, E12. unfold _days_in_month.
        change (12 =? 2) with false. reflexivity. }
      assert (Hy' : year d < 9999).
      { destruct (Z.eq_dec (year d) 9999) as [E |]; [| lia]. exfalso.
        unfold toordinal, _ymd2ord in Hmax. rewrite E, E12, E31 in Hmax.
        vm_compute in Hmax. discriminate Hmax. }
      split.
      * repeat split; cbn [year month day]; unfold MINYEAR, MAXYEAR; try lia.
        unfold _days_in_month. change (1 =? 2) with false.
        cbn [andb]. vm_compute. discriminate.
      * unfold toordinal, _ymd2ord. cbn [year month day].
        rewrite E12, E31, days_before_next_year.
        unfold _days_before_month.
        change (table _DAYS_BEFORE_MONTH 12) with 334.
        change (table _DAYS_BEFORE_MONTH 1) with 0.
        change (2 <? 12) with true. change (2 <? 1) with false.
        cbn [andb]. destruct (_is_leap (year d)); lia.
Qed.

Lemma iter_tomorrow today (k : nat) :
  valid_date today -> toordinal today + Z.of_nat k <= _MAXORDINAL ->
  valid_date (Nat.iter k tomorrow today)
  /\ toordinal (Nat.iter k tomorrow today) = toordinal today + Z.of_nat k.
Proof.
  intros Ht. induction k as [| k IH]; intros Hk.
  - simpl. split; [done | lia].
  - destruct IH as [Hv E]; [lia |].
    change (Nat.iter (S k) tomorrow today)
      with (tomorrow (Nat.iter k tomorrow today)).
    destruct (toordinal_tomorrow _ Hv) as [Hv' E']; [lia |].
    split; [done | lia].
Qed.

(** The days from today on, counted by ordinals. *)
Lemma within_days_spec today days d :
  valid_date today -> valid_date d ->
  toordinal today + days <= _MAXORDINAL ->
  within_days today days d <-> 0 <= days_between d today <= days.
Proof.
  intros Ht Hd Hr. unfold within_days, days_between. split.
  - intros (k & Hk & ->).
    destruct (iter_tomorrow today k Ht) as [_ E]; lia.
  - intros H. exists (Z.to_nat (toordinal d - toordinal today)).
    split; [lia |].
    destruct (iter_tomorrow today
                (Z.to_nat (toordinal d - toordinal today)) Ht) as [Hv E];
      [lia |].
    apply toordinal_inj; [done .. | lia].
Qed.

Lemma date_lt_days a b :
  valid_date a -> valid_date b -> date_lt a b <-> days_between a b < 0.
Proof.
  intros Ha Hb. unfold days_between. split.
  - intros H. pose proof (toordinal_lt a b Ha Hb H). lia.
  - intros H. apply date_leb_lt. apply not_true_is_false. intros E.
    apply (date_leb_toordinal b a Hb Ha) in E. lia.
Qed.

(** The window the specification words is the window of the query. *)
Lemma due_window_spec inc today days d :
  valid_date today -> valid_date d -> 0 <= days ->
  1 <= toordinal today + days <= _MAXORDINAL ->
  due_window inc today days d <->
  in_window inc today (date_add_days today days) d.
Proof.
  intros Ht Hd Hdays Hr. rewrite (in_window_days inc today days d Ht Hd Hr).
  unfold due_window.
  rewrite (within_days_spec today days d Ht Hd) by lia.
  rewrite (date_lt_days d today Hd Ht).
  destruct inc.
  - split.
    + intros [H | [_ H]]; (split; [lia | discriminate]).
    + intros [H _].
      destruct (Z.lt_ge_cases (days_between d today) 0);
        [right; split; [reflexivity | lia] | left; lia].
  - split.
    + intros [H | [E _]]; [| discriminate E].
      split; [lia | intros _; lia].
    + intros [H1 H2]. specialize (H2 eq_refl). left. lia.
Qed.

Ltac sample_due_dates :=
  unfold valid_due_dates; cbn [loans sample_db];
  repeat (apply Forall_cons_2;
          [intros ? [= <-]; vm_compute; repeat split; discriminate |]);
  apply Forall_nil_2.

Lemma elem_of_joined_joins conn r :
  r ∈ joined conn <-> exists l c b, joins conn l c b /\ r = select_columns l c b.
Proof.
  rewrite elem_of_joined. unfold joins.
  split; intros (l & c & b & H); exists l, c, b; tauto.
Qed.

(** C3.  The selection of [fetch_due_loans], for every window [days] and
    flag [include_overdue], on a day [today] of the calendar from which
    [days] days on is still in the calendar.  The query returns the rows
    of exactly those loans, each with its customer and its branch, whose
    status is not Paid and whose due date is at most [days] days after
    [today] and, without overdue loans, not before [today]; for a window
    [days >= 0] these are the due dates among today and the [days] days
    after it, and with overdue loans every earlier one.  Each row comes as
    often as the join has it, and the rows come ordered by due date.  The
    table [fetch_due_loans] returns has one row for each of them, carrying
    the loan's id, status and due date, ascending by due date and none of
    status Paid, and it is returned whenever every loan carries a date of
    the calendar. *)
Theorem fetch_due_loans_selects_window (conn : database) (days : Z)
    (include_overdue : bool) :
  (forall today,
      valid_date today ->
      1 <= toordinal today + days <= _MAXORDINAL ->
      let rows :=
        read_sql_query conn include_overdue today
          (date_add_days today days) in
      (forall r d,
          rr_due_date r = DueOn d -> valid_date d ->
          (r ∈ rows <->
           (exists l c b, joins conn l c b /\ r = select_columns l c b)
           /\ rr_loan_status r <> "Paid"
           /\ days_between d today <= days
           /\ (include_overdue = false -> 0 <= days_between d today))
          /\ (0 <= days ->
              r ∈ rows <->
              (exists l c b, joins conn l c b /\ r = select_columns l c b)
              /\ rr_loan_status r <> "Paid"
              /\ due_window include_overdue today days d))
      /\ (forall l c b d,
            joins conn l c b ->
            l_due_date l = DueOn d -> valid_date d -> 0 <= days ->
            select_columns l c b ∈ rows <->
            l_loan_status l <> "Paid"
            /\ due_window include_overdue today days d)
      /\ rows ≡ₚ List.filter
                   (where_clause include_overdue today
                      (date_add_days today days))
                   (joined conn)
      /\ Sorted by_due_date rows
      /\ Forall (fun r => rr_loan_status r <> "Paid") rows)
  /\ (forall w df w',
        valid_date (reading w 0) ->
        1 <= toordinal (reading w 0) + days <= _MAXORDINAL ->
        valid_due_dates conn ->
        fetch_due_loans conn days include_overdue w = (Ok df, w') ->
        let today := reading w 0 in
        (forall x,
           x ∈ df <->
           exists l c b,
             joins conn l c b /\ l_loan_status l <> "Paid"
             /\ l_due_date l = DueOn (due_date x)
             /\ days_between (due_date x) today <= days
             /\ (include_overdue = false ->
                 0 <= days_between (due_date x) today)
             /\ x = report_row_of today (select_columns l c b) (due_date x)
             /\ loan_id x = l_loan_id l /\ loan_status x = l_loan_status l
             /\ customer_name x = c_full_name c)
        /\ (0 <= days ->
            Forall (fun x => due_window include_overdue today days (due_date x))
              df)
        /\ StronglySorted (fun a b => date_le (due_date a) (due_date b)) df
        /\ Forall (fun x => loan_status x <> "Paid") df)
  /\ (forall w,
        valid_date (reading w 0) ->
        1 <= toordinal (reading w 0) + days <= _MAXORDINAL ->
        valid_due_dates conn ->
        Forall (fun l => exists d, l_due_date l = DueOn d) (loans conn) ->
        exists df w',
          fetch_due_loans conn days include_overdue w = (Ok df, w')).
Proof.
  assert (Hrows : forall today,
      Forall (fun r => rr_loan_status r <> "Paid")
        (read_sql_query conn include_overdue today
           (date_add_days today days))).
  { intros today. apply Forall_forall. intros r Hr.
    apply elem_of_read_sql_query in Hr as [_ Hr].
    by apply where_clause_spec in Hr as [_ Hr]. }
  split; [| split].
  - intros today Ht Hr rows. split; [| split; [| split; [| split]]].
    + intros r d H Hd. subst rows. split.
      * rewrite (selected_iff _ _ _ _ r d H), elem_of_joined_joins.
        by rewrite (in_window_days include_overdue today days d Ht Hd Hr).
      * intros Hdays.
        rewrite (selected_iff _ _ _ _ r d H), elem_of_joined_joins.
        by rewrite (due_window_spec include_overdue today days d Ht Hd Hdays
                      Hr).
    + intros l c b d Hj Hd Hv Hdays. subst rows.
      rewrite (selected_iff _ _ _ _ (select_columns l c b) d) by exact Hd.
      rewrite (due_window_spec include_overdue today days d Ht Hv Hdays Hr).
      assert (select_columns l c b ∈ joined conn)
        by (apply elem_of_joined_joins; by exists l, c, b).
      simpl. tauto.
    + apply merge_sort_Permutation.
    + apply read_sql_query_sorted.
    + apply Hrows.
  - intros w df w' Ht Hr Hv Hrun today.
    assert (Hvalid : forall l d,
               l ∈ loans conn -> l_due_date l = DueOn d -> valid_date d).
    { intros l d Hl Hd.
      unfold valid_due_dates in Hv. rewrite Forall_forall in Hv.
      by apply (Hv l Hl). }
    destruct (fetch_due_loans_days conn days include_overdue w df w'
                Hrun Ht Hr Hv) as [Hdays _].
    destruct (fetch_due_loans_run conn days include_overdue w)
      as [(ds & Hds & E) | (s & r & _ & _ & E)];
      rewrite E in Hrun; [| discriminate].
    injection Hrun as <- <-. fold today in Hds, Hdays, Ht, Hr |- *.
    split; [| split; [| split]].
    + intros x. rewrite (elem_of_table _ _ _ _ Hds). split.
      * intros (raw & Hin & Hd & Hx).
        apply elem_of_read_sql_query in Hin as [Hj Hw].
        apply elem_of_joined_joins in Hj as (l & c & b & Hj & ->).
        exists l, c, b. cbn [select_columns rr_due_date rr_loan_status] in *.
        apply where_clause_spec in Hw as [Hf Hp].
        cbn [select_columns rr_due_date rr_loan_status] in Hf, Hp.
        rewrite Hd in Hf. apply due_filter_window in Hf.
        assert (Hl : l ∈ loans conn) by apply Hj.
        apply (in_window_days _ _ _ _ Ht (Hvalid l _ Hl Hd) Hr) in Hf.
        destruct Hf. rewrite Hx. done.
      * intros (l & c & b & Hj & Hp & Hd & Hw1 & Hw2 & Hx & _).
        exists (select_columns l c b).
        split; [| done]. apply elem_of_read_sql_query.
        split; [apply elem_of_joined_joins; by exists l, c, b |].
        apply where_clause_spec. split; [| done].
        cbn [select_columns rr_due_date]. rewrite Hd.
        apply due_filter_window.
        assert (Hl : l ∈ loans conn) by apply Hj.
        by apply (in_window_days _ _ _ _ Ht (Hvalid l _ Hl Hd) Hr).
    + intros Hnn. eapply Forall_impl; [exact Hdays |].
      intros x (Hx & _ & H1 & H2).
      apply (due_window_spec _ _ _ _ Ht Hx Hnn Hr).
      by apply (in_window_days _ _ _ _ Ht Hx Hr).
    + apply Sorted_StronglySorted.
      { intros a b c. apply date_leb_trans. }
      apply zip_rows_sorted; [done | apply read_sql_query_sorted].
    + apply table_status, Hrows.
  - intros w _ _ _ Hall.
    destruct (fetch_due_loans_run conn days include_overdue w)
      as [(ds & Hds & E) | (s & r & Hin & Hb & _)]; [eauto |].
    apply elem_of_read_sql_query in Hin as [Hj _].
    apply elem_of_joined in Hj as (l & c & b & Hl & _ & _ & _ & _ & ->).
    rewrite Forall_forall in Hall. destruct (Hall l Hl) as [d Hd].
    simpl in Hb. congruence.
Qed.

(** The selection of 3 November 2026 for seven days without overdue
    loans: of the five loans, the one due on the 5th. *)
Lemma fetch_due_loans_selects_window_witness :
  exists df w',
    fetch_due_loans sample_db 7 false (started sample_world) = (Ok df, w')
    /\ Forall (fun x => due_window false (mkdate 2026 11 3) 7 (due_date x)) df
    /\ map loan_id df = ["LN-001"].
Proof.
  destruct (fetch_due_loans_selects_window sample_db 7 false)
    as (_ & Htable & Hruns).
  assert (Ht : valid_date (reading (started sample_world) 0))
    by (vm_compute; repeat split; discriminate).
  assert (Hr : 1 <= toordinal (reading (started sample_world) 0) + 7
               <= _MAXORDINAL)
    by (vm_compute; split; discriminate).
  assert (Hv : valid_due_dates sample_db) by sample_due_dates.
  destruct (Hruns (started sample_world) Ht Hr Hv) as (df & w' & E).
  { repeat (apply Forall_cons_2; [by eexists |]). apply Forall_nil_2. }
  destruct (Htable (started sample_world) df w' Ht Hr Hv E)
    as (_ & Hwin & _).
  exists df, w'. split; [exact E |]. split; [apply Hwin; lia |].
  assert (E' : fst (fetch_due_loans sample_db 7 false (started sample_world))
               = Ok df) by (by rewrite E).
  vm_compute in E'. injection E' as <-. reflexivity.
Defined.

(** ** The rendered rows *)

Lemma field_5 r : field (row_tuple r) 5 = VInt (days_remaining r).
Proof. reflexivity. Qed.

Lemma field_9 r : field (row_tuple r) 9 = VStr (loan_status r).
Proof. reflexivity. Qed.

Lemma row_fill_overdue_iff row_idx r :
  row_fill row_idx (row_tuple r) = CLR_OVERDUE_BG <->
  loan_status r = "Overdue" \/ days_remaining r < 0.
Proof.
  unfold row_fill. rewrite field_5, field_9. simpl.
  destruct (String.eqb_spec (loan_status r) "Overdue") as [E | E];
    destruct (Z.ltb_spec (days_remaining r) 0) as [L | L]; simpl;
    try (split; [auto | reflexivity]).
  split; [| intros [? | ?]; [done | lia]].
  destruct (row_idx mod 2 =? 0); discriminate.
Qed.

Lemma email_row_overdue_iff idx r :
  tr_background (email_row idx r) = "#ffe0e0" <-> loan_status r = "Overdue".
Proof.
  simpl. destruct (String.eqb_spec (loan_status r) "Overdue") as [E | E].
  - done.
  - split; [| done]. destruct (Z.of_nat idx mod 2 =? 0); discriminate.
Qed.

Lemma data_row_fill row_idx r :
  Forall (fun c => c_fill c = Some (row_fill row_idx (row_tuple r)))
    (snd (data_row report_columns row_idx (row_tuple r))).
Proof. repeat constructor. Qed.

Lemma data_row_values row_idx r :
  map c_value (snd (data_row report_columns row_idx (row_tuple r))) =
  [ VStr (customer_name r); VStr (loan_id r); VMoney (amount_borrowed r);
    VMoney (outstanding_balance r); VStr (isoformat (due_date r));
    VInt (days_remaining r); VStr (phone_number r); VStr (email r);
    VStr (officer_branch r); VStr (loan_status r) ].
Proof. reflexivity. Qed.

Lemma detail_sheet_row df c t i r :
  df !! i = Some r ->
  ws_data (wb_detail (build_workbook df c t)) !! i =
  Some (data_row report_columns (5 + Z.of_nat i) (row_tuple r)).
Proof. intros H. simpl. now rewrite list_lookup_imap, H. Qed.

Lemma email_body_row df c t i r :
  df !! i = Some r ->
  eb_rows (render_email_body df c t) !! i = Some (email_row i r).
Proof. intros H. simpl. now rewrite list_lookup_imap, H. Qed.

(** ** The summary sheet *)

Lemma summary_row_label r_idx label v :
  c_value (fst (snd (summary_row r_idx (label, v)))) = VStr label.
Proof.
  unfold summary_row. destruct (is_section_label label); [done |].
  by destruct (String.eqb label "").
Qed.

Lemma summary_row_value r_idx label v :
  c_value (snd (snd (summary_row r_idx (label, v)))) = v.
Proof.
  unfold summary_row. destruct (is_section_label label); [done |].
  by destruct (String.eqb label "").
Qed.

Lemma find_summary_rows (f : nat -> Z) label l :
  c_value ∘ snd ∘ snd <$>
    List.find (fun row => bool_decide (c_value (fst (snd row)) = VStr label))
      (imap (fun i lv => summary_row (f i) lv) l)
  = snd <$> List.find (fun lv => String.eqb (fst lv) label) l.
Proof.
  revert f. induction l as [| [lbl v] l IH]; intros f; [done |].
  rewrite imap_cons. cbn [List.find fst]. rewrite summary_row_label.
  destruct (String.eqb_spec lbl label) as [-> | Hne].
  - rewrite bool_decide_eq_true_2 by done. cbn [fmap option_fmap option_map].
    unfold compose. by rewrite summary_row_value.
  - rewrite bool_decide_eq_false_2 by congruence.
    apply (IH (f ∘ S)).
Qed.

(** The summary sheet shows [summary_data]. *)
Lemma summary_sheet_value_eq df c t label :
  summary_sheet_value (build_workbook df c t) label =
  snd <$> List.find (fun lv => String.eqb (fst lv) label) (summary_data df t).
Proof.
  unfold summary_sheet_value, build_workbook. cbn [wb_summary ws2_rows].
  apply (find_summary_rows (fun i => 2 + Z.of_nat i)).
Qed.

Lemma count_rows_cons p r df :
  count_rows p (r :: df) = (if p r then 1 else 0) + count_rows p df.
Proof. unfold count_rows. simpl. destruct (p r); simpl length; lia. Qed.

Lemma count_rows_filter p q df :
  (forall r, p r = true -> q r = true) ->
  count_rows p (List.filter q df) = count_rows p df.
Proof.
  intros H. induction df as [| r df IH]; [done |]. simpl.
  destruct (q r) eqn:Q; rewrite !count_rows_cons, ?IH; [done |].
  destruct (p r) eqn:P; [| done]. rewrite (H r P) in Q. discriminate.
Qed.

Lemma sum_column_cons f r df :
  sum_column f (r :: df) = f r + sum_column f df.
Proof. reflexivity. Qed.

Lemma bucket_partition df :
  bucket_overdue df + bucket_due_today df + bucket_due_1_3 df
  + bucket_due_4_7 df
  = count_rows (fun r => days_remaining r <=? 7) df.
Proof.
  unfold bucket_overdue, bucket_due_today, bucket_due_1_3, bucket_due_4_7.
  induction df as [| r df IH]; [done |]. rewrite !count_rows_cons.
  destruct (Z.ltb_spec (days_remaining r) 0), (Z.eqb_spec (days_remaining r) 0),
    (Z.leb_spec 1 (days_remaining r)), (Z.leb_spec (days_remaining r) 3),
    (Z.leb_spec 4 (days_remaining r)), (Z.leb_spec (days_remaining r) 7);
    simpl; lia.
Qed.

(** C2.  The fill of a spreadsheet row is the overdue tint exactly when
    the status is Overdue or the days remaining are negative, and every
    cell of the row carries that fill; the background of an e-mail row is
    the overdue tint exactly when the status is Overdue.  An Active loan
    two days past its due date is tinted in the spreadsheet and not in the
    e-mail. *)
Theorem overdue_flag_spreadsheet_and_email :
  (forall row_idx r,
      row_fill row_idx (row_tuple r) = CLR_OVERDUE_BG <->
      loan_status r = "Overdue" \/ days_remaining r < 0)
  /\ (forall row_idx r,
        Forall (fun c => c_fill c = Some (row_fill row_idx (row_tuple r)))
          (snd (data_row report_columns row_idx (row_tuple r))))
  /\ (forall idx r,
        tr_background (email_row idx r) = "#ffe0e0" <->
        loan_status r = "Overdue")
  /\ (let r :=
        {| customer_name := "Brian Otieno"; loan_id := "L2";
           amount_borrowed := 100000; outstanding_balance := 2500;
           due_date := mkdate 2026 11 1; days_remaining := -2;
           phone_number := "0711"; email := "b@x.ke";
           officer_branch := "Peter / Nairobi"; loan_status := "Active" |} in
      row_fill 5 (row_tuple r) = "FFE0E0"
      /\ tr_background (email_row 0 r) = "#ffffff").
Proof.
  split; [exact row_fill_overdue_iff |].
  split; [exact data_row_fill |].
  split; [exact email_row_overdue_iff |].
  split; reflexivity.
Qed.

(** [len(df[...])] is the number of rows that pass the test. *)
Lemma count_rows_length (p : report_row -> bool) (P : report_row -> Prop)
    `{!forall r, Decision (P r)} (df : list report_row) :
  (forall r, p r = true <-> P r) ->
  count_rows p df = Z.of_nat (length (filter P df)).
Proof.
  intros Hp. induction df as [| r df IH]; [done |].
  rewrite count_rows_cons, filter_cons, IH.
  destruct (p r) eqn:E.
  - rewrite decide_True by (by apply Hp). cbn [length]. lia.
  - rewrite decide_False; [lia |].
    intros HP. apply Hp in HP. congruence.
Qed.

(** The four Due-This-Week lines of the summary sheet. *)
Lemma due_this_week_figures df c t :
  let figure := summary_sheet_value (build_workbook df c t) in
  figure "Already Overdue"
  = Some (VInt (count_rows (fun r => days_remaining r <? 0) df))
  /\ figure "Due Today"
     = Some (VInt (count_rows (fun r => days_remaining r =? 0) df))
  /\ figure "Due in 1-3 Days"
     = Some (VInt (count_rows
                     (fun r => (1 <=? days_remaining r)
                               && (days_remaining r <=? 3)) df))
  /\ figure "Due in 4-7 Days"
     = Some (VInt (count_rows
                     (fun r => (4 <=? days_remaining r)
                               && (days_remaining r <=? 7)) df)).
Proof. cbv zeta. rewrite !summary_sheet_value_eq. repeat split. Qed.

(** Every row with at most 7 days remaining is in one of the four
    ranges, and in one only. *)
Lemma due_this_week_partition (df : list report_row) :
  Z.of_nat (length (filter (fun r => days_remaining r < 0) df))
  + Z.of_nat (length (filter (fun r => days_remaining r = 0) df))
  + Z.of_nat (length (filter (fun r => 1 <= days_remaining r <= 3) df))
  + Z.of_nat (length (filter (fun r => 4 <= days_remaining r <= 7) df))
  = Z.of_nat (length (filter (fun r => days_remaining r <= 7) df)).
Proof.
  induction df as [| r df IH]; [done |].
  rewrite !filter_cons.
  destruct (decide (days_remaining r < 0)),
    (decide (days_remaining r = 0)),
    (decide (1 <= days_remaining r <= 3)),
    (decide (4 <= days_remaining r <= 7)),
    (decide (days_remaining r <= 7)); cbn [length]; lia.
Qed.

(** C4.  The four Due-This-Week figures of the summary sheet are the
    numbers of rows with negative, zero, 1 to 3 and 4 to 7 days remaining.
    They add up to the number of rows with at most 7 days remaining;
    removing the rows with more than 7 days changes none of them; and a
    row with more than 7 days is among the rows of none of the four, adds
    to none of the figures and, like every row, has its line in the detail
    sheet. *)
Theorem summary_buckets_partition (df : list report_row) (c : string)
    (t : date) :
  let figure label rows :=
    summary_sheet_value (build_workbook rows c t) label in
  let size (rows : list report_row) := Z.of_nat (length rows) in
  let number rows := Some (VInt (size rows)) in
  let overdue := filter (fun r => days_remaining r < 0) df in
  let due_today := filter (fun r => days_remaining r = 0) df in
  let due_1_3 := filter (fun r => 1 <= days_remaining r <= 3) df in
  let due_4_7 := filter (fun r => 4 <= days_remaining r <= 7) df in
  let within := filter (fun r => days_remaining r <= 7) df in
  let labels :=
    ["Already Overdue"; "Due Today"; "Due in 1-3 Days"; "Due in 4-7 Days"] in
  figure "Already Overdue" df = number overdue
  /\ figure "Due Today" df = number due_today
  /\ figure "Due in 1-3 Days" df = number due_1_3
  /\ figure "Due in 4-7 Days" df = number due_4_7
  /\ size overdue + size due_today + size due_1_3 + size due_4_7
     = size within
  /\ (forall label, label ∈ labels -> figure label within = figure label df)
  /\ (forall i r,
        df !! i = Some r -> 7 < days_remaining r ->
        ((r ∉ overdue) /\ (r ∉ due_today) /\ (r ∉ due_1_3)
         /\ (r ∉ due_4_7))
        /\ (forall label rows,
              label ∈ labels -> figure label (r :: rows) = figure label rows)
        /\ exists cells,
             ws_data (wb_detail (build_workbook df c t)) !! i
             = Some (5 + Z.of_nat i, cells)
             /\ map c_value cells =
                [ VStr (customer_name r); VStr (loan_id r);
                  VMoney (amount_borrowed r);
                  VMoney (outstanding_balance r);
                  VStr (isoformat (due_date r));
                  VInt (days_remaining r); VStr (phone_number r);
                  VStr (email r); VStr (officer_branch r);
                  VStr (loan_status r) ]).
Proof.
  intros figure size number overdue due_today due_1_3 due_4_7 within labels.
  assert (Hkeep : forall p,
             (forall r, p r = true -> days_remaining r <= 7) ->
             count_rows p within = count_rows p df).
  { intros p Hp. subst within. clear -Hp.
    induction df as [| r df IH]; [done |].
    rewrite filter_cons, !count_rows_cons.
    case_decide as Hr; rewrite ?count_rows_cons, IH; [done |].
    destruct (p r) eqn:E; [| done]. apply Hp in E. lia. }
  subst figure number size labels. cbv beta.
  destruct (due_this_week_figures df c t) as (Fo & Ft & F13 & F47).
  cbv zeta in Fo, Ft, F13, F47.
  split; [| split; [| split; [| split; [| split; [| split]]]]].
  - rewrite Fo. do 2 f_equal. apply count_rows_length.
    intros r. apply Z.ltb_lt.
  - rewrite Ft. do 2 f_equal. apply count_rows_length.
    intros r. apply Z.eqb_eq.
  - rewrite F13. do 2 f_equal. apply count_rows_length.
    intros r. rewrite andb_true_iff, !Z.leb_le. tauto.
  - rewrite F47. do 2 f_equal. apply count_rows_length.
    intros r. rewrite andb_true_iff, !Z.leb_le. tauto.
  - apply due_this_week_partition.
  - intros label Hl. rewrite !elem_of_cons, elem_of_nil in Hl.
    destruct (due_this_week_figures within c t) as (Wo & Wt & W13 & W47).
    cbv zeta in Wo, Wt, W13, W47.
    destruct Hl as [-> | [-> | [-> | [-> | []]]]].
    + rewrite Wo, Fo. do 2 f_equal. apply Hkeep.
      intros r. rewrite Z.ltb_lt. lia.
    + rewrite Wt, Ft. do 2 f_equal. apply Hkeep.
      intros r. rewrite Z.eqb_eq. lia.
    + rewrite W13, F13. do 2 f_equal. apply Hkeep.
      intros r. rewrite andb_true_iff, !Z.leb_le. lia.
    + rewrite W47, F47. do 2 f_equal. apply Hkeep.
      intros r. rewrite andb_true_iff, !Z.leb_le. lia.
  - intros i r Hi Hr. split; [| split].
    + subst overdue due_today due_1_3 due_4_7.
      rewrite !list_elem_of_filter. repeat split; intros [? _]; lia.
    + intros label rows Hl. rewrite !elem_of_cons, elem_of_nil in Hl.
      destruct (due_this_week_figures (r :: rows) c t)
        as (Co & Ct & C13 & C47).
      destruct (due_this_week_figures rows c t) as (Ro & Rt & R13 & R47).
      cbv zeta in Co, Ct, C13, C47, Ro, Rt, R13, R47.
      destruct Hl as [-> | [-> | [-> | [-> | []]]]].
      * rewrite Co, Ro, count_rows_cons.
        rewrite (proj2 (Z.ltb_ge _ _)) by lia. done.
      * rewrite Ct, Rt, count_rows_cons.
        rewrite (proj2 (Z.eqb_neq _ _)) by lia. done.
      * rewrite C13, R13, count_rows_cons.
        rewrite (proj2 (Z.leb_gt (days_remaining r) 3)) by lia.
        by rewrite andb_false_r.
      * rewrite C47, R47, count_rows_cons.
        rewrite (proj2 (Z.leb_gt (days_remaining r) 7)) by lia.
        by rewrite andb_false_r.
    + exists (snd (data_row report_columns (5 + Z.of_nat i) (row_tuple r))).
      split; [by rewrite (detail_sheet_row _ _ _ _ _ Hi) | ].
      apply data_row_values.
Qed.

(** C9.  On the summary sheet and in the summary table of the e-mail, the
    Overdue Loans figure is the number of rows whose status is Overdue and
    the Overdue Outstanding figure is the sum of their balances: a row adds
    to either exactly when its status is Overdue.  The Already Overdue
    figure of the sheet is the number of rows with negative days remaining,
    whatever their status.  So a row with negative days remaining and
    another status is tinted as overdue in the detail sheet, is counted
    as Already Overdue, and adds nothing to the two Overdue figures. *)
Theorem overdue_figures_follow_status (df : list report_row) (c : string)
    (t : date) :
  let wb := build_workbook df c t in
  let body := render_email_body df c t in
  let overdue_count := count_rows (status_is "Overdue") in
  let overdue_sum rows :=
    sum_column outstanding_balance (List.filter (status_is "Overdue") rows) in
  (summary_sheet_value wb "Overdue Loans" = Some (VInt (overdue_count df))
   /\ summary_sheet_value wb "Overdue Outstanding (KES)"
      = Some (VStr (fmt_money (overdue_sum df)))
   /\ summary_sheet_value wb "Already Overdue"
      = Some (VInt (bucket_overdue df))
   /\ email_summary_value body "Overdue Loans"
      = Some (pretty (length (List.filter (status_is "Overdue") df)))
   /\ email_summary_value body "Overdue Outstanding"
      = Some ("KES " +:+ fmt_money (overdue_sum df)))
  /\ (forall r rows,
        overdue_count (r :: rows)
        = (if decide (loan_status r = "Overdue") then 1 else 0)
          + overdue_count rows
        /\ overdue_sum (r :: rows)
           = (if decide (loan_status r = "Overdue")
              then outstanding_balance r else 0)
             + overdue_sum rows
        /\ bucket_overdue (r :: rows)
           = (if decide (days_remaining r < 0) then 1 else 0)
             + bucket_overdue rows)
  /\ (forall r rows row_idx,
        days_remaining r < 0 -> loan_status r <> "Overdue" ->
        row_fill row_idx (row_tuple r) = CLR_OVERDUE_BG
        /\ overdue_count (r :: rows) = overdue_count rows
        /\ overdue_sum (r :: rows) = overdue_sum rows
        /\ bucket_overdue (r :: rows) = 1 + bucket_overdue rows).
Proof.
  intros wb body overdue_count overdue_sum.
  assert (Hcons : forall r rows,
    overdue_count (r :: rows)
    = (if decide (loan_status r = "Overdue") then 1 else 0)
      + overdue_count rows
    /\ overdue_sum (r :: rows)
       = (if decide (loan_status r = "Overdue")
          then outstanding_balance r else 0)
         + overdue_sum rows
    /\ bucket_overdue (r :: rows)
       = (if decide (days_remaining r < 0) then 1 else 0)
         + bucket_overdue rows).
  { intros r rows. subst overdue_count overdue_sum.
    unfold bucket_overdue. cbn beta. rewrite !count_rows_cons.
    cbn [List.filter]. unfold status_is.
    destruct (String.eqb_spec (loan_status r) "Overdue");
      destruct (Z.ltb_spec (days_remaining r) 0);
      repeat case_decide; try done; try lia;
      rewrite ?sum_column_cons; repeat split; lia. }
  split; [| split; [exact Hcons |]].
  - subst wb body. rewrite !summary_sheet_value_eq.
    split; [reflexivity |]. split; [reflexivity |]. split; [reflexivity |].
    split; reflexivity.
  - intros r rows row_idx Hd Hs.
    split; [apply row_fill_overdue_iff; by right |].
    destruct (Hcons r rows) as (-> & -> & ->).
    repeat case_decide; try done; try lia.
Qed.

(** C6, as the code has it.  The header row of the detail sheet and the
    cells of each of its rows present the ten columns in the canonical
    order.  The detail table of the e-mail has nine columns: the same ones
    in the same order without Email, with Phone Number headed Phone and
    Loan Status headed Status; each of its rows has the nine matching
    cells. *)
Theorem columns_of_sheet_and_email (df : list report_row) (c : string)
    (t : date) :
  let wb := build_workbook df c t in
  let body := render_email_body df c t in
  map c_value (ws_header (wb_detail wb)) =
    map VStr
      [ "Customer Name"; "Loan ID"; "Amount Borrowed"; "Outstanding Balance";
        "Due Date"; "Days Remaining"; "Phone Number"; "Email";
        "Loan Officer / Branch"; "Loan Status" ]
  /\ (forall i r,
        df !! i = Some r ->
        exists cells,
          ws_data (wb_detail wb) !! i = Some (5 + Z.of_nat i, cells)
          /\ map c_value cells =
             [ VStr (customer_name r); VStr (loan_id r);
               VMoney (amount_borrowed r); VMoney (outstanding_balance r);
               VStr (isoformat (due_date r)); VInt (days_remaining r);
               VStr (phone_number r); VStr (email r);
               VStr (officer_branch r); VStr (loan_status r) ])
  /\ eb_columns body =
       [ "Customer Name"; "Loan ID"; "Amount Borrowed"; "Outstanding Balance";
         "Due Date"; "Days Remaining"; "Phone"; "Loan Officer / Branch";
         "Status" ]
  /\ (forall i r,
        df !! i = Some r ->
        exists tr,
          eb_rows body !! i = Some tr
          /\ map td_html (tr_cells tr) =
             [ customer_name r; loan_id r;
               "KES " +:+ fmt_money (amount_borrowed r);
               "KES " +:+ fmt_money (outstanding_balance r);
               isoformat (due_date r); days_display r;
               phone_number r; officer_branch r; loan_status r ]).
Proof.
  intros wb body. split; [reflexivity |]. split; [| split; [reflexivity |]].
  - intros i r Hi.
    exists (snd (data_row report_columns (5 + Z.of_nat i) (row_tuple r))).
    split; [exact (detail_sheet_row df c t i r Hi) |].
    apply data_row_values.
  - intros i r Hi. exists (email_row i r).
    split; [exact (email_body_row df c t i r Hi) | reflexivity].
Qed.

(** C6, as stated, fails: the detail table of the e-mail does not list the
    ten canonical columns. *)
Lemma email_table_is_not_canonical :
  ~ (forall (df : list report_row) (c : string) (t : date),
       map c_value (ws_header (wb_detail (build_workbook df c t))) =
         map VStr
           [ "Customer Name"; "Loan ID"; "Amount Borrowed";
             "Outstanding Balance"; "Due Date"; "Days Remaining";
             "Phone Number"; "Email"; "Loan Officer / Branch";
             "Loan Status" ]
       /\ eb_columns (render_email_body df c t) =
          [ "Customer Name"; "Loan ID"; "Amount Borrowed";
            "Outstanding Balance"; "Due Date"; "Days Remaining";
            "Phone Number"; "Email"; "Loan Officer / Branch";
            "Loan Status" ]).
Proof.
  intros H. destruct (H [] "" (mkdate 2026 11 3)) as [_ H']. discriminate H'.
Qed.

(** ** The date stamp of the file name *)

Lemma digit_char_inj a b : digit_char a = digit_char b -> a mod 10 = b mod 10.
Proof.
  unfold digit_char. intros H. apply (f_equal nat_of_ascii) in H.
  pose proof (Z.mod_pos_bound a 10 ltac:(lia)).
  pose proof (Z.mod_pos_bound b 10 ltac:(lia)).
  rewrite !nat_ascii_embedding in H by lia. lia.
Qed.

Lemma digits_mod k a b :
  digits k a = digits k b -> a mod 10 ^ Z.of_nat k = b mod 10 ^ Z.of_nat k.
Proof.
  induction k as [| k IH]; intros H.
  - now rewrite !Z.mod_1_r.
  - simpl in H. injection H as Hc Ht.
    apply digit_char_inj in Hc. apply IH in Ht.
    rewrite Nat2Z.inj_succ, Z.pow_succ_r, (Z.mul_comm 10) by lia.
    rewrite !Z.rem_mul_r by lia. congruence.
Qed.

Lemma digits_inj k a b :
  0 <= a < 10 ^ Z.of_nat k -> 0 <= b < 10 ^ Z.of_nat k ->
  digits k a = digits k b -> a = b.
Proof.
  intros Ha Hb H. apply digits_mod in H.
  now rewrite !Z.mod_small in H.
Qed.

Lemma digits_app_inj k a b s t :
  digits k a +:+ s = digits k b +:+ t -> digits k a = digits k b /\ s = t.
Proof.
  induction k as [| k IH]; simpl; intros H; [done |].
  injection H as Hc Ht. apply IH in Ht as [-> ->]. now rewrite Hc.
Qed.

Lemma strftime_Ymd d :
  strftime "%Y%m%d" d
  = digits 4 (year d) +:+ digits 2 (month d) +:+ digits 2 (day d) +:+ "".
Proof. reflexivity. Qed.

Lemma string_app_assoc (a b c : string) : (a +:+ b) +:+ c = a +:+ b +:+ c.
Proof.
  induction a as [| x a IH]; [done |].
  change (String x ((a +:+ b) +:+ c) = String x (a +:+ b +:+ c)).
  now rewrite IH.
Qed.

Lemma report_filename_inj d1 d2 :
  in_range d1 -> in_range d2 ->
  report_filename d1 = report_filename d2 -> d1 = d2.
Proof.
  intros (Hy1 & Hm1 & Hd1) (Hy2 & Hm2 & Hd2) H. unfold report_filename in H.
  do 2 apply String.app_inj in H. rewrite !strftime_Ymd in H.
  rewrite !string_app_assoc in H.
  apply digits_app_inj in H as [Hy H].
  apply digits_app_inj in H as [Hm H].
  apply digits_app_inj in H as [Hd _].
  apply digits_inj in Hy; [| simpl; lia ..].
  apply digits_inj in Hm; [| simpl; lia ..].
  apply digits_inj in Hd; [| simpl; lia ..].
  destruct d1, d2; simpl in *; congruence.
Qed.

Lemma generate_excel_report_run df c w :
  let today := reading w 0 in
  generate_excel_report df c w =
  (Ok (report_filename today),
   add_log INFO ("Excel report saved: " +:+ report_filename today)
     (set_files
        (<[report_filename today := build_workbook df c today]>
           (files (tick w)))
        (tick w))).
Proof. intros today. subst today. rewrite reading_0. reflexivity. Qed.

(** C8, as the code has it.  The path of the artifact is fixed by the date
    the clock gives when the report is generated: two runs get the same
    path exactly when they generate on the same date.  A run writes its
    workbook at that path, whatever was there, and touches no other
    file. *)
Theorem report_path_follows_render_date (df1 df2 : list report_row)
    (c1 c2 : string) (w1 w2 : world) (p1 p2 : string) (w1' w2' : world) :
  generate_excel_report df1 c1 w1 = (Ok p1, w1') ->
  generate_excel_report df2 c2 w2 = (Ok p2, w2') ->
  in_range (reading w1 0) -> in_range (reading w2 0) ->
  (p1 = p2 <-> reading w1 0 = reading w2 0)
  /\ files w2' !! p2 = Some (build_workbook df2 c2 (reading w2 0))
  /\ (forall q, q <> p2 -> files w2' !! q = files w2 !! q).
Proof.
  rewrite !generate_excel_report_run. intros H1 H2 R1 R2.
  injection H1 as <- <-. injection H2 as <- <-. split; [| split].
  - split; [by apply report_filename_inj | by intros ->].
  - simpl. apply lookup_insert_eq.
  - intros q Hq. simpl. by apply lookup_insert_ne.
Qed.

(** The run of 3 November and the run that renders on the 4th. *)
Lemma report_path_follows_render_date_witness :
  let w1 := snd (fetch_due_loans sample_db 7 true (started sample_world)) in
  let w2 := snd (fetch_due_loans sample_db 7 true (started midnight_world)) in
  (report_filename (reading w1 0) = report_filename (reading w2 0)
   <-> reading w1 0 = reading w2 0)
  /\ reading w1 0 = mkdate 2026 11 3 /\ reading w2 0 = mkdate 2026 11 4.
Proof.
  intros w1 w2. split; [| split; reflexivity].
  apply (report_path_follows_render_date sample_rows sample_rows
           "Maisha Bora Sacco" "Maisha Bora Sacco" w1 w2
           (report_filename (reading w1 0)) (report_filename (reading w2 0))
           (snd (generate_excel_report sample_rows "Maisha Bora Sacco" w1))
           (snd (generate_excel_report sample_rows "Maisha Bora Sacco" w2))).
  - vm_compute. reflexivity.
  - vm_compute. reflexivity.
  - vm_compute. repeat split; discriminate.
  - vm_compute. repeat split; discriminate.
Defined.

(** C8, as stated, fails: a second run on the same day, started from the
    world the first run left, gets the path of the first. *)
Lemma same_day_runs_share_a_path :
  ~ (forall (df1 df2 : list report_row) (c : string) (w1 w2 : world)
            (p1 p2 : string) (w1' w2' : world),
       w1 <> w2 ->
       generate_excel_report df1 c w1 = (Ok p1, w1') ->
       generate_excel_report df2 c w2 = (Ok p2, w2') ->
       p1 <> p2).
Proof.
  intros H.
  set (w1 := snd (fetch_due_loans sample_db 7 true (started sample_world))).
  set (w2 := snd (fetch_due_loans sample_db 7 true
                    (started (snd (main sample_world))))).
  apply (H sample_rows sample_rows "Maisha Bora Sacco" w1 w2
           "reports/Loans_Due_Report_20261103.xlsx"
           "reports/Loans_Due_Report_20261103.xlsx"
           (snd (generate_excel_report sample_rows "Maisha Bora Sacco" w1))
           (snd (generate_excel_report sample_rows "Maisha Bora Sacco" w2))).
  - intros E. apply (f_equal reads) in E. vm_compute in E. discriminate E.
  - vm_compute. reflexivity.
  - vm_compute. reflexivity.
  - reflexivity.
Qed.

(** C10.  Whatever the window and the flag the table was selected with,
    the subtitle of the spreadsheet states a range from the date of the
    report to seven days after it, and the summary sheet gives the
    Reporting Period as the fixed text. *)
Theorem subtitle_range_is_seven_days (conn : database) (days : Z)
    (include_overdue : bool) (w : world) (df : list report_row)
    (w1 : world) (c : string) (path : string) (w2 : world) :
  fetch_due_loans conn days include_overdue w = (Ok df, w1) ->
  generate_excel_report df c w1 = (Ok path, w2) ->
  let t := reading w1 0 in
  exists wb,
    files w2 !! path = Some wb
    /\ summary_sheet_value wb "Report Date"
       = Some (VStr (strftime "%d %B %Y" t))
    /\ c_value (ws_a2 (wb_detail wb))
       = VStr ("Report Generated: " +:+ strftime "%A, %d %B %Y" t
               +:+ "  |  "
               +:+ "Loans Due: " +:+ strftime "%d %b" t +:+ " – "
               +:+ strftime "%d %b %Y" (date_add_days t 7) +:+ "  |  "
               +:+ "Total Records: " +:+ pretty (length df))
    /\ summary_sheet_value wb "Reporting Period"
       = Some (VStr "Next 7 Days + Overdue").
Proof.
  intros _. rewrite generate_excel_report_run. intros H t.
  injection H as <- <-. exists (build_workbook df c t).
  split; [simpl; apply lookup_insert_eq |].
  rewrite !summary_sheet_value_eq. repeat split.
Qed.

Lemma subtitle_range_is_seven_days_witness :
  exists wb,
    files (snd (main (make_world (fun _ => mkdate 2026 11 3)
                        {| cfg_email_section := true;
                           cfg_db_type := None;
                           cfg_days_lookahead := Some 30;
                           cfg_include_overdue := Some false;
                           cfg_save_local_copy := None;
                           cfg_company_name := None;
                           cfg_sender_email := Some "info@example.com";
                           cfg_sender_password := Some "secret";
                           cfg_recipient_email := Some "credit@example.com";
                           cfg_recipient_name := None;
                           cfg_smtp_server := None;
                           cfg_smtp_port := None;
                           cfg_email_subject := None |}
                        sample_db None)))
      !! "reports/Loans_Due_Report_20261103.xlsx" = Some wb
    /\ c_value (ws_a2 (wb_detail wb))
       = VStr "Report Generated: Tuesday, 03 November 2026  |  Loans Due: 03 Nov – 10 Nov 2026  |  Total Records: 2"
    /\ summary_sheet_value wb "Reporting Period"
       = Some (VStr "Next 7 Days + Overdue").
Proof.
  set (w := started (make_world (fun _ => mkdate 2026 11 3) sample_cfg
                       sample_db None)).
  set (df := match fst (fetch_due_loans sample_db 30 false w) with
             | Ok df => df
             | Raised _ => []
             end).
  destruct (subtitle_range_is_seven_days sample_db 30 false w df
              (snd (fetch_due_loans sample_db 30 false w))
              "Loan Management System"
              "reports/Loans_Due_Report_20261103.xlsx"
              (snd (generate_excel_report df "Loan Management System"
                      (snd (fetch_due_loans sample_db 30 false w)))))
    as (wb & Hwb & _ & Hsub & Hper).
  - vm_compute. reflexivity.
  - vm_compute. reflexivity.
  - exists wb. split; [| split].
    + rewrite <- Hwb. vm_compute. reflexivity.
    + rewrite Hsub. vm_compute. reflexivity.
    + exact Hper.
Defined.

(** ** Running [send_email] and [main] *)

Lemma log_run lv s w : write_log lv s w = (Ok tt, add_log lv s w).
Proof. reflexivity. Qed.

Ltac step_log := rewrite bind_run, log_run; cbv beta iota.
Ltac step_with H := rewrite bind_run, H; cbv beta iota zeta.

Lemma has_email_section_sender cfg :
  is_Some (cfg_sender_email cfg) -> has_email_section cfg = true.
Proof.
  intros H. unfold has_email_section.
  rewrite (bool_decide_eq_true_2 _ H). by rewrite orb_true_r.
Qed.

(** The message [send_email] composes when the clock reads [t_subject] and
    then [t_body]. *)
Lemma send_email_run cfg path df w sender password recipient :
  cfg_sender_email cfg = Some sender ->
  cfg_sender_password cfg = Some password ->
  cfg_recipient_email cfg = Some recipient ->
  let company :=
    default "Loan Management System" (cfg_company_name cfg) in
  let w1 :=
    add_log INFO
      ("Connecting to " +:+ default "smtp.gmail.com" (cfg_smtp_server cfg)
       +:+ ":" +:+ pretty (default 587 (cfg_smtp_port cfg)) +:+ "...")
      (tick (tick w)) in
  send_email cfg path df w =
  match files w !! path with
  | None => (Raised (FileNotFoundError (no_such_file path)), tick (tick w))
  | Some part =>
      match smtp_error w with
      | Some e => (Raised (SMTPException e), w1)
      | None =>
          (Ok tt,
           add_log INFO ("✅  Email sent successfully to " +:+ recipient)
             (add_outbox
                {| msg_subject :=
                     default "Loan Due Date Alert" (cfg_email_subject cfg)
                     +:+ " – " +:+ strftime "%d %b %Y" (reading w 0);
                   msg_from := company +:+ " <" +:+ sender +:+ ">";
                   msg_to :=
                     default "Credit and Loans Department"
                       (cfg_recipient_name cfg)
                     +:+ " <" +:+ recipient +:+ ">";
                   msg_html := render_email_body df company (reading w 1);
                   msg_attachment_name := basename path;
                   msg_attachment := part |}
                w1))
      end
  end.
Proof.
  intros Hs Hp Hr company w1. unfold send_email. cbv zeta.
  rewrite has_email_section_sender by (rewrite Hs; by eexists).
  rewrite Hs, Hp, Hr. unfold cfg_get.
  do 3 (rewrite bind_run, ret_run; cbv beta iota zeta).
  rewrite bind_run. unfold date_today at 1. cbv beta iota zeta.
  rewrite bind_run. unfold build_email_body at 1.
  rewrite bind_run. unfold date_today at 1. cbv beta iota.
  rewrite ret_run. cbv beta iota.
  rewrite bind_run. unfold read_file at 1.
  change (files (tick (tick w))) with (files w).
  change (today_at (tick w)) with (today_at w).
  rewrite <- (reading_0 w).
  change (today_at w (reads (tick w)))
    with (today_at (tick w) (reads (tick w))).
  rewrite <- (reading_0 (tick w)), reading_tick.
  destruct (files w !! path) as [part |]; [| done].
  unfold log_info. step_log. rewrite bind_run. unfold smtp_send at 1.
  change (smtp_error (add_log _ _ (tick (tick w)))) with (smtp_error w).
  destruct (smtp_error w); [done |]. cbv beta iota. rewrite log_run.
  reflexivity.
Qed.

(** A required option that is missing ends [send_email] where it is
    read: nothing has happened yet. *)
Lemma send_email_unconfigured cfg path df w :
  (cfg_sender_email cfg = None ->
     send_email cfg path df w
     = (Raised (if has_email_section cfg
                then NoOptionError "sender_email" "EMAIL"
                else NoSectionError "EMAIL"), w))
  /\ (is_Some (cfg_sender_email cfg) -> cfg_sender_password cfg = None ->
        send_email cfg path df w
        = (Raised (NoOptionError "sender_password" "EMAIL"), w))
  /\ (is_Some (cfg_sender_email cfg) -> is_Some (cfg_sender_password cfg) ->
        cfg_recipient_email cfg = None ->
        send_email cfg path df w
        = (Raised (NoOptionError "recipient_email" "EMAIL"), w)).
Proof.
  split; [| split].
  - intros Hs. unfold send_email. cbv zeta. rewrite Hs.
    by destruct (has_email_section cfg).
  - intros Hs Hp. unfold send_email. cbv zeta.
    rewrite (has_email_section_sender cfg Hs).
    destruct Hs as [s Hs]. by rewrite Hs, Hp.
  - intros Hs [p Hp] Hr. unfold send_email. cbv zeta.
    rewrite (has_email_section_sender cfg Hs).
    destruct Hs as [s Hs]. by rewrite Hs, Hp, Hr.
Qed.

(** The four ways [send_email] can end. *)
Lemma send_email_cases cfg path df w :
  (exists e,
      ~ sender_configured cfg
      /\ (e = NoSectionError "EMAIL" \/ exists o, e = NoOptionError o "EMAIL")
      /\ send_email cfg path df w = (Raised e, w))
  \/ (sender_configured cfg /\ files w !! path = None
      /\ send_email cfg path df w
         = (Raised (FileNotFoundError (no_such_file path)), tick (tick w)))
  \/ (exists part e line,
        sender_configured cfg /\ files w !! path = Some part
        /\ smtp_error w = Some e
        /\ send_email cfg path df w
           = (Raised (SMTPException e), add_log INFO line (tick (tick w))))
  \/ (exists part msg line line',
        sender_configured cfg /\ files w !! path = Some part
        /\ smtp_error w = None
        /\ msg_attachment msg = part
        /\ msg_attachment_name msg = basename path
        /\ send_email cfg path df w
           = (Ok tt,
              add_log INFO line'
                (add_outbox msg (add_log INFO line (tick (tick w)))))).
Proof.
  destruct (send_email_unconfigured cfg path df w) as (U1 & U2 & U3).
  unfold sender_configured.
  destruct (cfg_sender_email cfg) as [sender |] eqn:Hs.
  2:{ left. eexists. split; [intros [[? [=]] _] |].
      split; [| by apply U1].
      destruct (has_email_section cfg); [right; by eexists | by left]. }
  destruct (cfg_sender_password cfg) as [password |] eqn:Hp.
  2:{ left. eexists. split; [intros (_ & [? [=]] & _) |].
      split; [right; by eexists | by apply U2]. }
  destruct (cfg_recipient_email cfg) as [recipient |] eqn:Hr.
  2:{ left. eexists. split; [intros (_ & _ & [? [=]]) |].
      split; [right; by eexists | by apply U3]. }
  right.
  assert (Hall : is_Some (Some sender) /\ is_Some (Some password)
                 /\ is_Some (Some recipient)) by (repeat split; by eexists).
  rewrite (send_email_run cfg path df w sender password recipient Hs Hp Hr).
  destruct (files w !! path) as [part |]; [| by left].
  right. destruct (smtp_error w) as [e |].
  - left. by eexists part, e, _.
  - right. eexists part, _, _, _. repeat split; try done; by eexists.
Qed.

(** [send_email] changes no file, and it leaves the outbox alone when it
    raises. *)
Lemma send_email_effects cfg path df w r w' :
  send_email cfg path df w = (r, w') ->
  files w' = files w /\ (forall e, r = Raised e -> outbox w' = outbox w).
Proof.
  destruct (send_email_cases cfg path df w)
    as [(e & _ & _ & ->) | [(_ & _ & ->) | [(? & ? & ? & _ & _ & _ & ->)
        | (? & ? & ? & ? & _ & _ & _ & _ & _ & ->)]]];
    intros [= <- <-]; done.
Qed.

(** [main], once its stages are known: the configuration, the connection,
    a non-empty table, the artifact and the outcome of the delivery. *)
Lemma main_run w cfg conn df w1 path w2 r w3 :
  load_config "config.ini" (started w) = (Ok cfg, started w) ->
  get_db_connection cfg (started w) = (Ok conn, started w) ->
  fetch_due_loans conn (default 7 (cfg_days_lookahead cfg))
    (default true (cfg_include_overdue cfg)) (started w) = (Ok df, w1) ->
  df <> [] ->
  generate_excel_report df
    (default "Loan Management System" (cfg_company_name cfg)) w1
  = (Ok path, w2) ->
  send_email cfg path df w2 = (r, w3) ->
  main w =
  (r, after_delivery (default true (cfg_save_local_copy cfg)) path r w3).
Proof.
  intros Hcfg Hconn Hfetch Hne Hgen Hsend.
  unfold main, log_info, log_error.
  do 3 step_log. fold (started w).
  step_with Hcfg. step_with Hconn. step_with Hfetch.
  rewrite bool_decide_eq_false_2 by done.
  step_with Hgen. rewrite bind_run. unfold try_except at 1. rewrite Hsend.
  unfold after_delivery. destruct r as [[] | e]; cbv beta iota.
  - rewrite bind_run. unfold path_exists at 1. cbv beta iota zeta.
    destruct (negb (default true (cfg_save_local_copy cfg))
              && bool_decide (is_Some (files w3 !! path))) eqn:Hrm.
    + apply andb_true_iff in Hrm as [_ Hex].
      apply bool_decide_eq_true in Hex as [wb Hwb].
      do 2 rewrite bind_run. unfold remove_file at 1. rewrite Hwb.
      cbv beta iota. rewrite log_run. cbv beta iota.
      do 2 step_log. now rewrite log_run.
    + rewrite bind_run, ret_run. cbv beta iota.
      do 2 step_log. now rewrite log_run.
  - do 2 step_log. reflexivity.
Qed.

(** C7.  When [send_email] raises after the artifact was written, [main]
    ends with that error, the artifact is still at its path, unchanged,
    the log names the path, and nothing was sent.  The artifact is gone
    at the end of a run only if the delivery succeeded and the
    configuration says not to keep a local copy. *)
Theorem failed_delivery_keeps_the_artifact (w : world) (cfg : config)
    (conn : database) (df : list report_row) (w1 : world) (path : string)
    (w2 : world) (r : result unit) (w3 : world) :
  load_config "config.ini" (started w) = (Ok cfg, started w) ->
  get_db_connection cfg (started w) = (Ok conn, started w) ->
  fetch_due_loans conn (default 7 (cfg_days_lookahead cfg))
    (default true (cfg_include_overdue cfg)) (started w) = (Ok df, w1) ->
  df <> [] ->
  generate_excel_report df
    (default "Loan Management System" (cfg_company_name cfg)) w1
  = (Ok path, w2) ->
  send_email cfg path df w2 = (r, w3) ->
  exists w',
    main w = (r, w')
    /\ (forall e, r = Raised e ->
          files w' !! path = files w2 !! path
          /\ is_Some (files w' !! path)
          /\ (ERROR, "❌  Failed to send email: " +:+ exn_str e) ∈ log w'
          /\ (INFO, "Report saved locally at: " +:+ path) ∈ log w'
          /\ outbox w' = outbox w2)
    /\ (files w' !! path = None <->
        r = Ok tt /\ default true (cfg_save_local_copy cfg) = false).
Proof.
  intros Hcfg Hconn Hfetch Hne Hgen Hsend.
  assert (Hfile : is_Some (files w2 !! path)).
  { rewrite generate_excel_report_run in Hgen. injection Hgen as <- <-.
    simpl. rewrite lookup_insert_eq. by eexists. }
  destruct (send_email_effects _ _ _ _ _ _ Hsend) as [Hfiles Hout].
  rewrite <- Hfiles in Hfile.
  eexists. split; [by apply (main_run w cfg conn df w1 path w2 r w3) |].
  unfold after_delivery. split.
  - intros e ->. simpl. rewrite Hfiles in *.
    split; [done |]. split; [done |].
    split; [| split; [| by apply (Hout e)]].
    + rewrite !elem_of_app. left. right. by apply list_elem_of_singleton.
    + rewrite !elem_of_app. right. by apply list_elem_of_singleton.
  - destruct r as [[] | e].
    + rewrite bool_decide_eq_true_2 by done.
      destruct (default true (cfg_save_local_copy cfg)); simpl.
      * split; [| intros [_ [=]]].
        intros E. rewrite E in Hfile. by destruct Hfile.
      * by rewrite lookup_delete_eq.
    + simpl. split; [| intros [[=] _]].
      intros E. rewrite E in Hfile. by destruct Hfile.
Qed.

Lemma failed_delivery_keeps_the_artifact_witness :
  exists w',
    main auth_failure_world
    = (Raised
         (SMTPException "(535, b'5.7.8 Username and Password not accepted')"),
       w')
    /\ is_Some (files w' !! "reports/Loans_Due_Report_20261103.xlsx")
    /\ (INFO,
        "Report saved locally at: reports/Loans_Due_Report_20261103.xlsx")
       ∈ log w'.
Proof.
  set (w := auth_failure_world).
  set (fetched := fetch_due_loans sample_db 7 true (started w)).
  set (df := match fst fetched with Ok df => df | Raised _ => [] end).
  set (generated :=
         generate_excel_report df "Maisha Bora Sacco" (snd fetched)).
  set (path := "reports/Loans_Due_Report_20261103.xlsx").
  set (sent := send_email sample_cfg path df (snd generated)).
  destruct (failed_delivery_keeps_the_artifact w sample_cfg sample_db df
              (snd fetched) path (snd generated)
              (Raised
                 (SMTPException
                    "(535, b'5.7.8 Username and Password not accepted')"))
              (snd sent))
    as (w' & Hmain & Hfail & _).
  - reflexivity.
  - reflexivity.
  - vm_compute. reflexivity.
  - intros E. vm_compute in E. discriminate E.
  - vm_compute. reflexivity.
  - vm_compute. reflexivity.
  - destruct (Hfail _ eq_refl) as (_ & Hsome & _ & Hlog & _).
    exists w'. split; [exact Hmain |]. split; [exact Hsome | exact Hlog].
Defined.

(** The table [fetch_due_loans] returns is counted from, and selected
    with, the one date the clock gave it. *)
Lemma fetch_due_loans_ok conn days inc w df w' :
  fetch_due_loans conn days inc w = (Ok df, w') ->
  let t := reading w 0 in
  Forall (fun x =>
            days_remaining x = days_between (due_date x) t
            /\ in_window inc t (date_add_days t days) (due_date x)) df
  /\ w' = add_log INFO
            ("Fetched " +:+ pretty (length df) +:+ " loans due within "
             +:+ pretty days +:+ " days.")
            (tick w).
Proof.
  intros Hrun t.
  destruct (fetch_due_loans_run conn days inc w)
    as [(ds & Hds & E) | (s & r & _ & _ & E)];
    rewrite E in Hrun; [| discriminate].
  injection Hrun as <- <-. fold t in Hds |- *. split; [| reflexivity].
  apply Forall_forall. intros x Hx.
  apply (elem_of_table _ _ _ _ Hds) in Hx as (raw & Hin & Hd & ->).
  split; [reflexivity |]. simpl.
  apply elem_of_read_sql_query in Hin as [_ Hw].
  apply where_clause_spec in Hw as [Hf _]. rewrite Hd in Hf.
  by apply due_filter_window in Hf.
Qed.

Lemma after_delivery_ok save path w3 :
  outbox (after_delivery save path (Ok tt) w3) = outbox w3
  /\ reads (after_delivery save path (Ok tt) w3) = reads w3.
Proof.
  unfold after_delivery.
  by destruct (negb save && bool_decide (is_Some (files w3 !! path))).
Qed.

(** C1, as the code has it.  In a run that delivers a report, the rows are
    selected with, and their days remaining counted from, the first
    reading of the clock, taken in [fetch_due_loans].  The clock is read
    again three times: the spreadsheet and its file name carry the second
    reading, the subject of the message the third and its body the fourth.
    All four are the same date whenever the clock does not move to the
    next day during the run. *)
Theorem each_stage_reads_the_clock (w : world) (cfg : config)
    (conn : database) (df : list report_row) (w1 : world) (path : string)
    (w2 w3 : world) :
  load_config "config.ini" (started w) = (Ok cfg, started w) ->
  get_db_connection cfg (started w) = (Ok conn, started w) ->
  fetch_due_loans conn (default 7 (cfg_days_lookahead cfg))
    (default true (cfg_include_overdue cfg)) (started w) = (Ok df, w1) ->
  df <> [] ->
  generate_excel_report df
    (default "Loan Management System" (cfg_company_name cfg)) w1
  = (Ok path, w2) ->
  send_email cfg path df w2 = (Ok tt, w3) ->
  let company := default "Loan Management System" (cfg_company_name cfg) in
  let t := reading w 0 in
  Forall (fun x =>
            days_remaining x = days_between (due_date x) t
            /\ in_window (default true (cfg_include_overdue cfg)) t
                 (date_add_days t (default 7 (cfg_days_lookahead cfg)))
                 (due_date x)) df
  /\ path = report_filename (reading w 1)
  /\ exists msg w',
       main w = (Ok tt, w')
       /\ outbox w' = outbox w ++ [msg]
       /\ msg_attachment msg = build_workbook df company (reading w 1)
       /\ msg_subject msg =
          default "Loan Due Date Alert" (cfg_email_subject cfg)
          +:+ " – " +:+ strftime "%d %b %Y" (reading w 2)
       /\ msg_html msg = render_email_body df company (reading w 3)
       /\ reads w' = (reads w + 4)%nat
       /\ (reading w 1 = t -> reading w 2 = t -> reading w 3 = t ->
           msg_attachment msg = build_workbook df company t
           /\ msg_subject msg =
              default "Loan Due Date Alert" (cfg_email_subject cfg)
              +:+ " – " +:+ strftime "%d %b %Y" t
           /\ msg_html msg = render_email_body df company t).
Proof.
  intros Hcfg Hconn Hfetch Hne Hgen Hsend company t.
  pose proof (main_run w cfg conn df w1 path w2 (Ok tt) w3
                Hcfg Hconn Hfetch Hne Hgen Hsend) as Hmain.
  apply fetch_due_loans_ok in Hfetch as [Hrows Hw1].
  pose proof (generate_excel_report_run df company w1) as G.
  cbv zeta in G. fold company in Hgen. rewrite Hgen in G.
  assert (R1 : reading w1 0 = reading w 1).
  { rewrite Hw1, reading_add_log, reading_tick. reflexivity. }
  rewrite R1 in G.
  assert (Hpath : path = report_filename (reading w 1)) by congruence.
  assert (Hw2 : w2 =
    add_log INFO ("Excel report saved: " +:+ report_filename (reading w 1))
      (set_files
         (<[report_filename (reading w 1) :=
              build_workbook df company (reading w 1)]> (files (tick w1)))
         (tick w1))) by congruence.
  clear G. split; [exact Hrows |]. split; [exact Hpath |].
  assert (Hconf : sender_configured cfg).
  { destruct (send_email_cases cfg path df w2)
      as [(e & _ & _ & E) | [(H & _) | [(? & ? & ? & H & _)
          | (? & ? & ? & ? & H & _)]]];
      [rewrite E in Hsend; discriminate | exact H ..]. }
  destruct Hconf as ([sender Hs] & [password Hp] & [recipient Hr]).
  rewrite (send_email_run _ _ _ _ sender password recipient Hs Hp Hr) in Hsend.
  assert (Hfile : files w2 !! path
                  = Some (build_workbook df company (reading w 1))).
  { rewrite Hw2, Hpath. simpl. apply lookup_insert_eq. }
  rewrite Hfile in Hsend.
  destruct (smtp_error w2); [discriminate |].
  injection Hsend as Hw3.
  assert (R2 : reading w2 0 = reading w 2).
  { rewrite Hw2, reading_add_log, reading_set_files, reading_tick.
    rewrite Hw1, reading_add_log, reading_tick. reflexivity. }
  assert (R3 : reading w2 1 = reading w 3).
  { rewrite Hw2, reading_add_log, reading_set_files, reading_tick.
    rewrite Hw1, reading_add_log, reading_tick. reflexivity. }
  rewrite R2, R3 in Hw3. fold company in Hw3.
  destruct (after_delivery_ok (default true (cfg_save_local_copy cfg)) path w3)
    as [Hout Hreads].
  match type of Hw3 with add_log _ _ (add_outbox ?m _) = _ => exists m end.
  exists (after_delivery (default true (cfg_save_local_copy cfg)) path
            (Ok tt) w3).
  split; [exact Hmain |]. rewrite Hout, Hreads, <- Hw3.
  cbn [outbox reads add_log add_outbox tick msg_attachment msg_subject
         msg_html].
  rewrite Hw2. cbn [outbox reads add_log set_files tick]. rewrite Hw1.
  cbn [outbox reads add_log tick started].
  do 4 (split; [reflexivity |]). split; [lia |].
  intros -> -> ->. repeat split.
Qed.

Lemma each_stage_reads_the_clock_witness :
  exists msg w',
    main midnight_world = (Ok tt, w')
    /\ outbox w' = [msg]
    /\ msg_subject msg = "Loan Due Date Alert – 04 Nov 2026"
    /\ reads w' = 4%nat.
Proof.
  set (w := midnight_world).
  set (fetched := fetch_due_loans sample_db 7 true (started w)).
  set (df := match fst fetched with Ok df => df | Raised _ => [] end).
  set (generated :=
         generate_excel_report df "Maisha Bora Sacco" (snd fetched)).
  set (path := "reports/Loans_Due_Report_20261104.xlsx").
  set (sent := send_email sample_cfg path df (snd generated)).
  destruct (each_stage_reads_the_clock w sample_cfg sample_db df
              (snd fetched) path (snd generated) (snd sent))
    as (_ & _ & msg & w' & Hmain & Hout & _ & Hsubj & _ & Hreads & _).
  - reflexivity.
  - reflexivity.
  - vm_compute. reflexivity.
  - intros E. vm_compute in E. discriminate E.
  - vm_compute. reflexivity.
  - vm_compute. reflexivity.
  - exists msg, w'. split; [exact Hmain |]. split; [exact Hout |].
    split; [rewrite Hsubj; vm_compute; reflexivity | exact Hreads].
Defined.

(** C1, as stated, fails for a run that starts on 3 November just before
    midnight: the days remaining are counted from the 3rd, the message is
    dated the 4th. *)
Lemma midnight_run_has_two_dates : ~ single_reference_date midnight_world.
Proof.
  intros H.
  assert (Hmain : main midnight_world = (Ok tt, snd (main midnight_world)))
    by (vm_compute; reflexivity).
  destruct (outbox (snd (main midnight_world))) as [| msg rest] eqn:Hout;
    [vm_compute in Hout; discriminate Hout |].
  destruct (H _ msg Hmain) as (cfg & df & Hcfg & _ & _ & Hsubj & _).
  - rewrite Hout. apply list_elem_of_here.
  - apply not_elem_of_nil.
  - injection Hcfg as <-.
    vm_compute in Hout. injection Hout as <- _.
    vm_compute in Hsubj. discriminate Hsubj.
Qed.

(** ** A due date that cannot be read *)

Lemma Forall2_dates_elem_of rows ds raw :
  Forall2 (fun r d => rr_due_date r = DueOn d) rows ds ->
  raw ∈ rows -> exists d, rr_due_date raw = DueOn d.
Proof.
  intros H Hin. apply list_elem_of_lookup in Hin as [i Hi].
  destruct (Forall2_lookup_l _ _ _ _ _ H Hi) as (d & _ & Hd). eauto.
Qed.

(** C5, as the code has it.  When a selected row carries a due date that
    cannot be read, [fetch_due_loans] raises the parse error for such a
    row and returns no table, and [main] ends with that error: it has
    written no file, sent no message and logged nothing but its opening
    lines. *)
Theorem unreadable_due_date_aborts_the_run (w : world) (cfg : config)
    (conn : database) (raw : raw_row) (s : string) :
  load_config "config.ini" (started w) = (Ok cfg, started w) ->
  get_db_connection cfg (started w) = (Ok conn, started w) ->
  let days := default 7 (cfg_days_lookahead cfg) in
  let include_overdue := default true (cfg_include_overdue cfg) in
  let t := reading w 0 in
  raw ∈ read_sql_query conn include_overdue t (date_add_days t days) ->
  rr_due_date raw = BadText s ->
  exists bad w',
    (exists raw',
        raw' ∈ read_sql_query conn include_overdue t (date_add_days t days)
        /\ rr_due_date raw' = BadText bad)
    /\ fetch_due_loans conn days include_overdue (started w)
       = (Raised (DateParseError bad), w')
    /\ main w = (Raised (DateParseError bad), w')
    /\ files w' = files w
    /\ outbox w' = outbox w
    /\ log w' = log (started w).
Proof.
  intros Hcfg Hconn days include_overdue t Hin Hbad.
  destruct (fetch_due_loans_run conn days include_overdue (started w))
    as [(ds & Hds & _) | (bad & raw' & Hin' & Hbad' & E)].
  - destruct (Forall2_dates_elem_of _ _ _ Hds Hin) as [d Hd]. congruence.
  - exists bad, (tick (started w)).
    split; [by exists raw' |]. split; [exact E |]. split; [| done].
    unfold main, log_info. do 3 step_log. fold (started w).
    step_with Hcfg. step_with Hconn. fold days include_overdue.
    now rewrite bind_run, E.
Qed.

Lemma unreadable_due_date_aborts_the_run_witness :
  exists w',
    main dirty_world = (Raised (DateParseError "2026-02-30"), w')
    /\ files w' = ∅ /\ outbox w' = [].
Proof.
  destruct (unreadable_due_date_aborts_the_run dirty_world sample_cfg dirty_db
              (select_columns
                 (sample_loan "LN-006" 2 3000000 3000000
                    (BadText "2026-02-30") "Active")
                 {| c_customer_id := 2; c_full_name := "Brian Otieno";
                    c_phone_number := "0711333444";
                    c_email := "brian@example.co.ke" |}
                 {| b_branch_id := 1; b_loan_officer := "Peter Kamau";
                    b_branch_name := "Nairobi CBD" |})
              "2026-02-30")
    as (bad & w' & _ & _ & Hmain & Hfiles & Hout & _).
  - reflexivity.
  - reflexivity.
  - apply elem_of_read_sql_query. split.
    + apply elem_of_joined. eexists _, _, _.
      split; [apply list_elem_of_In; right; left; reflexivity |].
      split; [apply list_elem_of_In; right; left; reflexivity |].
      split; [apply list_elem_of_In; left; reflexivity |].
      repeat split.
    + vm_compute. reflexivity.
  - reflexivity.
  - assert (E : main dirty_world
                = (Raised (DateParseError "2026-02-30"),
                   snd (main dirty_world)))
      by (vm_compute; reflexivity).
    exists w'. split; [| split; [exact Hfiles | exact Hout]].
    rewrite E in Hmain. injection Hmain as <- <-. exact E.
Defined.

(** C5, as stated, fails: with one unreadable due date among the selected
    rows the run sends no report over the others. *)
Lemma bad_row_stops_the_run : ~ run_survives_bad_rows dirty_world.
Proof.
  intros (w' & msg & Hmain & _). vm_compute in Hmain. discriminate Hmain.
Qed.

(** ** The order of ISO texts *)

Lemma digit_char_code a :
  N_of_ascii (digit_char a) = Z.to_N (48 + a mod 10).
Proof.
  unfold digit_char, ascii_of_nat.
  pose proof (Z.mod_pos_bound a 10 ltac:(lia)).
  rewrite N_ascii_embedding; lia.
Qed.

Lemma digit_char_compare a b :
  Ascii.compare (digit_char a) (digit_char b) = (a mod 10 ?= b mod 10).
Proof.
  unfold Ascii.compare. rewrite !digit_char_code.
  pose proof (Z.mod_pos_bound a 10 ltac:(lia)).
  pose proof (Z.mod_pos_bound b 10 ltac:(lia)).
  rewrite Z2N.inj_compare by lia. apply Z.add_compare_mono_l.
Qed.

Lemma compare_cons c1 c2 s1 s2 :
  String.compare (String c1 s1) (String c2 s2)
  = match Ascii.compare c1 c2 with
    | Eq => String.compare s1 s2
    | ne => ne
    end.
Proof. reflexivity. Qed.

(** Texts that begin with [k] digits compare by the numbers the digits
    spell, then by what follows. *)
Lemma digits_compare k a b s t :
  String.compare (digits k a +:+ s) (digits k b +:+ t)
  = match a mod 10 ^ Z.of_nat k ?= b mod 10 ^ Z.of_nat k with
    | Eq => String.compare s t
    | ne => ne
    end.
Proof.
  induction k as [| k IH].
  - simpl. rewrite !Z.mod_1_r. reflexivity.
  - change (digits (S k) a +:+ s)
      with (String (digit_char (a / 10 ^ Z.of_nat k)) (digits k a +:+ s)).
    change (digits (S k) b +:+ t)
      with (String (digit_char (b / 10 ^ Z.of_nat k)) (digits k b +:+ t)).
    rewrite compare_cons, digit_char_compare, IH.
    rewrite Nat2Z.inj_succ, Z.pow_succ_r, (Z.mul_comm 10) by lia.
    rewrite !Z.rem_mul_r by lia.
    set (p := 10 ^ Z.of_nat k).
    assert (0 < p) by (apply Z.pow_pos_nonneg; lia).
    pose proof (Z.mod_pos_bound a p ltac:(lia)).
    pose proof (Z.mod_pos_bound b p ltac:(lia)).
    set (la := a mod p) in *. set (lb := b mod p) in *.
    set (ha := (a / p) mod 10). set (hb := (b / p) mod 10).
    destruct (Z.compare_spec ha hb) as [-> | Hlt | Hgt].
    + rewrite (Z.add_comm la), (Z.add_comm lb), Z.add_compare_mono_l. reflexivity.
    + assert (E : (la + p * ha ?= lb + p * hb) = Lt) by (apply Z.compare_lt_iff; nia).
      now rewrite E.
    + assert (E : (la + p * ha ?= lb + p * hb) = Gt) by (apply Z.compare_gt_iff; nia).
      now rewrite E.
Qed.

Lemma string_app_empty_r (s : string) : s +:+ "" = s.
Proof.
  induction s as [| c s IH]; [reflexivity |].
  change (String c (s +:+ "") = String c s). now rewrite IH.
Qed.

Lemma digits_compare_end k a b :
  0 <= a < 10 ^ Z.of_nat k -> 0 <= b < 10 ^ Z.of_nat k ->
  String.compare (digits k a) (digits k b) = (a ?= b).
Proof.
  intros Ha Hb.
  pose proof (digits_compare k a b "" "") as H.
  rewrite !string_app_empty_r in H.
  rewrite H, !Z.mod_small by lia.
  now destruct (a ?= b).
Qed.

(** ISO texts order as the dates they spell. *)
Lemma isoformat_compare a b :
  in_range a -> in_range b ->
  String.leb (isoformat a) (isoformat b) = date_leb a b.
Proof.
  intros (Hya & Hma & Hda) (Hyb & Hmb & Hdb).
  apply eq_true_iff_eq. rewrite date_leb_spec.
  unfold String.leb, isoformat.
  rewrite (digits_compare 4 (year a) (year b)).
  rewrite !Z.mod_small by (simpl; lia).
  change ("-" +:+ ?x) with (String "-" x).
  destruct (Z.compare_spec (year a) (year b)) as [Ey | Hy | Hy];
    [| split; [lia | reflexivity] | split; [discriminate | lia]].
  rewrite compare_cons.
  change (Ascii.compare "-" "-") with Eq. cbv iota.
  rewrite (digits_compare 2 (month a) (month b)).
  rewrite !Z.mod_small by (simpl; lia).
  destruct (Z.compare_spec (month a) (month b)) as [Em | Hm | Hm];
    [| split; [lia | reflexivity] | split; [discriminate | lia]].
  change ("-" +:+ ?x) with (String "-" x).
  rewrite compare_cons.
  change (Ascii.compare "-" "-") with Eq. cbv iota.
  rewrite digits_compare_end by (simpl; lia).
  destruct (Z.compare_spec (day a) (day b)); split; try lia; try reflexivity; try discriminate.
Qed.

(** X2.  For due dates held as ISO text, comparing the texts as the query does,
    with [str(today)] and [str(cutoff)] and in [ORDER BY], is comparing
    the dates. *)
Theorem sql_text_comparison_follows_the_calendar (inc : bool)
    (today cutoff : date) (c c' : due_cell) :
  in_range today -> in_range cutoff ->
  cell_in_range c -> cell_in_range c' ->
  text_due_filter inc (isoformat today) (isoformat cutoff) (cell_text c)
  = due_filter inc today cutoff c
  /\ String.leb (cell_text c) (cell_text c') = cell_leb c c'.
Proof.
  intros Ht Hc Hd Hd'. split.
  - unfold text_due_filter, due_filter.
    destruct c as [d | s]; [| reflexivity]. cbn in Hd |- *.
    by rewrite !isoformat_compare.
  - destruct c as [d | s], c' as [d' | s']; try reflexivity.
    cbn in Hd, Hd' |- *. by apply isoformat_compare.
Qed.

Lemma sql_text_comparison_follows_the_calendar_witness :
  text_due_filter false "2026-11-03" "2026-11-10" "2026-11-05"
  = due_filter false (mkdate 2026 11 3) (mkdate 2026 11 10)
      (DueOn (mkdate 2026 11 5))
  /\ String.leb "2026-11-05" "2026-10-01"
     = cell_leb (DueOn (mkdate 2026 11 5)) (DueOn (mkdate 2026 10 1)).
Proof.
  apply (sql_text_comparison_follows_the_calendar false (mkdate 2026 11 3)
           (mkdate 2026 11 10) (DueOn (mkdate 2026 11 5))
           (DueOn (mkdate 2026 10 1)));
    vm_compute; repeat split; discriminate.
Defined.

(** ** Days remaining *)

Lemma Sorted_transfer {A} (R R' : A -> A -> Prop) (P : A -> Prop) l :
  (forall a b c, R a b -> R b c -> R a c) ->
  (forall a b, P a -> P b -> R a b -> R' a b) ->
  Forall P l -> Sorted R l -> StronglySorted R' l.
Proof.
  intros Htr Himp HP Hs. apply Sorted_StronglySorted in Hs; [| exact Htr].
  induction Hs as [| a l Hs IH Hall]; [constructor |].
  apply Forall_cons in HP as [Pa HP]. constructor; [by apply IH |].
  rewrite Forall_forall in Hall, HP |- *. intros b Hb.
  apply Himp; auto.
Qed.

Lemma count_rows_all p df :
  Forall (fun r => p r = true) df -> count_rows p df = Z.of_nat (length df).
Proof.
  intros H. induction H as [| r df Hr H IH]; [done |].
  rewrite count_rows_cons, Hr, IH. simpl length. lia.
Qed.

Lemma count_rows_none p df :
  Forall (fun r => p r = false) df -> count_rows p df = 0.
Proof.
  intros H. induction H as [| r df Hr H IH]; [done |].
  by rewrite count_rows_cons, Hr, IH.
Qed.

(** X3.  No row of the table [fetch_due_loans] returns has more days remaining
    than the window [days_ahead]; without overdue loans none has fewer
    than zero, so that a negative window gives the empty table. *)
Theorem days_remaining_within_window (conn : database) (days : Z)
    (inc : bool) (w : world) (df : list report_row) (w' : world) :
  fetch_due_loans conn days inc w = (Ok df, w') ->
  valid_date (reading w 0) ->
  1 <= toordinal (reading w 0) + days <= _MAXORDINAL ->
  valid_due_dates conn ->
  Forall (fun x =>
            days_remaining x <= days
            /\ (inc = false -> 0 <= days_remaining x)) df
  /\ (inc = false -> days < 0 -> df = []).
Proof.
  intros Hrun Ht Hr Hv.
  destruct (fetch_due_loans_days conn days inc w df w' Hrun Ht Hr Hv)
    as [Hrows _].
  split.
  - eapply Forall_impl; [exact Hrows |]. intros x (_ & -> & H1 & H2). done.
  - intros -> Hneg. destruct df as [| x df]; [done |].
    apply Forall_cons in Hrows as [(_ & _ & H1 & H2) _].
    specialize (H2 eq_refl). lia.
Qed.

Lemma days_remaining_within_window_witness :
  let df :=
    match fst (fetch_due_loans sample_db 30 false (started sample_world)) with
    | Ok df => df
    | Raised _ => []
    end in
  length df = 2%nat
  /\ Forall (fun x => days_remaining x <= 30
                      /\ (false = false -> 0 <= days_remaining x)) df.
Proof.
  intros df. split; [reflexivity |].
  apply (days_remaining_within_window sample_db 30 false
           (started sample_world) df
           (snd (fetch_due_loans sample_db 30 false (started sample_world)))).
  - vm_compute. reflexivity.
  - vm_compute. repeat split; discriminate.
  - vm_compute. split; discriminate.
  - sample_due_dates.
Defined.

(** X4.  Days Remaining and the Due Date of a row determine each other: the
    due date is the date of the run plus the days remaining, the days are
    negative exactly for a due date before the run and zero exactly for
    the date of the run. *)
Theorem days_remaining_tells_the_due_date (conn : database) (days : Z)
    (inc : bool) (w : world) (df : list report_row) (w' : world) :
  fetch_due_loans conn days inc w = (Ok df, w') ->
  valid_date (reading w 0) ->
  1 <= toordinal (reading w 0) + days <= _MAXORDINAL ->
  valid_due_dates conn ->
  Forall (fun x =>
            date_add_days (reading w 0) (days_remaining x) = due_date x
            /\ (days_remaining x < 0 <-> date_lt (due_date x) (reading w 0))
            /\ (days_remaining x = 0 <-> due_date x = reading w 0))
    df.
Proof.
  intros Hrun Ht Hr Hv.
  destruct (fetch_due_loans_days conn days inc w df w' Hrun Ht Hr Hv)
    as [Hrows _].
  set (t := reading w 0) in *.
  eapply Forall_impl; [exact Hrows |]. intros x (Hx & -> & _ & _).
  unfold days_between. split; [| split].
  - unfold date_add_days.
    replace (toordinal t + (toordinal (due_date x) - toordinal t))
      with (toordinal (due_date x)) by lia.
    by apply fromordinal_toordinal.
  - split.
    + intros H. destruct (date_leb t (due_date x)) eqn:E.
      * apply (date_leb_toordinal _ _ Ht Hx) in E. lia.
      * by apply date_leb_lt in E.
    + intros H. pose proof (toordinal_lt _ _ Hx Ht H). lia.
  - split; [| intros ->; lia].
    intros H. apply toordinal_inj; [done .. | lia].
Qed.

Lemma days_remaining_tells_the_due_date_witness :
  Forall (fun x =>
            date_add_days (mkdate 2026 11 3) (days_remaining x) = due_date x
            /\ (days_remaining x < 0
                <-> date_lt (due_date x) (mkdate 2026 11 3))
            /\ (days_remaining x = 0 <-> due_date x = mkdate 2026 11 3))
    sample_rows
  /\ map days_remaining sample_rows = [-33; -2; 2].
Proof.
  split; [| reflexivity].
  apply (days_remaining_tells_the_due_date sample_db 7 true
           (started sample_world) sample_rows
           (snd (fetch_due_loans sample_db 7 true (started sample_world)))).
  - vm_compute. reflexivity.
  - vm_compute. repeat split; discriminate.
  - vm_compute. split; discriminate.
  - sample_due_dates.
Defined.

(** X5.  The table comes ascending in Days Remaining: the rows are ordered by
    due date, and a later due date has more days remaining. *)
Theorem table_ascends_in_days_remaining (conn : database) (days : Z)
    (inc : bool) (w : world) (df : list report_row) (w' : world) :
  fetch_due_loans conn days inc w = (Ok df, w') ->
  valid_date (reading w 0) ->
  1 <= toordinal (reading w 0) + days <= _MAXORDINAL ->
  valid_due_dates conn ->
  StronglySorted Z.le (map days_remaining df).
Proof.
  intros Hrun Ht Hr Hv.
  destruct (fetch_due_loans_days conn days inc w df w' Hrun Ht Hr Hv)
    as [Hrows Hs].
  set (t := reading w 0) in *.
  assert (Hss : StronglySorted
                  (fun a b => days_remaining a <= days_remaining b) df).
  { apply (Sorted_transfer
             (fun a b => date_le (due_date a) (due_date b)) _
             (fun x => valid_date (due_date x)
                       /\ days_remaining x = days_between (due_date x) t));
      [| | | exact Hs].
    - intros a b c. apply date_leb_trans.
    - intros a b (Ha & ->) (Hb & ->) Hab.
      apply (date_leb_toordinal _ _ Ha Hb) in Hab. unfold days_between. lia.
    - eapply Forall_impl; [exact Hrows |]. tauto. }
  clear -Hss. induction Hss as [| a l Hss IH Hall]; [constructor |].
  simpl. constructor; [exact IH |]. by apply Forall_map.
Qed.

Lemma table_ascends_in_days_remaining_witness :
  StronglySorted Z.le (map days_remaining sample_rows).
Proof.
  apply (table_ascends_in_days_remaining sample_db 7 true
           (started sample_world) sample_rows
           (snd (fetch_due_loans sample_db 7 true (started sample_world)))).
  - vm_compute. reflexivity.
  - vm_compute. repeat split; discriminate.
  - vm_compute. split; discriminate.
  - sample_due_dates.
Defined.

(** X6.  With a window of at most seven days every row of the table falls in
    one of the four Due-This-Week figures, which then add up to Total
    Loans in Report; without overdue loans Already Overdue is zero. *)
Theorem narrow_window_buckets_cover_the_table (conn : database) (days : Z)
    (inc : bool) (w : world) (df : list report_row) (w' : world)
    (c : string) (t : date) :
  fetch_due_loans conn days inc w = (Ok df, w') ->
  valid_date (reading w 0) ->
  1 <= toordinal (reading w 0) + days <= _MAXORDINAL ->
  valid_due_dates conn ->
  days <= 7 ->
  let wb := build_workbook df c t in
  summary_sheet_value wb "Total Loans in Report"
  = Some (VInt (bucket_overdue df + bucket_due_today df + bucket_due_1_3 df
                + bucket_due_4_7 df))
  /\ (inc = false -> summary_sheet_value wb "Already Overdue" = Some (VInt 0)).
Proof.
  intros Hrun Ht Hr Hv H7 wb. subst wb.
  destruct (fetch_due_loans_days conn days inc w df w' Hrun Ht Hr Hv)
    as [Hrows _].
  rewrite !summary_sheet_value_eq. split.
  - rewrite bucket_partition, count_rows_all; [reflexivity |].
    eapply Forall_impl; [exact Hrows |]. intros x (_ & -> & H1 & _).
    apply Z.leb_le. lia.
  - intros ->. cbn. do 2 f_equal. apply count_rows_none.
    eapply Forall_impl; [exact Hrows |]. intros x (_ & -> & _ & H2).
    apply Z.ltb_ge. auto.
Qed.

Lemma narrow_window_buckets_cover_the_table_witness :
  summary_sheet_value
    (build_workbook sample_rows "Maisha Bora Sacco" (mkdate 2026 11 3))
    "Total Loans in Report"
  = Some (VInt (bucket_overdue sample_rows + bucket_due_today sample_rows
                + bucket_due_1_3 sample_rows + bucket_due_4_7 sample_rows))
  /\ bucket_overdue sample_rows = 2 /\ bucket_due_1_3 sample_rows = 1.
Proof.
  split; [| split; reflexivity].
  apply (narrow_window_buckets_cover_the_table sample_db 7 true
           (started sample_world) sample_rows
           (snd (fetch_due_loans sample_db 7 true (started sample_world)))
           "Maisha Bora Sacco" (mkdate 2026 11 3)).
  - vm_compute. reflexivity.
  - vm_compute. repeat split; discriminate.
  - vm_compute. split; discriminate.
  - sample_due_dates.
  - lia.
Defined.

(** ** Colours and figures of the two outputs *)

(** X7.  The Days Remaining cell of the spreadsheet and the one of the e-mail
    are coloured by the same thresholds: red below zero (the e-mail adds
    the word Overdue), orange from zero to three, and plain (spreadsheet)
    or green (e-mail) above three. *)
Theorem days_remaining_colours_agree (row_idx : Z) (r : report_row) :
  let sheet :=
    c_font <$> sheet_cell (data_row report_columns row_idx (row_tuple r)) 5 in
  let span color tail :=
    "<span style='color:" +:+ color +:+ ";font-weight:bold;'>"
    +:+ pretty (days_remaining r) +:+ tail +:+ "</span>" in
  (days_remaining r < 0 ->
     sheet = Some (Some (_font true "CC0000" 10 false))
     /\ days_display r = span "red" " (Overdue)")
  /\ (0 <= days_remaining r <= 3 ->
        sheet = Some (Some (_font true "E65100" 10 false))
        /\ days_display r = span "#e65100" "")
  /\ (3 < days_remaining r ->
        sheet = Some (Some (_font false "000000" 10 false))
        /\ days_display r = span "#1b7a1b" "").
Proof.
  intros sheet span. subst sheet span. unfold days_display.
  cbn [sheet_cell data_row snd row_tuple imap lookup list_lookup fmap
       option_fmap option_map report_columns nth compose].
  unfold data_cell. cbn [String.eqb Ascii.eqb Bool.eqb orb andb].
  cbn [c_font py_lt_int py_le_int].
  split; [| split]; intros H.
  - rewrite (proj2 (Z.ltb_lt _ _)) by lia. split; reflexivity.
  - rewrite (proj2 (Z.ltb_ge _ _)), (proj2 (Z.leb_le _ _)) by lia.
    split; reflexivity.
  - rewrite (proj2 (Z.ltb_ge _ _)), (proj2 (Z.leb_gt _ _)) by lia.
    split; reflexivity.
Qed.

(** X8.  The Loan Status cell is red in both outputs exactly for the status
    Overdue, and green otherwise. *)
Theorem status_colours_agree (row_idx : Z) (idx : nat) (r : report_row) :
  let sheet :=
    c_font <$> sheet_cell (data_row report_columns row_idx (row_tuple r)) 9 in
  let mail := td_style <$> tr_cells (email_row idx r) !! 8%nat in
  (loan_status r = "Overdue" ->
     sheet = Some (Some (_font true "CC0000" 10 false))
     /\ mail = Some "color:red;font-weight:bold;text-align:center;")
  /\ (loan_status r <> "Overdue" ->
        sheet = Some (Some (_font true "1B7A1B" 10 false))
        /\ mail = Some "color:green;font-weight:bold;text-align:center;").
Proof.
  intros sheet mail. subst sheet mail.
  cbn [sheet_cell data_row snd row_tuple imap lookup list_lookup fmap
       option_fmap option_map report_columns nth compose email_row tr_cells
       td_style].
  unfold data_cell. cbn [String.eqb Ascii.eqb Bool.eqb orb andb].
  cbn [c_font py_eq_str].
  destruct (String.eqb_spec (loan_status r) "Overdue") as [E | E].
  - split; [intros _; split; reflexivity | done].
  - split; [done | intros _; split; reflexivity].
Qed.

(** X9.  A row that is not overdue gets the same shade in both outputs: the
    rows at even positions are white and those at odd positions tinted,
    counting from zero, whether the position is taken as the sheet row
    [5 + i] or as the index [i] of the e-mail. *)
Theorem alternating_rows_agree (df : list report_row) (c : string)
    (t : date) (i : nat) (r : report_row) :
  df !! i = Some r ->
  loan_status r <> "Overdue" -> 0 <= days_remaining r ->
  exists cells tr,
    ws_data (wb_detail (build_workbook df c t)) !! i
    = Some (5 + Z.of_nat i, cells)
    /\ eb_rows (render_email_body df c t) !! i = Some tr
    /\ Forall (fun x => c_fill x
                        = Some (if Nat.even i then "FFFFFF" else "F5F8FF"))
         cells
    /\ tr_background tr = (if Nat.even i then "#ffffff" else "#f5f8ff").
Proof.
  intros Hi Hs Hd.
  exists (snd (data_row report_columns (5 + Z.of_nat i) (row_tuple r))).
  exists (email_row i r).
  split; [exact (detail_sheet_row df c t i r Hi) |].
  split; [exact (email_body_row df c t i r Hi) |].
  assert (Hpar : Z.of_nat i mod 2 = if Nat.even i then 0 else 1).
  { destruct (Nat.even i) eqn:E.
    - apply Nat.even_spec in E as [k ->]. rewrite Nat2Z.inj_mul.
      change (Z.of_nat 2) with 2. rewrite Z.mul_comm. apply Z_mod_mult.
    - apply (f_equal negb) in E. rewrite Nat.negb_even in E. simpl in E.
      apply Nat.odd_spec in E as [k ->].
      rewrite Nat2Z.inj_add, Nat2Z.inj_mul.
      change (Z.of_nat 2) with 2. change (Z.of_nat 1) with 1.
      rewrite Z.add_comm, Z.mul_comm, Z_mod_plus_full. reflexivity. }
  assert (Hfill : row_fill (5 + Z.of_nat i) (row_tuple r)
                  = if Nat.even i then "FFFFFF" else "F5F8FF").
  { unfold row_fill. rewrite field_5, field_9. cbn [py_eq_str py_lt_int].
    rewrite (proj2 (String.eqb_neq _ _) Hs), (proj2 (Z.ltb_ge _ _) Hd).
    cbn [orb].
    replace ((5 + Z.of_nat i) mod 2) with (1 - Z.of_nat i mod 2)
      by (Z.div_mod_to_equations; lia).
    rewrite Hpar. by destruct (Nat.even i). }
  split.
  - rewrite <- Hfill. apply data_row_fill.
  - cbn [email_row tr_background].
    rewrite (proj2 (String.eqb_neq _ _) Hs), Hpar.
    by destruct (Nat.even i).
Qed.

Lemma alternating_rows_agree_witness :
  exists cells tr,
    ws_data (wb_detail (build_workbook sample_rows "Maisha Bora Sacco"
                          (mkdate 2026 11 3))) !! 2%nat
    = Some (7, cells)
    /\ eb_rows (render_email_body sample_rows "Maisha Bora Sacco"
                  (mkdate 2026 11 3)) !! 2%nat = Some tr
    /\ Forall (fun x => c_fill x = Some "FFFFFF") cells
    /\ tr_background tr = "#ffffff".
Proof.
  apply (alternating_rows_agree sample_rows "Maisha Bora Sacco"
           (mkdate 2026 11 3) 2
           {| customer_name := "Alice Wanjiru"; loan_id := "LN-001";
              amount_borrowed := 5000000; outstanding_balance := 1250000;
              due_date := mkdate 2026 11 5; days_remaining := 2;
              phone_number := "0700111222"; email := "alice@example.co.ke";
              officer_branch := "Peter Kamau / Nairobi CBD";
              loan_status := "Active" |}).
  - vm_compute. reflexivity.
  - discriminate.
  - simpl. lia.
Defined.

(** Rows of status Active and rows of status Overdue, against all rows. *)
Lemma status_counts df :
  (length (List.filter (status_is "Active") df)
   + length (List.filter (status_is "Overdue") df) <= length df)%nat
  /\ ((length (List.filter (status_is "Active") df)
       + length (List.filter (status_is "Overdue") df) = length df)%nat
      <-> Forall (fun r => loan_status r = "Active"
                           \/ loan_status r = "Overdue") df).
Proof.
  induction df as [| r df [IH1 IH2]].
  - split; [done |]. split; [constructor | done].
  - cbn [List.filter].
    change (status_is "Active" r) with (String.eqb (loan_status r) "Active").
    change (status_is "Overdue" r)
      with (String.eqb (loan_status r) "Overdue").
    destruct (String.eqb_spec (loan_status r) "Active") as [Ea | Ea];
      destruct (String.eqb_spec (loan_status r) "Overdue") as [Eo | Eo];
      try congruence; rewrite Forall_cons; cbn [length]; (split; [lia |]).
    + rewrite <- IH2. split; [intros H; split; [by left | lia] |].
      intros [_ H]. lia.
    + rewrite <- IH2. split; [intros H; split; [by right | lia] |].
      intros [_ H]. lia.
    + split; [lia | intros [[? | ?] _]; done].
Qed.

(** X10.  The three loan counts are the same numbers in the summary sheet and in
    the e-mail.  Active and Overdue together never exceed the total, and
    make it up exactly when every row has one of these two statuses. *)
Theorem summary_counts_agree_and_add_up (df : list report_row) (c : string)
    (t1 t2 : date) :
  let wb := build_workbook df c t1 in
  let body := render_email_body df c t2 in
  exists total active overdue : nat,
    summary_sheet_value wb "Total Loans in Report"
    = Some (VInt (Z.of_nat total))
    /\ summary_sheet_value wb "Active Loans" = Some (VInt (Z.of_nat active))
    /\ summary_sheet_value wb "Overdue Loans" = Some (VInt (Z.of_nat overdue))
    /\ email_summary_value body "Total Loans in Report" = Some (pretty total)
    /\ email_summary_value body "Active Loans" = Some (pretty active)
    /\ email_summary_value body "Overdue Loans" = Some (pretty overdue)
    /\ total = length df
    /\ (active + overdue <= total)%nat
    /\ ((active + overdue = total)%nat
        <-> Forall (fun r => loan_status r = "Active"
                             \/ loan_status r = "Overdue") df).
Proof.
  intros wb body. subst wb body.
  exists (length df), (length (List.filter (status_is "Active") df)),
    (length (List.filter (status_is "Overdue") df)).
  rewrite !summary_sheet_value_eq.
  do 7 (split; [reflexivity |]). apply status_counts.
Qed.

Lemma sum_column_filter_le f p df :
  Forall (fun r => 0 <= f r) df ->
  0 <= sum_column f (List.filter p df) <= sum_column f df.
Proof.
  intros H. induction H as [| r df Hr H IH]; [done |].
  cbn [List.filter]. destruct (p r); rewrite ?sum_column_cons; lia.
Qed.

(** X11.  With no negative balance in the table, the Overdue Outstanding figure
    is at most the Total Outstanding figure, and neither is negative; the
    spreadsheet and the e-mail show the same two amounts. *)
Theorem overdue_outstanding_within_total (df : list report_row) (c : string)
    (t1 t2 : date) :
  Forall (fun r => 0 <= outstanding_balance r) df ->
  let wb := build_workbook df c t1 in
  let body := render_email_body df c t2 in
  exists total overdue : Z,
    summary_sheet_value wb "Total Outstanding (KES)"
    = Some (VStr (fmt_money total))
    /\ summary_sheet_value wb "Overdue Outstanding (KES)"
       = Some (VStr (fmt_money overdue))
    /\ email_summary_value body "Total Outstanding Balance"
       = Some ("KES " +:+ fmt_money total)
    /\ email_summary_value body "Overdue Outstanding"
       = Some ("KES " +:+ fmt_money overdue)
    /\ total = sum_column outstanding_balance df
    /\ 0 <= overdue <= total.
Proof.
  intros H wb body. subst wb body.
  exists (sum_column outstanding_balance df),
    (sum_column outstanding_balance (List.filter (status_is "Overdue") df)).
  rewrite !summary_sheet_value_eq.
  do 5 (split; [reflexivity |]). by apply sum_column_filter_le.
Qed.

Lemma overdue_outstanding_within_total_witness :
  exists total overdue : Z,
    summary_sheet_value
      (build_workbook sample_rows "Maisha Bora Sacco" (mkdate 2026 11 3))
      "Total Outstanding (KES)" = Some (VStr (fmt_money total))
    /\ email_summary_value
         (render_email_body sample_rows "Maisha Bora Sacco"
            (mkdate 2026 11 3))
         "Overdue Outstanding" = Some ("KES " +:+ fmt_money overdue)
    /\ 0 <= overdue <= total.
Proof.
  destruct (overdue_outstanding_within_total sample_rows "Maisha Bora Sacco"
              (mkdate 2026 11 3) (mkdate 2026 11 3))
    as (total & overdue & H1 & _ & _ & H4 & _ & H6).
  - vm_compute. repeat constructor; discriminate.
  - exists total, overdue. split; [exact H1 |]. split; [exact H4 | exact H6].
Defined.

(** ** How [send_email] and [main] end *)

Lemma basename_go_no_slash s acc :
  no_slash s -> basename_go s acc = acc +:+ s.
Proof.
  revert acc. induction s as [| c s IH]; intros acc H; simpl.
  - symmetry. apply string_app_empty_r.
  - destruct H as [Hc Hs]. destruct (Ascii.eqb_spec c "/") as [E | _]; [done |].
    rewrite IH by done. apply string_app_assoc.
Qed.

Lemma basename_go_app dir name acc :
  no_slash name -> basename_go (dir +:+ String "/" name) acc = name.
Proof.
  intros H. revert acc. induction dir as [| c dir IH]; intros acc.
  - change ("" +:+ String "/" name) with (String "/" name).
    cbn [basename_go]. rewrite Ascii.eqb_refl. by apply basename_go_no_slash.
  - change (String c dir +:+ String "/" name)
      with (String c (dir +:+ String "/" name)).
    cbn [basename_go]. destruct (Ascii.eqb c "/"); apply IH.
Qed.

(** [os.path.basename] gives what follows the last separator. *)
Lemma basename_app dir name :
  no_slash name -> basename (dir +:+ String "/" name) = name.
Proof. apply basename_go_app. Qed.

Lemma no_slash_app s t : no_slash s -> no_slash t -> no_slash (s +:+ t).
Proof.
  induction s as [| c s IH]; [done |]. intros [Hc Hs] Ht.
  change (String c s +:+ t) with (String c (s +:+ t)). split; auto.
Qed.

Lemma digit_char_no_slash n : digit_char n <> "/"%char.
Proof.
  unfold digit_char. intros H. apply (f_equal nat_of_ascii) in H.
  pose proof (Z.mod_pos_bound n 10 ltac:(lia)).
  rewrite nat_ascii_embedding in H by lia.
  change (nat_of_ascii "/") with 47%nat in H. lia.
Qed.

Lemma digits_no_slash k n : no_slash (digits k n).
Proof.
  induction k as [| k IH]; [done |]. split; [apply digit_char_no_slash | done].
Qed.

Lemma basename_report_filename t :
  basename (report_filename t)
  = "Loans_Due_Report_" +:+ strftime "%Y%m%d" t +:+ ".xlsx".
Proof.
  unfold report_filename.
  change ("reports" +:+ "/Loans_Due_Report_" +:+ strftime "%Y%m%d" t
          +:+ ".xlsx")
    with ("reports" +:+ String "/" ("Loans_Due_Report_"
                                     +:+ strftime "%Y%m%d" t +:+ ".xlsx")).
  apply basename_app. rewrite strftime_Ymd.
  apply no_slash_app; [by repeat split |].
  apply no_slash_app; [| by repeat split].
  repeat (apply no_slash_app; [apply digits_no_slash |]). done.
Qed.

Lemma has_email_section_false cfg :
  has_email_section cfg = false -> cfg_sender_email cfg = None.
Proof.
  unfold has_email_section. rewrite !orb_false_iff.
  intros ((((((((_ & H) & _) & _) & _) & _) & _) & _) & _).
  apply bool_decide_eq_false in H.
  destruct (cfg_sender_email cfg); [| done]. destruct H. by eexists.
Qed.

(** X12.  [send_email] reads three options of the section EMAIL without a
    fallback, in the order sender_email, sender_password, recipient_email.
    A file without that section ends the call with NoSectionError; with
    the section there, the first of the three that is not set ends it with
    the NoOptionError that names it.  Either way nothing has happened yet:
    the clock is not read, the attachment not opened, nothing logged and
    the server not contacted.  With the three set, neither error can
    occur: the other five options have fallbacks. *)
Theorem send_email_needs_its_three_options (cfg : config) (path : string)
    (df : list report_row) (w : world) :
  (has_email_section cfg = false ->
     send_email cfg path df w = (Raised (NoSectionError "EMAIL"), w))
  /\ (has_email_section cfg = true -> cfg_sender_email cfg = None ->
        send_email cfg path df w
        = (Raised (NoOptionError "sender_email" "EMAIL"), w))
  /\ (is_Some (cfg_sender_email cfg) -> cfg_sender_password cfg = None ->
        send_email cfg path df w
        = (Raised (NoOptionError "sender_password" "EMAIL"), w))
  /\ (is_Some (cfg_sender_email cfg) -> is_Some (cfg_sender_password cfg) ->
        cfg_recipient_email cfg = None ->
        send_email cfg path df w
        = (Raised (NoOptionError "recipient_email" "EMAIL"), w))
  /\ (sender_configured cfg ->
        forall name section,
          fst (send_email cfg path df w) <> Raised (NoOptionError name section)
          /\ fst (send_email cfg path df w) <> Raised (NoSectionError section)).
Proof.
  destruct (send_email_unconfigured cfg path df w) as (U1 & U2 & U3).
  split; [| split; [| split; [| split]]].
  - intros H. rewrite (U1 (has_email_section_false cfg H)). by rewrite H.
  - intros H Hs. rewrite (U1 Hs). by rewrite H.
  - exact U2.
  - exact U3.
  - intros Hall name section.
    destruct (send_email_cases cfg path df w)
      as [(e & Hno & _) | [(_ & _ & ->) | [(? & ? & ? & _ & _ & _ & ->)
          | (? & ? & ? & ? & _ & _ & _ & _ & _ & ->)]]];
      [done | split; discriminate ..].
Qed.


(** X14.  From the report to the message: when [send_email] succeeds on the path
    [generate_excel_report] returned, the one message it hands over
    carries the workbook just built, named by the date of the report
    without the directory. *)
Theorem attachment_is_the_report_just_written (df : list report_row)
    (c : string) (w1 : world) (path : string) (w2 : world) (cfg : config)
    (w3 : world) :
  generate_excel_report df c w1 = (Ok path, w2) ->
  send_email cfg path df w2 = (Ok tt, w3) ->
  exists msg,
    outbox w3 = outbox w1 ++ [msg]
    /\ msg_attachment msg = build_workbook df c (reading w1 0)
    /\ msg_attachment_name msg
       = "Loans_Due_Report_" +:+ strftime "%Y%m%d" (reading w1 0) +:+ ".xlsx"
    /\ path = "reports/" +:+ msg_attachment_name msg.
Proof.
  intros Hgen Hsend.
  destruct (send_email_cases cfg path df w2)
    as [(o & _ & _ & E) | [(_ & _ & E) | [(? & ? & ? & _ & _ & _ & E)
        | (part & msg & l & l' & _ & Hf & _ & Hm & Hn & E)]]];
    rewrite E in Hsend; try discriminate.
  injection Hsend as <-. exists msg.
  rewrite generate_excel_report_run in Hgen.
  apply pair_equal_spec in Hgen as [Hp Hw]. injection Hp as Hp.
  subst path w2.
  cbn [files add_log set_files] in Hf. rewrite lookup_insert_eq in Hf.
  injection Hf as <-. rewrite Hn, basename_report_filename.
  repeat split; done.
Qed.

Lemma attachment_is_the_report_just_written_witness :
  exists msg,
    outbox (snd (main sample_world)) = [msg]
    /\ msg_attachment_name msg = "Loans_Due_Report_20261103.xlsx".
Proof.
  set (w1 := snd (fetch_due_loans sample_db 7 true (started sample_world))).
  set (generated := generate_excel_report sample_rows "Maisha Bora Sacco" w1).
  destruct (attachment_is_the_report_just_written sample_rows
              "Maisha Bora Sacco" w1
              "reports/Loans_Due_Report_20261103.xlsx" (snd generated)
              sample_cfg
              (snd (send_email sample_cfg
                      "reports/Loans_Due_Report_20261103.xlsx" sample_rows
                      (snd generated))))
    as (msg & Hout & _ & Hname & _).
  - vm_compute. reflexivity.
  - vm_compute. reflexivity.
  - exists msg. split; [| rewrite Hname; vm_compute; reflexivity].
    assert (E : outbox w1 = []) by (vm_compute; reflexivity).
    rewrite E in Hout. cbn [app] in Hout. rewrite <- Hout.
    vm_compute. reflexivity.
Defined.

Lemma get_db_connection_run cfg w :
  get_db_connection cfg w =
  if supported_db_type cfg then (Ok (db w), w)
  else (Raised (ValueError ("Unsupported db_type: "
                            +:+ lower (default "sqlite" (cfg_db_type cfg)))),
        w).
Proof.
  unfold get_db_connection, supported_db_type. cbv zeta.
  by destruct (_ || _ || _).
Qed.

(** [main], stage by stage. *)
Lemma main_eq w :
  main w =
  match config_file w with
  | None =>
      (Raised (FileNotFoundError "Config file not found: config.ini"),
       started w)
  | Some cfg =>
      if supported_db_type cfg then
        match fetch_due_loans (db w) (default 7 (cfg_days_lookahead cfg))
                (default true (cfg_include_overdue cfg)) (started w) with
        | (Raised e, w1) => (Raised e, w1)
        | (Ok df, w1) =>
            if bool_decide (df = []) then
              (Ok tt,
               add_log INFO
                 "No loans due within the reporting window. No email sent."
                 w1)
            else
              match generate_excel_report df
                      (default "Loan Management System"
                         (cfg_company_name cfg)) w1 with
              | (Raised e, w2) => (Raised e, w2)
              | (Ok path, w2) =>
                  let sent := send_email cfg path df w2 in
                  (fst sent,
                   after_delivery (default true (cfg_save_local_copy cfg))
                     path (fst sent) (snd sent))
              end
        end
      else
        (Raised (ValueError ("Unsupported db_type: "
                             +:+ lower (default "sqlite" (cfg_db_type cfg)))),
         started w)
  end.
Proof.
  destruct (config_file w) as [cfg |] eqn:Hc.
  - assert (Hcfg : load_config "config.ini" (started w) = (Ok cfg, started w))
      by (unfold load_config; cbn [config_file started add_log]; by rewrite Hc).
    destruct (supported_db_type cfg) eqn:Hs.
    + assert (Hconn : get_db_connection cfg (started w)
                      = (Ok (db w), started w))
        by (by rewrite get_db_connection_run, Hs).
      destruct (fetch_due_loans (db w) (default 7 (cfg_days_lookahead cfg))
                  (default true (cfg_include_overdue cfg)) (started w))
        as [[df | e] w1] eqn:Hf.
      * destruct (bool_decide (df = [])) eqn:He.
        -- unfold main, log_info, log_error.
           do 3 step_log. fold (started w).
           step_with Hcfg. step_with Hconn. step_with Hf.
           rewrite He. apply log_run.
        -- apply bool_decide_eq_false in He.
           rewrite generate_excel_report_run. cbv zeta.
           eapply main_run;
             [exact Hcfg | exact Hconn | exact Hf | exact He
             | apply generate_excel_report_run | apply surjective_pairing].
      * unfold main, log_info, log_error.
        do 3 step_log. fold (started w).
        step_with Hcfg. step_with Hconn. by step_with Hf.
    + unfold main, log_info, log_error.
      do 3 step_log. fold (started w). step_with Hcfg.
      rewrite bind_run, get_db_connection_run, Hs. reflexivity.
  - unfold main, log_info, log_error.
    do 3 step_log. fold (started w).
    rewrite bind_run. unfold load_config at 1.
    cbn [config_file started add_log]. by rewrite Hc.
Qed.

Lemma supported_db_type_spec cfg :
  supported_db_type cfg = true <->
  lower (default "sqlite" (cfg_db_type cfg))
  ∈ ["sqlite"; "mysql"; "postgresql"].
Proof.
  unfold supported_db_type. cbv zeta.
  rewrite !orb_true_iff, !String.eqb_eq, !elem_of_cons, elem_of_nil. tauto.
Qed.

(** X15.  Without [config.ini] the run ends at once with FileNotFoundError: the
    three opening lines are logged and nothing else happens. *)
Theorem missing_config_stops_the_run (w : world) :
  config_file w = None ->
  exists w',
    main w
    = (Raised (FileNotFoundError "Config file not found: config.ini"), w')
    /\ log w'
       = log w ++ [ (INFO, banner);
                    (INFO, "  LOAN MONITORING SYSTEM — Starting Run");
                    (INFO, banner) ]
    /\ reads w' = reads w /\ files w' = files w /\ outbox w' = outbox w.
Proof.
  intros H. exists (started w). rewrite main_eq, H. split; [reflexivity |].
  cbn [started add_log log reads files outbox].
  rewrite <- !app_assoc. done.
Qed.

Lemma missing_config_stops_the_run_witness :
  exists w',
    main unconfigured_world
    = (Raised (FileNotFoundError "Config file not found: config.ini"), w')
    /\ reads w' = 0%nat /\ files w' = ∅ /\ outbox w' = [].
Proof.
  destruct (missing_config_stops_the_run unconfigured_world)
    as (w' & Hrun & _ & Hreads & Hfiles & Hout).
  - reflexivity.
  - exists w'. split; [exact Hrun |]. split; [exact Hreads |].
    split; [exact Hfiles | exact Hout].
Defined.

(** X16.  A [db_type] that is, in lower case, none of sqlite, mysql and
    postgresql ends the run with ValueError, which names the type in
    lower case; the clock is not read, no file is written and nothing is
    sent. *)
Theorem unsupported_db_type_stops_the_run (w : world) (cfg : config) :
  config_file w = Some cfg ->
  lower (default "sqlite" (cfg_db_type cfg))
  ∉ ["sqlite"; "mysql"; "postgresql"] ->
  exists w',
    main w
    = (Raised (ValueError ("Unsupported db_type: "
                           +:+ lower (default "sqlite" (cfg_db_type cfg)))),
       w')
    /\ reads w' = reads w /\ files w' = files w /\ outbox w' = outbox w.
Proof.
  intros Hc Hs. exists (started w). rewrite main_eq, Hc.
  rewrite <- supported_db_type_spec in Hs.
  apply not_true_is_false in Hs. rewrite Hs. done.
Qed.

Lemma unsupported_db_type_stops_the_run_witness :
  exists w',
    main (make_world (fun _ => mkdate 2026 11 3) oracle_cfg sample_db None)
    = (Raised (ValueError "Unsupported db_type: oracle"), w')
    /\ reads w' = 0%nat /\ files w' = ∅ /\ outbox w' = [].
Proof.
  destruct (unsupported_db_type_stops_the_run
              (make_world (fun _ => mkdate 2026 11 3) oracle_cfg sample_db
                 None) oracle_cfg)
    as (w' & Hrun & Hreads & Hfiles & Hout).
  - reflexivity.
  - intros H. apply supported_db_type_spec in H. vm_compute in H.
    discriminate H.
  - exists w'. split; [exact Hrun |]. split; [exact Hreads |].
    split; [exact Hfiles | exact Hout].
Defined.

(** X17.  A run that selects no loan ends without error after the line that
    says so: no report is written and no message sent, and the clock was
    read once. *)
Theorem empty_table_ends_quietly (w : world) (cfg : config) (w1 : world) :
  config_file w = Some cfg ->
  lower (default "sqlite" (cfg_db_type cfg))
  ∈ ["sqlite"; "mysql"; "postgresql"] ->
  fetch_due_loans (db w) (default 7 (cfg_days_lookahead cfg))
    (default true (cfg_include_overdue cfg)) (started w) = (Ok [], w1) ->
  exists w',
    main w = (Ok tt, w')
    /\ log w'
       = log w1
         ++ [(INFO, "No loans due within the reporting window. No email sent.")]
    /\ reads w' = S (reads w) /\ files w' = files w /\ outbox w' = outbox w.
Proof.
  intros Hc Hs Hf. apply supported_db_type_spec in Hs.
  rewrite main_eq, Hc, Hs, Hf. cbn [bool_decide decide_rel].
  rewrite bool_decide_eq_true_2 by done.
  eexists. split; [reflexivity |].
  destruct (fetch_due_loans_ok _ _ _ _ _ _ Hf) as [_ ->]. done.
Qed.

Lemma empty_table_ends_quietly_witness :
  exists w',
    main (make_world (fun _ => mkdate 2026 11 3) sample_cfg settled_db None)
    = (Ok tt, w')
    /\ reads w' = 1%nat /\ files w' = ∅ /\ outbox w' = [].
Proof.
  destruct (empty_table_ends_quietly
              (make_world (fun _ => mkdate 2026 11 3) sample_cfg settled_db
                 None) sample_cfg
              (snd (fetch_due_loans settled_db 7 true
                      (started (make_world (fun _ => mkdate 2026 11 3)
                                  sample_cfg settled_db None)))))
    as (w' & Hrun & _ & Hreads & Hfiles & Hout).
  - reflexivity.
  - apply supported_db_type_spec. vm_compute. reflexivity.
  - vm_compute. reflexivity.
  - exists w'. split; [exact Hrun |]. split; [exact Hreads |].
    split; [exact Hfiles | exact Hout].
Defined.

(** Where [fetch_due_loans] leaves the world. *)
Lemma fetch_due_loans_world conn days inc w :
  exists lines,
    snd (fetch_due_loans conn days inc w)
    = {| today_at := today_at w; reads := S (reads w);
         config_file := config_file w; db := db w; files := files w;
         log := log w ++ lines; smtp_error := smtp_error w;
         outbox := outbox w |}.
Proof.
  destruct (fetch_due_loans_run conn days inc w)
    as [(ds & _ & ->) | (s & r & _ & _ & ->)].
  - eexists [_]. reflexivity.
  - exists []. cbn [snd]. unfold tick. by rewrite app_nil_r.
Qed.

(** X18.  What a run that ends without error has done.  The
    configuration was there and named a supported data source, and
    [fetch_due_loans] returned a table.  If the table was empty, the clock
    was read once and nothing was written or sent.  Otherwise the three
    required options were set and the mail server accepted the session;
    the clock was read four times and exactly one message went out,
    carrying the workbook of the table under the name of the report date;
    and the report is still at its path exactly when a local copy is to be
    kept. *)
Theorem successful_run_has_delivered (w w' : world) :
  main w = (Ok tt, w') ->
  exists cfg df,
    let company := default "Loan Management System" (cfg_company_name cfg) in
    config_file w = Some cfg
    /\ lower (default "sqlite" (cfg_db_type cfg))
       ∈ ["sqlite"; "mysql"; "postgresql"]
    /\ fst (fetch_due_loans (db w) (default 7 (cfg_days_lookahead cfg))
              (default true (cfg_include_overdue cfg)) (started w)) = Ok df
    /\ (df = [] ->
        outbox w' = outbox w /\ files w' = files w
        /\ reads w' = S (reads w))
    /\ (df <> [] ->
        sender_configured cfg /\ smtp_error w = None
        /\ reads w' = (reads w + 4)%nat
        /\ exists msg,
             outbox w' = outbox w ++ [msg]
             /\ msg_attachment msg = build_workbook df company (reading w 1)
             /\ msg_attachment_name msg
                = "Loans_Due_Report_" +:+ strftime "%Y%m%d" (reading w 1)
                  +:+ ".xlsx"
             /\ files w' !! report_filename (reading w 1)
                = if default true (cfg_save_local_copy cfg)
                  then Some (msg_attachment msg) else None).
Proof.
  rewrite main_eq.
  destruct (config_file w) as [cfg |]; [| discriminate].
  destruct (supported_db_type cfg) eqn:Hs; [| discriminate].
  apply supported_db_type_spec in Hs.
  pose proof (fetch_due_loans_world (db w) (default 7 (cfg_days_lookahead cfg))
                (default true (cfg_include_overdue cfg)) (started w))
    as [lines Hw1].
  destruct (fetch_due_loans _ _ _ _) as [[df | e] w1] eqn:Hf;
    [| discriminate].
  cbn [snd] in Hw1. subst w1.
  destruct (bool_decide (df = [])) eqn:He.
  { apply bool_decide_eq_true in He. intros Hrun.
    apply pair_equal_spec in Hrun as [_ <-].
    exists cfg, df. cbv zeta.
    split; [done |]. split; [done |]. split; [by rewrite Hf |].
    split; [done | congruence]. }
  apply bool_decide_eq_false in He.
  rewrite generate_excel_report_run. cbv zeta.
  match goal with |- context [reading ?w1 0] =>
    assert (Hpath : reading w1 0 = reading w 1)
      by (unfold reading; cbn; f_equal; lia)
  end.
  rewrite Hpath.
  match goal with |- context [send_email cfg ?p df ?w2] =>
    destruct (send_email_cases cfg p df w2)
      as [(o & _ & _ & E) | [(_ & _ & E) | [(? & ? & ? & _ & _ & _ & E)
          | (part & msg & l & l' & Hall & Hfile & Hnoerr & Hm & Hn & E)]]];
      rewrite E; cbn [fst snd]; try discriminate
  end.
  cbn [files add_log set_files] in Hfile.
  rewrite lookup_insert_eq in Hfile. injection Hfile as <-.
  intros Hrun. apply pair_equal_spec in Hrun as [_ <-].
  exists cfg, df. cbv zeta.
  split; [done |]. split; [done |]. split; [by rewrite Hf |].
  split; [done |]. intros _.
  split; [done |]. split; [exact Hnoerr |].
  unfold after_delivery.
  rewrite bool_decide_eq_true_2
    by (cbn [files add_log add_outbox set_files tick];
        rewrite lookup_insert_eq; by eexists).
  destruct (default true (cfg_save_local_copy cfg)); cbn [negb andb].
  - split; [cbn; lia |]. exists msg. split; [done |]. split; [done |].
    split; [by rewrite Hn, basename_report_filename |].
    cbn [files add_log add_outbox set_files tick].
    by rewrite lookup_insert_eq, Hm.
  - split; [cbn; lia |]. exists msg. split; [done |]. split; [done |].
    split; [by rewrite Hn, basename_report_filename |].
    cbn [files add_log add_outbox set_files tick].
    by rewrite lookup_delete_eq.
Qed.

Lemma successful_run_has_delivered_witness :
  exists msg,
    outbox (snd (main sample_world)) = [msg]
    /\ msg_attachment msg
       = build_workbook sample_rows "Maisha Bora Sacco" (mkdate 2026 11 3)
    /\ is_Some (files (snd (main sample_world))
                !! "reports/Loans_Due_Report_20261103.xlsx").
Proof.
  destruct (successful_run_has_delivered sample_world
              (snd (main sample_world)))
    as (cfg & df & Hcfg & _ & Hdf & _ & Hsent).
  - vm_compute. reflexivity.
  - injection Hcfg as <-. cbv zeta in Hdf, Hsent.
    assert (Edf : df = sample_rows)
      by (unfold sample_rows; cbn [default sample_cfg cfg_days_lookahead
            cfg_include_overdue db sample_world make_world] in Hdf;
          by rewrite Hdf).
    subst df.
    destruct Hsent as (_ & _ & _ & msg & Hout & Hatt & _ & Hfile).
    { intros E. vm_compute in E. discriminate E. }
    exists msg. split; [exact Hout |]. split; [exact Hatt |].
    exists (msg_attachment msg). exact Hfile.
Defined.



(** ** The model at work *)

Example toordinal_3_november_2026 : toordinal (mkdate 2026 11 3) = 739923.
Proof. reflexivity. Qed.

Example fromordinal_730120 : fromordinal 730120 = mkdate 2000 1 1.
Proof. reflexivity. Qed.

Example leap_day_2024 :
  isoformat (date_add_days (mkdate 2024 2 28) 1) = "2024-02-29".
Proof. reflexivity. Qed.

Example strftime_long_form :
  strftime "%A, %d %B %Y" (mkdate 2026 11 3) = "Tuesday, 03 November 2026".
Proof. reflexivity. Qed.

Example fmt_money_groups :
  fmt_money 123456789 = "1,234,567.89" /\ fmt_money (-5) = "-0.05"
  /\ fmt_money 100000 = "1,000.00".
Proof. repeat split. Qed.

(** The sample database on 3 November 2026, with the default window of
    seven days and overdue loans included: the overdue loan, the loan two
    days late and the loan due in two days, in that order; the Paid loan
    and the loan due on the 20th are left out. *)
Example sample_table :
  match fst (fetch_due_loans sample_db 7 true sample_world) with
  | Ok df => map (fun r => (loan_id r, days_remaining r, loan_status r)) df
  | Raised _ => []
  end
  = [ ("LN-004", -33, "Overdue"); ("LN-002", -2, "Active");
      ("LN-001", 2, "Active") ].
Proof. vm_compute. reflexivity. Qed.

Example sample_table_without_overdue :
  match fst (fetch_due_loans sample_db 7 false sample_world) with
  | Ok df => map (fun r => (loan_id r, days_remaining r, officer_branch r)) df
  | Raised _ => []
  end
  = [ ("LN-001", 2, "Peter Kamau / Nairobi CBD") ].
Proof. vm_compute. reflexivity. Qed.

Example sample_run_log :
  log (snd (main sample_world)) =
  [ (INFO, banner);
    (INFO, "  LOAN MONITORING SYSTEM — Starting Run");
    (INFO, banner);
    (INFO, "Fetched 3 loans due within 7 days.");
    (INFO, "Excel report saved: reports/Loans_Due_Report_20261103.xlsx");
    (INFO, "Connecting to smtp.gmail.com:587...");
    (INFO, "✅  Email sent successfully to creditloans@company.com");
    (INFO, banner);
    (INFO, "  Run complete.");
    (INFO, banner) ].
Proof. vm_compute. reflexivity. Qed.

(** The same run: the fills of the three rows of the detail sheet and the
    backgrounds of the three rows of the e-mail table. *)
Example sample_run_row_colours :
  (map (fun wb => map (fun row => head (map c_fill (snd row)))
                    (ws_data (wb_detail wb)))
       (map snd (map_to_list (files (snd (main sample_world)))))
   = [ [ Some (Some "FFE0E0"); Some (Some "FFE0E0"); Some (Some "FFFFFF") ] ])
  /\ map (fun m => map tr_background (eb_rows (msg_html m)))
         (outbox (snd (main sample_world)))
     = [ [ "#ffe0e0"; "#f5f8ff"; "#ffffff" ] ].
Proof. split; vm_compute; reflexivity. Qed.
